(** * Bid admission pipeline of the auction marketplace

    A shallow embedding of the Django code that decides whether a bid is
    admitted: the models of [auctions/models.py], the bid form of
    [auctions/forms.py], the rapid-bidding gate of
    [auctions/rapid_bidding.py], the fraud detectors of
    [auctions/fraud_detection.py] and the views [place_bid] and [buy_now]
    of [auctions/views.py].

    Conventions.
    - A database table is a finite map from primary key to row, together
      with the sequence that hands out the next primary key. Its rows are
      read in the order of their keys.
    - Money ([DecimalField] with two decimal places) is an integer number
      of hundredths.
    - A point in time is an integer number of microseconds; one request
      reads the clock once ([now]).
    - A Python [float] is a binary64 float.
    - Values read from [django.conf.settings] are fields of [Settings.t];
      the settings module is not part of the sources, so every statement
      is made for arbitrary or explicitly given settings.
    - Python exceptions are the [Raise] results of the [Result] type. An
      ORM call that names a column or field its model does not declare
      raises as Django does: [FieldError] for an ordering, [TypeError] for
      a keyword of a model constructor. *)

From Stdlib Require Import ZArith QArith Lia Ascii String.
From Corelib Require SpecFloat.
From stdpp Require Import gmap list strings.

Open Scope Z_scope.

(** ** Time and money *)

Definition microseconds_per_second : Z := 1000000.

(** [timedelta(seconds=s)], [timedelta(minutes=m)], ... *)
Definition timedelta_seconds (s : Z) : Z := s * microseconds_per_second.
Definition timedelta_minutes (m : Z) : Z := timedelta_seconds (m * 60).
Definition timedelta_hours (h : Z) : Z := timedelta_minutes (h * 60).
Definition timedelta_days (d : Z) : Z := timedelta_hours (d * 24).

(** [int(delta.total_seconds())]: truncation towards zero. *)
Definition int_total_seconds (delta : Z) : Z := Z.quot delta microseconds_per_second.

(** [delta.days]: timedelta normalises with a floor. *)
Definition days (delta : Z) : Z := delta / timedelta_days 1.

(** A price in whole shillings as hundredths. *)
Definition UGX (n : Z) : Z := 100 * n.

(** ** Floats

    Python's [float] is IEEE 754 binary64; its operations are taken from
    [SpecFloat], the specification of them that Rocq's own floats are
    bound to. *)

Module float.
Definition t : Type := SpecFloat.spec_float.

Definition prec : Z := 53.
Definition emax : Z := 1024.

(** An int as a float, as [int * float] converts it: the nearest float,
    ties to even. Beyond the range of the floats Python raises
    [OverflowError]; the conversion gives an infinity there. *)
Definition of_int (n : Z) : t := SpecFloat.binary_normalize prec emax n 0 false.

(** [x * y] *)
Definition mul (x y : t) : t := SpecFloat.SFmul prec emax x y.

(** The float a decimal literal denotes, for a literal given as a fraction
    of two integers below 2^53 (both are floats, and the quotient is
    rounded once, as the literal is). *)
Definition literal (q : Q) : t :=
  SpecFloat.SFdiv prec emax (of_int (Qnum q)) (of_int (Z.pos (Qden q))).

(** [math.ceil(x)]: the least integer that is no lower than the float;
    [None] where it raises, [OverflowError] on an infinity and
    [ValueError] on a NaN. *)
Definition ceil (x : t) : option Z :=
  match x with
  | SpecFloat.S754_zero _ => Some 0
  | SpecFloat.S754_finite negative m e =>
      let n := if negative then Z.neg m else Z.pos m in
      Some (if 0 <=? e then n * 2 ^ e else - ((- n) / 2 ^ (- e)))
  | SpecFloat.S754_infinity _ | SpecFloat.S754_nan => None
  end.
End float.

(** ** Exceptions *)

Inductive exn :=
| FieldError (keyword : string)
    (* Cannot resolve keyword ... into field. *)
| TypeError (unexpected : list string)
    (* Model() got unexpected keyword arguments *)
| ZeroDivisionError.

Inductive Result (A : Type) :=
| Ok (a : A)
| Raise (e : exn).
Arguments Ok {A} a.
Arguments Raise {A} e.

#[export] Instance Result_ret : MRet Result := fun A a => Ok a.

#[export] Instance Result_bind : MBind Result := fun A B k r =>
  match r with
  | Ok a => k a
  | Raise e => Raise e
  end.

(** ** Query sets

    A query set is the list of (primary key, row) pairs it would yield. *)

Section QuerySet.
Context {R : Type}.

(** Insertion of a row into a list sorted by [key], ascending; rows with
    equal keys keep their relative order. *)
Fixpoint insert_sorted (key : Z * R -> Z) (x : Z * R) (l : list (Z * R))
  : list (Z * R) :=
  match l with
  | [] => [x]
  | y :: l' => if key x <=? key y then x :: y :: l'
               else y :: insert_sorted key x l'
  end.

(** [order_by('field')] *)
Definition order_by_asc (key : Z * R -> Z) (qs : list (Z * R)) : list (Z * R) :=
  foldr (insert_sorted key) [] qs.

(** [Model.objects]: the rows of the table, in the order of their primary
    keys. SQL leaves the order of the rows of a query without an
    [ORDER BY], and of the rows with equal keys under one, to the
    database; this is the order of a scan of the table, which SQLite
    keeps among equal keys. A statement that needs more than that says
    so. *)
Definition objects (table : gmap Z R) : list (Z * R) :=
  order_by_asc fst (map_to_list table).

Definition count (qs : list (Z * R)) : Z := Z.of_nat (length qs).

Definition exists_ (qs : list (Z * R)) : bool :=
  match qs with [] => false | _ :: _ => true end.

Definition first (qs : list (Z * R)) : option (Z * R) := head qs.

(** [order_by('-field')] *)
Definition order_by_desc (key : Z * R -> Z) (qs : list (Z * R)) : list (Z * R) :=
  order_by_asc (fun x => - key x) qs.

(** [qs.last()] on an ordered query set. *)
Definition last_ (qs : list (Z * R)) : option (Z * R) := last qs.

(** [qs[:n]] *)
Definition slice (n : nat) (qs : list (Z * R)) : list (Z * R) := take n qs.
End QuerySet.

(** [.values(col).distinct().count()] *)
Fixpoint distinct (l : list Z) : list Z :=
  match l with
  | [] => []
  | x :: l' => x :: List.filter (fun y => negb (y =? x)) (distinct l')
  end.

Definition option_Z_eqb (a b : option Z) : bool :=
  match a, b with
  | Some x, Some y => x =? y
  | None, None => true
  | _, _ => false
  end.

(** ** Models ([auctions/models.py], [users/models.py]) *)

Module User.
(** [django.contrib.auth.models.User] with the bypass flags of its
    [UserProfile]. *)
Record t := mk {
  id : Z;
  is_superuser : bool;
  date_joined : Z;
  bypass_account_age_check : bool;
  bypass_rapid_bidding_check : bool;
  bypass_fraud_detection : bool;
  bypass_all_restrictions : bool
}.
End User.

Module Item.
Inductive Status := active | sold | expired | cancelled | private | off_sale.

Definition status_eqb (a b : Status) : bool :=
  match a, b with
  | active, active | sold, sold | expired, expired
  | cancelled, cancelled | private, private | off_sale, off_sale => true
  | _, _ => false
  end.

Record t := mk {
  seller : Z;
  current_price : Z;
  min_increment : Z;
  buy_now_price : option Z;
  end_time : Z;
  status : Status;
  bid_count : Z;
  created_at : Z;
  winner : option Z
}.
End Item.

Module Bid.
Record t := mk {
  item : Z;
  bidder : Z;
  amount : Z;
  bid_time : Z;
  is_winning : bool;
  payment_method : string
}.

Definition set_is_winning (w : bool) (b : t) : t :=
  mk (item b) (bidder b) (amount b) (bid_time b) w (payment_method b).

(** The columns of the model that a lookup or an ordering can name,
    each with its sort key (the two text columns are never ordered by in
    the pipeline and carry a constant key). *)
Definition columns : list (string * (Z * t -> Z)) :=
  [ ("id"%string, fun r => fst r);
    ("pk"%string, fun r => fst r);
    ("item"%string, fun r => item (snd r));
    ("bidder"%string, fun r => bidder (snd r));
    ("amount"%string, fun r => amount (snd r));
    ("bid_time"%string, fun r => bid_time (snd r));
    ("is_winning"%string, fun r => if is_winning (snd r) then 1 else 0);
    ("payment_method"%string, fun _ => 0);
    ("payment_reference"%string, fun _ => 0) ].

Fixpoint resolve (cols : list (string * (Z * t -> Z))) (name : string)
  : option (Z * t -> Z) :=
  match cols with
  | [] => None
  | (n, key) :: cols' => if String.eqb n name then Some key else resolve cols' name
  end.

(** [Bid.objects...order_by(spec)] with the ordering given by name, as
    the ORM resolves it: a leading ['-'] asks for descending order, and
    a name that is no column of the model raises [FieldError] (orderings
    across a relation, like ['item__end_time'], do not occur in the
    pipeline and are not resolved here). *)
Definition order_by (spec : string) (qs : list (Z * t)) : Result (list (Z * t)) :=
  match spec with
  | String "-"%char name =>
      match resolve columns name with
      | Some key => Ok (order_by_desc key qs)
      | None => Raise (FieldError name)
      end
  | name =>
      match resolve columns name with
      | Some key => Ok (order_by_asc key qs)
      | None => Raise (FieldError name)
      end
  end.
End Bid.

Module BidCooldown.
Inductive CooldownType := soft_challenge | hard_cooldown | captcha_failed | suspended.

Definition type_eqb (a b : CooldownType) : bool :=
  match a, b with
  | soft_challenge, soft_challenge | hard_cooldown, hard_cooldown
  | captcha_failed, captcha_failed | suspended, suspended => true
  | _, _ => false
  end.

(** The phrases the gate formats into messages and reasons:
    "{n} bids in 2 minutes", "{n} bids in 5 minutes",
    "{n} bids in 20 seconds". *)
Inductive WindowDesc :=
| bids_in_2_minutes (n : Z)
| bids_in_5_minutes (n : Z)
| bids_in_20_seconds (n : Z).

Inductive Reason :=
| Rapid_bidding (w : WindowDesc)
| Excessive_bidding (w : WindowDesc)
| High_velocity_across_multiple_auctions
| Excessive_bidding_across_multiple_auctions
| Suspicious_minimal_increment_pattern
| Repeated_soft_challenge_violations
| Failed_CAPTCHA_challenge_3_times.

Record t := mk {
  user : Z;
  item : option Z;          (* null = global *)
  cooldown_type : CooldownType;
  reason : Reason;
  expires_at : Z;
  created_at : Z;
  is_active : bool;
  captcha_required : bool;
  captcha_passed : bool;
  failed_attempts : Z
}.

Definition set_is_active (a : bool) (c : t) : t :=
  mk (user c) (item c) (cooldown_type c) (reason c) (expires_at c)
     (created_at c) a (captcha_required c) (captcha_passed c) (failed_attempts c).

Definition set_captcha_passed (p : bool) (c : t) : t :=
  mk (user c) (item c) (cooldown_type c) (reason c) (expires_at c)
     (created_at c) (is_active c) (captcha_required c) p (failed_attempts c).

Definition set_failed_attempts (n : Z) (c : t) : t :=
  mk (user c) (item c) (cooldown_type c) (reason c) (expires_at c)
     (created_at c) (is_active c) (captcha_required c) (captcha_passed c) n.

(** [is_expired] *)
Definition is_expired (now : Z) (c : t) : bool := expires_at c <=? now.

(** [cleanup_expired]: deactivate expired cooldowns; returns the table
    and the number of rows updated. *)
Definition cleanup_expired (now : Z) (table : gmap Z t) : gmap Z t * Z :=
  let expired := fun c : t => is_active c && (expires_at c <=? now) in
  ((fun c => if expired c then set_is_active false c else c) <$> table,
   count (List.filter (fun r => expired (snd r)) (objects table))).

(** The rows [get_active_cooldown] selects from, before ordering. *)
Definition active_query (now : Z) (table : gmap Z t) (u : Z) (it : option Z)
  : list (Z * t) :=
  let query :=
    List.filter (fun r => (user (snd r) =? u) && is_active (snd r)
                          && (now <? expires_at (snd r)))
                (objects table) in
  match it with
  | Some i =>
      List.filter (fun r => option_Z_eqb (item (snd r)) (Some i)
                            || option_Z_eqb (item (snd r)) None) query
  | None =>
      List.filter (fun r => option_Z_eqb (item (snd r)) None) query
  end.

(** [get_active_cooldown]: active cooldown for the user on the item or
    globally; the lazy cleanup it starts with is part of the result.
    [order_by('-created_at').first()] is the row created last; among rows
    created at the same instant the source does not say which, and the
    first of them in the order of [objects] is taken. *)
Definition get_active_cooldown (now : Z) (table : gmap Z t) (u : Z) (it : option Z)
  : option (Z * t) * gmap Z t :=
  let table' := fst (cleanup_expired now table) in
  (first (order_by_desc (fun r => created_at (snd r)) (active_query now table' u it)),
   table').

(** [has_active_cooldown] *)
Definition has_active_cooldown (now : Z) (table : gmap Z t) (u : Z) (it : option Z)
  : bool :=
  match fst (get_active_cooldown now table u it) with
  | Some _ => true
  | None => false
  end.
End BidCooldown.

Module FraudAlert.
Inductive Severity := low | medium | high | critical.

Definition severity_eqb (a b : Severity) : bool :=
  match a, b with
  | low, low | medium, medium | high, high | critical, critical => true
  | _, _ => false
  end.

Inductive AlertType :=
| rapid_bidding
| bid_sniping_pattern
| unusual_bid_amount
| new_account_high_value
| self_bidding
| bid_pattern_anomaly
| shill_bidding_seller_affinity
| shill_low_win_ratio
| seller_auction_participation
| shill_timing_pattern
| collusive_bidding
| ai_fraud_assessment.

Definition type_eqb (a b : AlertType) : bool :=
  match a, b with
  | rapid_bidding, rapid_bidding
  | bid_sniping_pattern, bid_sniping_pattern
  | unusual_bid_amount, unusual_bid_amount
  | new_account_high_value, new_account_high_value
  | self_bidding, self_bidding
  | bid_pattern_anomaly, bid_pattern_anomaly
  | shill_bidding_seller_affinity, shill_bidding_seller_affinity
  | shill_low_win_ratio, shill_low_win_ratio
  | seller_auction_participation, seller_auction_participation
  | shill_timing_pattern, shill_timing_pattern
  | collusive_bidding, collusive_bidding
  | ai_fraud_assessment, ai_fraud_assessment => true
  | _, _ => false
  end.

(** [description] and [data] are rendered from the other columns and from
    the detector's counters; of [data] the row keeps the bid it was
    raised for. *)
Record t := mk {
  user : Z;
  item : option Z;
  alert_type : AlertType;
  severity : Severity;
  bid_id : Z;
  is_resolved : bool;
  resolved_by : option Z
}.

(** [FraudAlert(user=..., item=..., alert_type=..., severity=..., ...)]:
    the unsaved instance, with the model's defaults. *)
Definition new (u : Z) (it : Z) (ty : AlertType) (sev : Severity) (bid : Z) : t :=
  mk u (Some it) ty sev bid false None.
End FraudAlert.

Module WalletTransaction.
(** Of a row, the wallet (by its user), the type and the amount in
    hundredths; the buy-now split multiplies by 0.05, so amounts and
    balances are rationals. *)
Record t := mk {
  wallet : Z;
  transaction_type : string;
  amount : Q
}.

(** The fields declared by the model in [users/models.py], with the
    names every model accepts for its key and for a foreign key's column. *)
Definition fields : list string :=
  [ "id"; "pk"; "wallet"; "wallet_id"; "transaction_type"; "amount"; "balance_after";
    "description"; "payment_method"; "payment_reference"; "status";
    "metadata"; "created_at"; "updated_at" ]%string.

(** [Model.__init__]: a keyword that names no field raises [TypeError]. *)
Definition unexpected (kwargs : list string) : list string :=
  List.filter (fun k => negb (existsb (String.eqb k) fields)) kwargs.
End WalletTransaction.

Module TransactionLog.
(** The hash chain the [post_save] signal maintains is left out. *)
Record t := mk {
  transaction_type : string;
  item : Z;
  user : Z;
  amount : Z;
  payment_method : string
}.
End TransactionLog.

(** ** The database *)

Record DB := mkDB {
  items : gmap Z Item.t;
  bids : gmap Z Bid.t;
  bid_seq : Z;
  cooldowns : gmap Z BidCooldown.t;
  cooldown_seq : Z;
  alerts : gmap Z FraudAlert.t;
  alert_seq : Z;
  wallets : gmap Z Q;                       (* user -> balance *)
  wallet_transactions : list WalletTransaction.t;
  transaction_log : list TransactionLog.t
}.

Definition set_items (f : gmap Z Item.t -> gmap Z Item.t) (db : DB) : DB :=
  mkDB (f (items db)) (bids db) (bid_seq db) (cooldowns db) (cooldown_seq db)
       (alerts db) (alert_seq db) (wallets db) (wallet_transactions db)
       (transaction_log db).

Definition set_bids (f : gmap Z Bid.t -> gmap Z Bid.t) (db : DB) : DB :=
  mkDB (items db) (f (bids db)) (bid_seq db) (cooldowns db) (cooldown_seq db)
       (alerts db) (alert_seq db) (wallets db) (wallet_transactions db)
       (transaction_log db).

Definition set_cooldowns (f : gmap Z BidCooldown.t -> gmap Z BidCooldown.t) (db : DB) : DB :=
  mkDB (items db) (bids db) (bid_seq db) (f (cooldowns db)) (cooldown_seq db)
       (alerts db) (alert_seq db) (wallets db) (wallet_transactions db)
       (transaction_log db).

Definition set_wallets (f : gmap Z Q -> gmap Z Q) (db : DB) : DB :=
  mkDB (items db) (bids db) (bid_seq db) (cooldowns db) (cooldown_seq db)
       (alerts db) (alert_seq db) (f (wallets db)) (wallet_transactions db)
       (transaction_log db).

(** [bid.save()] of a new instance: the sequence gives the primary key. *)
Definition Bid_save_new (b : Bid.t) (db : DB) : Z * DB :=
  (bid_seq db,
   mkDB (items db) (<[bid_seq db := b]> (bids db)) (bid_seq db + 1)
        (cooldowns db) (cooldown_seq db) (alerts db) (alert_seq db)
        (wallets db) (wallet_transactions db) (transaction_log db)).

(** [bid.delete()] *)
Definition Bid_delete (pk : Z) (db : DB) : DB := set_bids (delete pk) db.

(** [BidCooldown.objects.create(...)] *)
Definition BidCooldown_create (c : BidCooldown.t) (db : DB) : DB :=
  mkDB (items db) (bids db) (bid_seq db)
       (<[cooldown_seq db := c]> (cooldowns db)) (cooldown_seq db + 1)
       (alerts db) (alert_seq db) (wallets db) (wallet_transactions db)
       (transaction_log db).

(** [alert.save()] of a new instance. *)
Definition FraudAlert_save_new (a : FraudAlert.t) (db : DB) : DB :=
  mkDB (items db) (bids db) (bid_seq db) (cooldowns db) (cooldown_seq db)
       (<[alert_seq db := a]> (alerts db)) (alert_seq db + 1)
       (wallets db) (wallet_transactions db) (transaction_log db).

(** [WalletTransaction.objects.create(...)]: the instance is built
    from the keywords first, which raises on a keyword that names no field. *)
Definition WalletTransaction_create (kwargs : list string) (row : WalletTransaction.t)
    (db : DB) : Result DB :=
  match WalletTransaction.unexpected kwargs with
  | [] =>
      Ok (mkDB (items db) (bids db) (bid_seq db) (cooldowns db) (cooldown_seq db)
               (alerts db) (alert_seq db) (wallets db)
               (wallet_transactions db ++ [row]) (transaction_log db))
  | names => Raise (TypeError names)
  end.

(** [TransactionLog.objects.create(...)] *)
Definition TransactionLog_create (row : TransactionLog.t) (db : DB) : DB :=
  mkDB (items db) (bids db) (bid_seq db) (cooldowns db) (cooldown_seq db)
       (alerts db) (alert_seq db) (wallets db) (wallet_transactions db)
       (transaction_log db ++ [row]).

(** [with transaction.atomic():] the block's writes are kept when it ends
    normally and undone when it raises. *)
Definition atomic {A} (block : DB -> Result (A * DB)) (db : DB) : Result A * DB :=
  match block db with
  | Ok (a, db') => (Ok a, db')
  | Raise e => (Raise e, db)
  end.

(** [item.bids]: the bids whose foreign key is the item. *)
Definition item_bids (db : DB) (item_pk : Z) : list (Z * Bid.t) :=
  List.filter (fun r => Bid.item (snd r) =? item_pk) (objects (bids db)).

(** ** Settings ([django.conf.settings]) *)

Module Settings.
Record t := mk {
  (* rapid-bidding gate *)
  AUCTION_ENDGAME_MULTIPLIER : float.t;
  AUCTION_ENDGAME_WINDOW_MINUTES : Z;
  RAPID_BID_SOFT_THRESHOLD_2MIN : Z;
  RAPID_BID_SOFT_WINDOW_2MIN : Z;
  RAPID_BID_SOFT_THRESHOLD_5MIN : Z;
  RAPID_BID_SOFT_WINDOW_5MIN : Z;
  RAPID_BID_HARD_THRESHOLD_5MIN : Z;
  RAPID_BID_HARD_WINDOW_5MIN : Z;
  RAPID_BID_HARD_THRESHOLD_20SEC : Z;
  RAPID_BID_HARD_WINDOW_20SEC : Z;
  RAPID_BID_COOLDOWN_DURATION : Z;
  GLOBAL_VELOCITY_SOFT_WINDOW_MINUTES : Z;
  GLOBAL_VELOCITY_SOFT_THRESHOLD_BIDS : Z;
  GLOBAL_VELOCITY_SOFT_THRESHOLD_AUCTIONS : Z;
  GLOBAL_VELOCITY_HARD_WINDOW_MINUTES : Z;
  GLOBAL_VELOCITY_HARD_THRESHOLD_BIDS : Z;
  GLOBAL_VELOCITY_HARD_THRESHOLD_AUCTIONS : Z;
  MIN_INCREMENT_WINDOW_SECONDS : Z;
  MIN_INCREMENT_THRESHOLD_BIDS : Z;
  (* account age *)
  HIGH_VALUE_BID_THRESHOLD : Z;           (* whole shillings *)
  MIN_ACCOUNT_AGE_FOR_HIGH_BIDS : Z;
  (* fraud detectors *)
  RAPID_BIDDING_WINDOW_MINUTES : Z;
  RAPID_BIDDING_THRESHOLD : Z;
  BID_SNIPING_WINDOW_SECONDS : Z;
  BID_SNIPING_HISTORY_DAYS : Z;
  BID_SNIPING_THRESHOLD : Z;
  UNUSUAL_BID_MULTIPLIER : Q;
  BID_PATTERN_MIN_HISTORY : Z;
  BID_PATTERN_DEVIATION_MULTIPLIER : Q;
  SHILL_MIN_TOTAL_BIDS : Z;
  SHILL_MIN_SELLER_BIDS : Z;
  SHILL_AFFINITY_THRESHOLD : Q;
  LOW_WIN_RATIO_MIN_BIDS : Z;
  LOW_WIN_RATIO_THRESHOLD : Q;
  SELLER_AFFINITY_MIN_AUCTIONS : Z;
  SELLER_AFFINITY_PARTICIPATION_THRESHOLD : Q;
  TIMING_PATTERN_EARLY_THRESHOLD : Q;
  TIMING_PATTERN_LATE_THRESHOLD : Q;
  TIMING_PATTERN_MIN_EARLY_BIDS : Z;
  TIMING_PATTERN_LATE_RATIO_THRESHOLD : Q;
  COLLUSIVE_COMMON_ITEMS_THRESHOLD : Z;
  COLLUSIVE_SUSPICIOUS_PAIRS_THRESHOLD : Z;
  OPENAI_API_KEY : option string            (* [hasattr(settings, ...)] *)
}.
End Settings.

(** ** The bid form ([auctions/forms.py]) *)

Module PlaceBidForm.
Inductive ValidationError :=
| invalid_amount
    (* the DecimalField rejected the posted value *)
| Item_not_found
    (* "Item not found." *)
| must_be_higher_than_current_price (current_price : Z)
    (* "Your bid must be higher than the current price of UGX ..." *)
| must_be_at_least (min_bid : Z)
    (* "Your bid must be at least UGX ... (current price + minimum increment)" *).

Inductive Cleaned :=
| Valid (amount : Z)
| Invalid (e : ValidationError).

(** [clean_amount] *)
Definition clean_amount (item : option Item.t) (amount : Z) : Cleaned :=
  match item with
  | None => Invalid Item_not_found
  | Some item =>
      if amount <=? Item.current_price item then
        Invalid (must_be_higher_than_current_price (Item.current_price item))
      else
        let min_bid := Item.current_price item + Item.min_increment item in
        if amount <? min_bid then Invalid (must_be_at_least min_bid)
        else Valid amount
  end.

(** The model's [DecimalField(max_digits=12, decimal_places=2)]: the
    posted text is [None] when it is missing or no decimal with at most
    two places, and at most twelve digits are allowed. *)
Definition amount_field (posted : option Z) : Cleaned :=
  match posted with
  | None => Invalid invalid_amount
  | Some a => if Z.abs a <? 10 ^ 12 then Valid a else Invalid invalid_amount
  end.

(** [form.is_valid()] with [form.cleaned_data['amount']]:
    [clean_amount] runs only on a value the field accepted. *)
Definition is_valid (posted : option Z) (item : option Item.t) : Cleaned :=
  match amount_field posted with
  | Valid a => clean_amount item a
  | Invalid e => Invalid e
  end.
End PlaceBidForm.

(** ** The rapid-bidding gate ([auctions/rapid_bidding.py]) *)

Module RapidBiddingDetector.
Import BidCooldown(WindowDesc, bids_in_2_minutes, bids_in_5_minutes,
                   bids_in_20_seconds).

Inductive Action := allow | soft_challenge | hard_cooldown | suspended.

Inductive Message :=
| complete_the_security_challenge
    (* "Please complete the security challenge to continue bidding." *)
| please_wait (mins secs : Z)
    (* "You're bidding too quickly. Please wait {mins}m {secs}s before bidding again." *)
| too_many_verification_attempts
    (* "Too many verification attempts. You've been temporarily blocked from bidding." *)
| unusual_activity_detected (w : WindowDesc)
    (* "Unusual activity detected ({window_desc}). Please complete the security challenge to continue bidding." *)
| too_many_bids_too_quickly (w : WindowDesc) (mins : Z)
    (* "Too many bids too quickly ({window_desc}). Please wait {mins} minutes before bidding again." *)
| unusual_bidding_activity
    (* "Unusual bidding activity detected. Please complete the security challenge." *)
| suspicious_cross_auction_bidding (mins : Z)
    (* "Suspicious cross-auction bidding. Cooling down for {mins} minutes." *)
| unusual_bid_pattern
    (* "Unusual bid pattern detected. Please complete the verification." *)
| bid_allowed
    (* "Bid allowed" *).

(** (is_allowed, action_type, message, cooldown_duration) *)
Definition Verdict : Type := bool * Action * Message * option Z.

(** [math.ceil(threshold * multiplier)]: the threshold is an int and the
    multiplier a float, so the product is a float, rounded as floats are
    (25 times 2.2 is a little above 55, and the threshold 56). Where the
    product is an infinity or a NaN the ceiling raises and the request
    ends as a server error; [check_rapid_bidding] has no answer for that,
    and the threshold is taken as configured. *)
Definition scaled (threshold : Z) (multiplier : float.t) : Z :=
  default threshold (float.ceil (float.mul (float.of_int threshold) multiplier)).

(** [_is_auction_endgame] *)
Definition _is_auction_endgame (cfg : Settings.t) (now : Z) (item : Item.t) : bool :=
  if negb (Item.status_eqb (Item.status item) Item.active) then false
  else
    let time_remaining := Item.end_time item - now in
    let endgame_seconds := Settings.AUCTION_ENDGAME_WINDOW_MINUTES cfg * 60 in
    (0 <? time_remaining) && (time_remaining <=? timedelta_seconds endgame_seconds).

(** Truth value of an optional integer argument. *)
Definition given (arg : option Z) : bool :=
  match arg with
  | Some n => negb (n =? 0)
  | None => false
  end.

(** [_check_window]: (exceeded, count with the pending bid). *)
Definition _check_window (now : Z) (bids_queryset : list (Z * Bid.t))
    (minutes seconds : option Z) (threshold : Z) : bool * Z :=
  let counted window_start :=
    let n := count (List.filter (fun r => window_start <=? Bid.bid_time (snd r))
                                bids_queryset) in
    (threshold <=? n + 1, n + 1) in
  if given minutes then counted (now - timedelta_minutes (default 0 minutes))
  else if given seconds then counted (now - timedelta_seconds (default 0 seconds))
  else (false, 0).

(** The user's bids from [window_start] on, over all auctions. *)
Definition recent_user_bids (db : DB) (u : Z) (window_start : Z) : list (Z * Bid.t) :=
  List.filter (fun r => (Bid.bidder (snd r) =? u)
                        && (window_start <=? Bid.bid_time (snd r)))
              (objects (bids db)).

(** [_check_global_velocity_soft] *)
Definition _check_global_velocity_soft (cfg : Settings.t) (now : Z) (db : DB) (u : Z)
  : bool :=
  let window_start :=
    now - timedelta_minutes (Settings.GLOBAL_VELOCITY_SOFT_WINDOW_MINUTES cfg) in
  let recent_bids := recent_user_bids db u window_start in
  let bid_count := count recent_bids + 1 in
  let auction_count :=
    Z.of_nat (length (distinct (map (fun r => Bid.item (snd r)) recent_bids))) in
  (Settings.GLOBAL_VELOCITY_SOFT_THRESHOLD_BIDS cfg <=? bid_count)
  && (Settings.GLOBAL_VELOCITY_SOFT_THRESHOLD_AUCTIONS cfg <=? auction_count).

(** [_check_global_velocity_hard] *)
Definition _check_global_velocity_hard (cfg : Settings.t) (now : Z) (db : DB) (u : Z)
  : bool :=
  let window_start :=
    now - timedelta_minutes (Settings.GLOBAL_VELOCITY_HARD_WINDOW_MINUTES cfg) in
  let recent_bids := recent_user_bids db u window_start in
  let bid_count := count recent_bids + 1 in
  let auction_count :=
    Z.of_nat (length (distinct (map (fun r => Bid.item (snd r)) recent_bids))) in
  (Settings.GLOBAL_VELOCITY_HARD_THRESHOLD_BIDS cfg <=? bid_count)
  && (Settings.GLOBAL_VELOCITY_HARD_THRESHOLD_AUCTIONS cfg <=? auction_count).

(** [increment <= item.min_increment * Decimal('1.1')] *)
Definition within_tolerance (increment min_increment : Z) : bool :=
  10 * increment <=? 11 * min_increment.

(** The loop over consecutive recent bids. *)
Fixpoint minimal_increments (min_increment : Z) (amounts : list Z) : Z :=
  match amounts with
  | current :: ((next_bid :: _) as rest) =>
      (if within_tolerance (next_bid - current) min_increment then 1 else 0)
      + minimal_increments min_increment rest
  | _ => 0
  end.

(** [_check_minimum_increment_pattern] *)
Definition _check_minimum_increment_pattern (cfg : Settings.t) (now : Z) (db : DB)
    (u : Z) (item_pk : Z) (item : Item.t) (current_bid_amount : Z) : bool :=
  let window_start :=
    now - timedelta_seconds (Settings.MIN_INCREMENT_WINDOW_SECONDS cfg) in
  let recent_bids :=
    order_by_asc (fun r => Bid.bid_time (snd r))
      (List.filter (fun r => (Bid.bidder (snd r) =? u)
                             && (Bid.item (snd r) =? item_pk)
                             && (window_start <=? Bid.bid_time (snd r)))
                   (objects (bids db))) in
  if count recent_bids <? Settings.MIN_INCREMENT_THRESHOLD_BIDS cfg - 1 then false
  else
    let n := minimal_increments (Item.min_increment item)
               (map (fun r => Bid.amount (snd r)) recent_bids) in
    let n :=
      match last_ recent_bids with
      | Some last_bid =>
          if negb (current_bid_amount =? 0)
             && within_tolerance (current_bid_amount - Bid.amount (snd last_bid))
                                 (Item.min_increment item)
          then n + 1 else n
      | None => n
      end in
    Settings.MIN_INCREMENT_THRESHOLD_BIDS cfg <=? n.

(** [_create_hard_cooldown] *)
Definition _create_hard_cooldown (now : Z) (u : Z) (it : option Z)
    (duration_seconds : Z) (reason : BidCooldown.Reason) (db : DB) : DB :=
  let expires_at := now + timedelta_seconds duration_seconds in
  BidCooldown_create
    (BidCooldown.mk u it BidCooldown.hard_cooldown reason expires_at now
                    true false false 0) db.

(** The soft challenges of the user in the given scope, whatever their
    state. *)
Definition soft_challenges (db : DB) (u : Z) (it : option Z)
  : list (Z * BidCooldown.t) :=
  List.filter (fun r => (BidCooldown.user (snd r) =? u)
                        && option_Z_eqb (BidCooldown.item (snd r)) it
                        && BidCooldown.type_eqb (BidCooldown.cooldown_type (snd r))
                                                BidCooldown.soft_challenge)
              (objects (cooldowns db)).

(** [_create_soft_challenge]: returns [true] when it escalated to a hard
    cooldown. *)
Definition _create_soft_challenge (cfg : Settings.t) (now : Z) (u : Z)
    (it : option Z) (reason : BidCooldown.Reason) (db : DB) : bool * DB :=
  let expires_at := now + timedelta_minutes 10 in
  let recent_soft_challenges :=
    count (List.filter (fun r => now - timedelta_hours 1
                                 <=? BidCooldown.created_at (snd r))
                       (soft_challenges db u it)) in
  if 2 <=? recent_soft_challenges then
    (true,
     _create_hard_cooldown now u it (Settings.RAPID_BID_COOLDOWN_DURATION cfg * 2)
                           BidCooldown.Repeated_soft_challenge_violations db)
  else
    let existing :=
      first (order_by_desc (fun r => BidCooldown.created_at (snd r))
               (List.filter (fun r => BidCooldown.is_active (snd r))
                            (soft_challenges db u it))) in
    match existing with
    | Some _ => (false, db)
    | None =>
        (false,
         BidCooldown_create
           (BidCooldown.mk u it BidCooldown.soft_challenge reason expires_at now
                           true true false 0) db)
    end.

(** [pass_captcha_challenge]: mark the CAPTCHA of the user's soft
    challenge as passed. *)
Definition pass_captcha_challenge (u : Z) (it : option Z) (db : DB) : bool * DB :=
  let cooldown :=
    first (order_by_desc (fun r => BidCooldown.created_at (snd r))
             (List.filter (fun r => BidCooldown.is_active (snd r)
                                    && BidCooldown.captcha_required (snd r))
                          (soft_challenges db u it))) in
  match cooldown with
  | Some (k, c) =>
      (true,
       set_cooldowns
         (insert k (BidCooldown.set_is_active
                      false (BidCooldown.set_captcha_passed true c))) db)
  | None => (false, db)
  end.

(** [fail_captcha_challenge]: record a failed CAPTCHA attempt. *)
Definition fail_captcha_challenge (cfg : Settings.t) (now : Z) (u : Z) (it : option Z)
    (db : DB) : DB :=
  let cooldown :=
    first (order_by_desc (fun r => BidCooldown.created_at (snd r))
             (List.filter (fun r => BidCooldown.is_active (snd r))
                          (soft_challenges db u it))) in
  match cooldown with
  | Some (k, c) =>
      let c := BidCooldown.set_failed_attempts (BidCooldown.failed_attempts c + 1) c in
      if 3 <=? BidCooldown.failed_attempts c then
        let db := set_cooldowns (insert k (BidCooldown.set_is_active false c)) db in
        _create_hard_cooldown now u it (Settings.RAPID_BID_COOLDOWN_DURATION cfg * 3)
                              BidCooldown.Failed_CAPTCHA_challenge_3_times db
      else set_cooldowns (insert k c) db
  | None => db
  end.

Definition action_of_type (ty : BidCooldown.CooldownType) : Action :=
  match ty with
  | BidCooldown.soft_challenge => soft_challenge
  | BidCooldown.hard_cooldown => hard_cooldown
  | BidCooldown.suspended => suspended
  | BidCooldown.captcha_failed => allow   (* never returned as an action *)
  end.

(** The first step of [check_rapid_bidding]: what an existing cooldown
    decides, if anything. *)
Definition existing_cooldown_verdict (now : Z) (existing_cooldown : option (Z * BidCooldown.t))
  : option Verdict :=
  match existing_cooldown with
  | Some (_, c) =>
      if BidCooldown.type_eqb (BidCooldown.cooldown_type c) BidCooldown.soft_challenge
         && negb (BidCooldown.captcha_passed c)
      then Some (false, soft_challenge, complete_the_security_challenge, None)
      else if BidCooldown.type_eqb (BidCooldown.cooldown_type c) BidCooldown.hard_cooldown
              || BidCooldown.type_eqb (BidCooldown.cooldown_type c) BidCooldown.suspended
      then
        let time_remaining := int_total_seconds (BidCooldown.expires_at c - now) in
        let mins := time_remaining / 60 in
        let secs := time_remaining mod 60 in
        Some (false, action_of_type (BidCooldown.cooldown_type c),
              please_wait mins secs, Some time_remaining)
      else None
  | None => None
  end.

(** [Bid.objects.filter(bidder=user, item=item).order_by('-bid_time')] *)
Definition user_bids_on (db : DB) (u : Z) (item_pk : Z) : list (Z * Bid.t) :=
  order_by_desc (fun r => Bid.bid_time (snd r))
    (List.filter (fun r => (Bid.bidder (snd r) =? u) && (Bid.item (snd r) =? item_pk))
                 (objects (bids db))).

(** [settings.AUCTION_ENDGAME_MULTIPLIER if is_endgame else 1.0] *)
Definition endgame_multiplier (cfg : Settings.t) (now : Z) (item : Item.t)
  : float.t :=
  if _is_auction_endgame cfg now item
  then Settings.AUCTION_ENDGAME_MULTIPLIER cfg else float.of_int 1.

(** The rest of [check_rapid_bidding]: the velocity thresholds. *)
Definition check_thresholds (cfg : Settings.t) (now : Z) (db : DB)
    (u : Z) (item_pk : Z) (item : Item.t) (bid_amount : Z) : Verdict * DB :=
  let multiplier := endgame_multiplier cfg now item in
  let user_bids := user_bids_on db u item_pk in
  let soft_2min_threshold :=
    scaled (Settings.RAPID_BID_SOFT_THRESHOLD_2MIN cfg) multiplier in
  let '(soft_2min_check, soft_2min_count) :=
    _check_window now user_bids (Some (Settings.RAPID_BID_SOFT_WINDOW_2MIN cfg)) None
                  soft_2min_threshold in
  let soft_5min_threshold :=
    scaled (Settings.RAPID_BID_SOFT_THRESHOLD_5MIN cfg) multiplier in
  let '(soft_5min_check, soft_5min_count) :=
    _check_window now user_bids (Some (Settings.RAPID_BID_SOFT_WINDOW_5MIN cfg)) None
                  soft_5min_threshold in
  if soft_2min_check || soft_5min_check then
    let window_desc :=
      if soft_2min_check then bids_in_2_minutes soft_2min_count
      else bids_in_5_minutes soft_5min_count in
    let '(escalated, db) :=
      _create_soft_challenge cfg now u (Some item_pk)
                             (BidCooldown.Rapid_bidding window_desc) db in
    if escalated then
      ((false, hard_cooldown, too_many_verification_attempts,
        Some (Settings.RAPID_BID_COOLDOWN_DURATION cfg * 2)), db)
    else
      ((false, soft_challenge, unusual_activity_detected window_desc, None), db)
  else
  let hard_5min_threshold :=
    scaled (Settings.RAPID_BID_HARD_THRESHOLD_5MIN cfg) multiplier in
  let '(hard_5min_check, hard_5min_count) :=
    _check_window now user_bids (Some (Settings.RAPID_BID_HARD_WINDOW_5MIN cfg)) None
                  hard_5min_threshold in
  let hard_20sec_threshold :=
    scaled (Settings.RAPID_BID_HARD_THRESHOLD_20SEC cfg) multiplier in
  let '(hard_20sec_check, hard_20sec_count) :=
    _check_window now user_bids None (Some (Settings.RAPID_BID_HARD_WINDOW_20SEC cfg))
                  hard_20sec_threshold in
  if hard_5min_check || hard_20sec_check then
    let cooldown_duration := Settings.RAPID_BID_COOLDOWN_DURATION cfg in
    let window_desc :=
      if hard_5min_check then bids_in_5_minutes hard_5min_count
      else bids_in_20_seconds hard_20sec_count in
    let db :=
      _create_hard_cooldown now u (Some item_pk) cooldown_duration
                            (BidCooldown.Excessive_bidding window_desc) db in
    let mins := cooldown_duration / 60 in
    ((false, hard_cooldown, too_many_bids_too_quickly window_desc mins,
      Some cooldown_duration), db)
  else
  if _check_global_velocity_soft cfg now db u then
    let '(_, db) :=
      _create_soft_challenge cfg now u None
                             BidCooldown.High_velocity_across_multiple_auctions db in
    ((false, soft_challenge, unusual_bidding_activity, None), db)
  else
  if _check_global_velocity_hard cfg now db u then
    let cooldown_duration := Settings.RAPID_BID_COOLDOWN_DURATION cfg * 2 in
    let db :=
      _create_hard_cooldown now u None cooldown_duration
                            BidCooldown.Excessive_bidding_across_multiple_auctions db in
    let mins := cooldown_duration / 60 in
    ((false, hard_cooldown, suspicious_cross_auction_bidding mins,
      Some cooldown_duration), db)
  else
  if _check_minimum_increment_pattern cfg now db u item_pk item bid_amount then
    let '(_, db) :=
      _create_soft_challenge cfg now u (Some item_pk)
                             BidCooldown.Suspicious_minimal_increment_pattern db in
    ((false, soft_challenge, unusual_bid_pattern, None), db)
  else
    ((true, allow, bid_allowed, None), db).

(** [check_rapid_bidding]: the verdict and the database after the lazy
    cleanup and any cooldown the check created. *)
Definition check_rapid_bidding (cfg : Settings.t) (now : Z) (db : DB)
    (u : Z) (item_pk : Z) (item : Item.t) (bid_amount : Z) : Verdict * DB :=
  let '(existing_cooldown, table) :=
    BidCooldown.get_active_cooldown now (cooldowns db) u (Some item_pk) in
  let db := set_cooldowns (fun _ => table) db in
  match existing_cooldown_verdict now existing_cooldown with
  | Some verdict => (verdict, db)
  | None => check_thresholds cfg now db u item_pk item bid_amount
  end.
End RapidBiddingDetector.

(** ** The fraud detectors ([auctions/fraud_detection.py]) *)

(** [needle in haystack] on strings. *)
Fixpoint contains (needle haystack : string) : bool :=
  String.prefix needle haystack
  || match haystack with
     | EmptyString => false
     | String _ rest => contains needle rest
     end.

(** [a / b] on counters, as a rational. *)
Definition ratio (a b : Z) : Q := (inject_Z a / inject_Z b)%Q.

Module FraudDetectionService.
Import FraudAlert(low, medium, high, critical).

Section Detectors.
Variable cfg : Settings.t.
Variable now : Z.
Variable db : DB.
(** The saved bid under analysis, with the objects its foreign keys
    point to. *)
Variable bid_pk : Z.
Variable bid : Bid.t.
Variable item : Item.t.
Variable bidder : User.t.

Definition alert (ty : FraudAlert.AlertType) (sev : FraudAlert.Severity)
  : FraudAlert.t :=
  FraudAlert.new (User.id bidder) (Bid.item bid) ty sev bid_pk.

Definition bids_of_bidder : list (Z * Bid.t) :=
  List.filter (fun r => Bid.bidder (snd r) =? User.id bidder) (objects (bids db)).

(** [detect_rapid_bidding] *)
Definition detect_rapid_bidding : list FraudAlert.t :=
  let window_minutes := Settings.RAPID_BIDDING_WINDOW_MINUTES cfg in
  let threshold := Settings.RAPID_BIDDING_THRESHOLD cfg in
  let time_window := now - timedelta_minutes window_minutes in
  let recent_bids :=
    count (List.filter (fun r => time_window <=? Bid.bid_time (snd r))
                       bids_of_bidder) in
  if threshold <=? recent_bids
  then [alert FraudAlert.rapid_bidding high] else [].

(** [detect_bid_sniping]; [end_time] is a non-null column, so the two
    tests of its truth value always pass. *)
Definition detect_bid_sniping : list FraudAlert.t :=
  let time_until_end := Item.end_time item - now in
  let sniping_window := Settings.BID_SNIPING_WINDOW_SECONDS cfg in
  let history_days := Settings.BID_SNIPING_HISTORY_DAYS cfg in
  let threshold := Settings.BID_SNIPING_THRESHOLD cfg in
  if time_until_end <=? timedelta_seconds sniping_window then
    let recent_snipes :=
      count (List.filter
               (fun r =>
                  (now - timedelta_days history_days <=? Bid.bid_time (snd r))
                  && match items db !! Bid.item (snd r) with
                     | Some past_item =>
                         Item.end_time past_item - Bid.bid_time (snd r)
                         <=? timedelta_seconds sniping_window
                     | None => false
                     end)
               bids_of_bidder) in
    if threshold <=? recent_snipes
    then [alert FraudAlert.bid_sniping_pattern medium] else []
  else [].

(** [detect_unusual_bid_amount]. The average is the [AVG] of the database,
    handed back as a [Decimal]; to how many digits the database rounds it
    is not in the sources, and the exact quotient is taken. The product
    is that of a [Decimal] and an integer or [Decimal] multiplier. *)
Definition detect_unusual_bid_amount : list FraudAlert.t :=
  let multiplier := Settings.UNUSUAL_BID_MULTIPLIER cfg in
  let amounts := map (fun r => Bid.amount (snd r)) (item_bids db (Bid.item bid)) in
  match amounts with
  | [] => []                                  (* the average is None *)
  | _ =>
      let avg_bid := ratio (foldr Z.add 0 amounts) (Z.of_nat (length amounts)) in
      if negb (Qeq_bool avg_bid 0)
         && Qle_bool (avg_bid * multiplier) (inject_Z (Bid.amount bid))
      then [alert FraudAlert.unusual_bid_amount medium] else []
  end.

(** [detect_new_account_high_value] *)
Definition detect_new_account_high_value : list FraudAlert.t :=
  let account_age := now - User.date_joined bidder in
  let min_age := Settings.MIN_ACCOUNT_AGE_FOR_HIGH_BIDS cfg in
  let threshold := Settings.HIGH_VALUE_BID_THRESHOLD cfg in
  if (days account_age <? min_age) && (UGX threshold <=? Bid.amount bid)
  then [alert FraudAlert.new_account_high_value high] else [].

(** [detect_self_bidding] *)
Definition detect_self_bidding : list FraudAlert.t :=
  if Item.seller item =? User.id bidder
  then [alert FraudAlert.self_bidding critical] else [].

(** [detect_bid_pattern_anomaly]: the history is asked for in the order
    of ['-created_at']. *)
Definition detect_bid_pattern_anomaly : Result (list FraudAlert.t) :=
  let min_history := Settings.BID_PATTERN_MIN_HISTORY cfg in
  let multiplier := Settings.BID_PATTERN_DEVIATION_MULTIPLIER cfg in
  ordered ← Bid.order_by "-created_at" bids_of_bidder;
  let user_bid_history := slice 20 ordered in
  if min_history <=? count user_bid_history then
    let bid_amounts := map (fun r => Bid.amount (snd r)) user_bid_history in
    match bid_amounts with
    | [] => Raise ZeroDivisionError
    | _ =>
        let avg_amount :=
          ratio (foldr Z.add 0 bid_amounts) (Z.of_nat (length bid_amounts)) in
        if Qle_bool (avg_amount * multiplier) (inject_Z (Bid.amount bid))
        then Ok [alert FraudAlert.bid_pattern_anomaly medium] else Ok []
    end
  else Ok [].

(** [item__seller=...]: the join of a bid with its item. *)
Definition seller_of (b : Bid.t) : option Z := Item.seller <$> items db !! Bid.item b.

(** [detect_shill_bidding_patterns] *)
Definition detect_shill_bidding_patterns : Result (list FraudAlert.t) :=
  let min_total := Settings.SHILL_MIN_TOTAL_BIDS cfg in
  let min_seller := Settings.SHILL_MIN_SELLER_BIDS cfg in
  let threshold := Settings.SHILL_AFFINITY_THRESHOLD cfg in
  let total_user_bids := count bids_of_bidder in
  let seller_item_bids :=
    count (List.filter (fun r => option_Z_eqb (seller_of (snd r))
                                              (Some (Item.seller item)))
                       bids_of_bidder) in
  if (min_total <=? total_user_bids) && (min_seller <=? seller_item_bids) then
    if total_user_bids =? 0 then Raise ZeroDivisionError
    else
      let seller_affinity_ratio := ratio seller_item_bids total_user_bids in
      if Qle_bool threshold seller_affinity_ratio
      then Ok [alert FraudAlert.shill_bidding_seller_affinity critical] else Ok []
  else Ok [].

(** [detect_low_win_ratio] *)
Definition detect_low_win_ratio : list FraudAlert.t :=
  let min_bids := Settings.LOW_WIN_RATIO_MIN_BIDS cfg in
  let threshold := Settings.LOW_WIN_RATIO_THRESHOLD cfg in
  let user_bids := count bids_of_bidder in
  let user_wins :=
    count (List.filter
             (fun r => option_Z_eqb (Item.winner (snd r)) (Some (User.id bidder))
                       && Item.status_eqb (Item.status (snd r)) Item.sold)
             (objects (items db))) in
  if min_bids <=? user_bids then
    let win_ratio := if 0 <? user_bids then ratio user_wins user_bids else 0%Q in
    if Qle_bool win_ratio threshold
    then [alert FraudAlert.shill_low_win_ratio high] else []
  else [].

(** [detect_seller_affinity] *)
Definition detect_seller_affinity : list FraudAlert.t :=
  let min_auctions := Settings.SELLER_AFFINITY_MIN_AUCTIONS cfg in
  let threshold := Settings.SELLER_AFFINITY_PARTICIPATION_THRESHOLD cfg in
  let seller := Item.seller item in
  let seller_items :=
    List.filter (fun r => Item.seller (snd r) =? seller) (objects (items db)) in
  let user_seller_auctions :=
    count (List.filter
             (fun r => existsb (fun b => Bid.item (snd b) =? fst r) bids_of_bidder)
             seller_items) in
  if min_auctions <=? user_seller_auctions then
    let total_seller_auctions := count seller_items in
    let participation_rate :=
      if 0 <? total_seller_auctions
      then ratio user_seller_auctions total_seller_auctions else 0%Q in
    if Qle_bool threshold participation_rate
    then [alert FraudAlert.seller_auction_participation high] else []
  else [].

(** [elapsed / duration if duration > 0 else 0] *)
Definition progress (elapsed duration : Z) : Q :=
  if 0 <? duration then ratio elapsed duration else 0%Q.

(** [detect_bid_timing_pattern] *)
Definition detect_bid_timing_pattern : list FraudAlert.t :=
  let early_threshold := Settings.TIMING_PATTERN_EARLY_THRESHOLD cfg in
  let late_threshold := Settings.TIMING_PATTERN_LATE_THRESHOLD cfg in
  let min_early_bids := Settings.TIMING_PATTERN_MIN_EARLY_BIDS cfg in
  let late_ratio_threshold := Settings.TIMING_PATTERN_LATE_RATIO_THRESHOLD cfg in
  let auction_progress :=
    progress (Bid.bid_time bid - Item.created_at item)
             (Item.end_time item - Item.created_at item) in
  let bid_progress (r : Z * Bid.t) : option Q :=
    (fun it => progress (Bid.bid_time (snd r) - Item.created_at it)
                        (Item.end_time it - Item.created_at it))
      <$> items db !! Bid.item (snd r) in
  let sample :=
    omap bid_progress
         (slice 50 (List.filter
                      (fun r => bool_decide (is_Some (items db !! Bid.item (snd r))))
                      (order_by_desc (fun r => Bid.bid_time (snd r)) bids_of_bidder))) in
  let user_early_bids :=
    Z.of_nat (length (List.filter (fun p => Qle_bool p early_threshold) sample)) in
  let user_late_bids :=
    Z.of_nat (length (List.filter
                        (fun p => negb (Qle_bool p early_threshold)
                                  && Qle_bool late_threshold p) sample)) in
  if Qle_bool auction_progress early_threshold
     && (min_early_bids <=? user_early_bids) then
    let late_bid_ratio :=
      if 0 <? user_early_bids then ratio user_late_bids user_early_bids else 0%Q in
    if Qle_bool late_bid_ratio late_ratio_threshold
    then [alert FraudAlert.shill_timing_pattern medium] else []
  else [].

(** [detect_collusive_bidding] *)
Definition detect_collusive_bidding : list FraudAlert.t :=
  let common_items_threshold := Settings.COLLUSIVE_COMMON_ITEMS_THRESHOLD cfg in
  let suspicious_pairs_threshold :=
    Settings.COLLUSIVE_SUSPICIOUS_PAIRS_THRESHOLD cfg in
  let same_item_bidders :=
    distinct (map (fun r => Bid.bidder (snd r)) (item_bids db (Bid.item bid))) in
  let my_items := map (fun r => Bid.item (snd r)) bids_of_bidder in
  let common_items (other_bidder_id : Z) : Z :=
    Z.of_nat (length (distinct
      (map (fun r => Bid.item (snd r))
           (List.filter
              (fun r => existsb (Z.eqb (Bid.item (snd r))) my_items
                        && (Bid.bidder (snd r) =? other_bidder_id))
              (objects (bids db)))))) in
  let suspicious_pairs :=
    count_occ bool_dec
      (map (fun other => negb (other =? User.id bidder)
                         && (common_items_threshold <=? common_items other))
           same_item_bidders) true in
  if suspicious_pairs_threshold <=? Z.of_nat suspicious_pairs
  then [alert FraudAlert.collusive_bidding critical] else [].

(** [get_ai_fraud_assessment]; [ai_response] is the text the external
    model answered, [None] when the call raised. *)
Definition get_ai_fraud_assessment (openai_enabled : bool)
    (ai_response : option string) : option FraudAlert.t :=
  if negb openai_enabled then None
  else
    match ai_response with
    | None => None
    | Some ai_response =>
        let risk_level :=
          if contains "RISK: Critical" ai_response || contains "RISK: High" ai_response
          then (if contains "Critical" ai_response then critical else high)
          else if contains "RISK: Low" ai_response then low
          else medium in
        Some (alert FraudAlert.ai_fraud_assessment risk_level)
    end.

(** [analyze_bid]: runs the detectors in order, then saves every alert;
    an exception of a detector leaves the function before the saving
    loop. Returns the alerts and the database with them saved. *)
Definition analyze_bid (ai_response : option string)
  : Result (list FraudAlert.t * DB) :=
  let alerts :=
    detect_rapid_bidding ++ detect_bid_sniping ++ detect_unusual_bid_amount
    ++ detect_new_account_high_value ++ detect_self_bidding in
  anomaly ← detect_bid_pattern_anomaly;
  shill ← detect_shill_bidding_patterns;
  let alerts :=
    alerts ++ anomaly ++ shill ++ detect_low_win_ratio ++ detect_seller_affinity
    ++ detect_bid_timing_pattern ++ detect_collusive_bidding in
  let openai_enabled :=
    match Settings.OPENAI_API_KEY cfg with Some _ => true | None => false end in
  let alerts :=
    match alerts with
    | [] => alerts
    | _ =>
        if openai_enabled then
          match get_ai_fraud_assessment openai_enabled ai_response with
          | Some ai_assessment => alerts ++ [ai_assessment]
          | None => alerts
          end
        else alerts
    end in
  Ok (alerts, foldl (fun d a => FraudAlert_save_new a d) db alerts).
End Detectors.
End FraudDetectionService.

(** ** The views ([auctions/views.py]) *)

Module views.
Inductive Level := error | warning | success | info.

Inductive Text :=
(* place_bid *)
| cannot_bid_on_own_item
    (* "You cannot bid on your own item!" *)
| auction_no_longer_active
    (* "This auction is no longer active." *)
| auction_has_ended
    (* "This auction has ended." *)
| form_error (e : PlaceBidForm.ValidationError)
| rapid_message (m : RapidBiddingDetector.Message)
| account_too_new (account_age_days days_remaining : Z)
    (* "New accounts must be at least ... days old to place bids above UGX ..." *)
| fraud_blocked (fraud_details : list string)
    (* fraud_msg + "Your bid has been blocked. Contact support if you believe this is an error." *)
| fraud_under_review (fraud_details : list string)
    (* fraud_msg + "Your bid is under review. Our security team will verify this activity." *)
| fraud_logged_with_bypass (fraud_details : list string)
    (* fraud_msg + "Logged for review (you have fraud detection bypass)." *)
| bid_placed (amount : Z)
    (* "Your bid of UGX ... has been placed successfully!" *)
(* buy_now *)
| no_buy_now_price
    (* "This item doesn't have a Buy Now price." *)
| cannot_buy_own_item
    (* "You cannot buy your own item!" *)
| bidding_has_started
    (* "Buy Now is no longer available. Bidding has started." *)
| insufficient_wallet_balance (price : Z) (balance : Q)
    (* "Insufficient wallet balance. You need UGX ... but have UGX ... Please deposit funds." *)
| wallet_needed
    (* "You need to have a wallet to use Buy Now. Please contact support." *)
| someone_else_purchased
    (* "Someone else just purchased this item!" *)
| purchased (total_amount : Z)
    (* "Congratulations! You successfully purchased ... using Buy Now!" *)
| platform_fee (platform_tax seller_receives : Q)
    (* "Platform fee (5%): UGX ... Seller receives: UGX ..." *).

Inductive Response :=
| Http404
| redirect_item_detail (messages : list (Level * Text))
| redirect_wallet_dashboard (messages : list (Level * Text))
| ServerError (e : exn).

Module Session.
(** [request.session]: the keys [pending_bid_{item.id}] (amount and
    timestamp) and [show_captcha_{item.id}]. *)
Record t := mk {
  pending_bid : gmap Z (Z * Z);
  show_captcha : gmap Z bool
}.
End Session.

Inductive Method := GET | POST.

(** What the view leaves behind besides the database: the response, the
    session and the exceptions it logged. *)
Record Reply := mkReply {
  response : Response;
  session : Session.t;
  logged : list exn
}.

(** The bypass permissions [place_bid] derives from the user. *)
Definition bypass_all (user : User.t) : bool :=
  User.is_superuser user || User.bypass_all_restrictions user.
Definition bypass_rapid_bidding (user : User.t) : bool :=
  User.is_superuser user || User.bypass_rapid_bidding_check user || bypass_all user.
Definition bypass_account_age (user : User.t) : bool :=
  User.is_superuser user || User.bypass_account_age_check user || bypass_all user.
Definition bypass_fraud (user : User.t) : bool :=
  User.is_superuser user || User.bypass_fraud_detection user || bypass_all user.

(** The detail phrases of the fraud message. The view also looks for the
    alert types ['bid_sniping'] and ['shill_bidding']; no detector emits
    an alert of either type. *)
Definition fraud_details (fraud_alerts : list FraudAlert.t) : list string :=
  let has ty :=
    existsb (fun a => FraudAlert.type_eqb (FraudAlert.alert_type a) ty) fraud_alerts in
  (if has FraudAlert.rapid_bidding then ["rapid bidding pattern"%string] else [])
  ++ (if has FraudAlert.unusual_bid_amount
      then ["unusual bid amount (3x+ average)"%string] else [])
  ++ (if has FraudAlert.new_account_high_value
      then ["new account high-value bid"%string] else []).

(** Step 6 of [place_bid]: the bid is valid, update the auction state.
    [item] is the instance the view loaded at its start. These are four
    statements, each committed on its own; the definition runs them with
    no statement of another request in between ([statements], further
    down, has them one by one). Of several bids of the highest amount
    [order_by('-amount').first()] is the first in the order of [objects],
    the one placed first. *)
Definition update_auction_state (item_pk : Z) (item : Item.t) (db : DB) : DB :=
  let db :=
    set_bids (fmap (fun b => if Bid.item b =? item_pk
                             then Bid.set_is_winning false b else b)) db in
  let highest_bid :=
    first (order_by_desc (fun r => Bid.amount (snd r)) (item_bids db item_pk)) in
  let '(db, current_price) :=
    match highest_bid with
    | Some (highest_pk, highest) =>
        (set_bids (alter (Bid.set_is_winning true) highest_pk) db, Bid.amount highest)
    | None => (db, Item.current_price item)
    end in
  let bid_count := Item.bid_count item + 1 in
  set_items
    (alter (fun row => Item.mk (Item.seller row) current_price (Item.min_increment row)
                               (Item.buy_now_price row) (Item.end_time row)
                               (Item.status row) bid_count (Item.created_at row)
                               (Item.winner row))
           item_pk) db.

(** The messages shown when the bid is rejected: all of them, by level. *)
Definition shown (rejection_reasons : list (Level * Text)) : list (Level * Text) :=
  map (fun r => match fst r with
                | error => (error, snd r)
                | _ => (warning, snd r)
                end) rejection_reasons.

(** Step 1 of [place_bid]: the rapid-bidding check, unless the user has
    the bypass. Gives [should_reject_bid], [rejection_reasons], the
    session and the database. *)
Definition check_rapid (cfg : Settings.t) (now : Z) (user : User.t) (pk : Z)
    (item : Item.t) (bid_amount : Z) (sess : Session.t) (db : DB)
  : bool * list (Level * Text) * Session.t * DB :=
  if negb (bypass_rapid_bidding user) then
    let '((is_allowed, action_type, rapid, _), db) :=
      RapidBiddingDetector.check_rapid_bidding cfg now db (User.id user)
                                               pk item bid_amount in
    if negb is_allowed then
      match action_type with
      | RapidBiddingDetector.soft_challenge =>
          (* store the pending bid for the CAPTCHA *)
          (true, [(warning, rapid_message rapid)],
           Session.mk (<[pk := (bid_amount, now)]> (Session.pending_bid sess))
                      (<[pk := true]> (Session.show_captcha sess)),
           db)
      | _ => (true, [(error, rapid_message rapid)], sess, db)
      end
    else (false, [], sess, db)
  else (false, [], sess, db).

(** Step 2: the account age, unless the user has the bypass. *)
Definition check_account_age (cfg : Settings.t) (now : Z) (user : User.t)
    (bid_amount : Z) (should_reject_bid : bool)
    (rejection_reasons : list (Level * Text)) : bool * list (Level * Text) :=
  if negb (bypass_account_age user) then
    let account_age_days := days (now - User.date_joined user) in
    if (UGX (Settings.HIGH_VALUE_BID_THRESHOLD cfg) <? bid_amount)
       && (account_age_days <? Settings.MIN_ACCOUNT_AGE_FOR_HIGH_BIDS cfg)
    then
      (true,
       rejection_reasons
       ++ [(error, account_too_new account_age_days
                     (Settings.MIN_ACCOUNT_AGE_FOR_HIGH_BIDS cfg - account_age_days))])
    else (should_reject_bid, rejection_reasons)
  else (should_reject_bid, rejection_reasons).

(** Step 4: the fraud detection on the saved bid, whatever the other
    checks said; an exception of the service is logged and the view goes
    on. Gives [should_reject_bid], [rejection_reasons], the logged
    exceptions and the database. *)
Definition check_fraud (cfg : Settings.t) (now : Z) (ai_response : option string)
    (user : User.t) (bid_pk : Z) (bid : Bid.t) (item : Item.t)
    (should_reject_bid : bool) (rejection_reasons : list (Level * Text)) (db : DB)
  : bool * list (Level * Text) * list exn * DB :=
  match FraudDetectionService.analyze_bid cfg now db bid_pk bid item user
                                          ai_response with
  | Ok (fraud_alerts, db) =>
      match fraud_alerts with
      | [] => (should_reject_bid, rejection_reasons, [], db)
      | _ =>
          (* fraud alerts are saved to the database whatever becomes of the bid *)
          let critical_alerts :=
            List.filter (fun a => FraudAlert.severity_eqb (FraudAlert.severity a)
                                                          FraudAlert.critical)
                        fraud_alerts in
          let details := fraud_details fraud_alerts in
          if negb (bypass_fraud user) then
            match critical_alerts with
            | _ :: _ =>
                (true, rejection_reasons ++ [(error, fraud_blocked details)], [], db)
            | [] =>
                (* non-critical alerts: warn but allow the bid *)
                (should_reject_bid,
                 rejection_reasons ++ [(warning, fraud_under_review details)], [], db)
            end
          else
            (* the user has the bypass: warn but do not block *)
            (should_reject_bid,
             rejection_reasons ++ [(warning, fraud_logged_with_bypass details)],
             [], db)
      end
  | Raise e => (should_reject_bid, rejection_reasons, [e], db)
  end.

(** [place_bid] *)
Definition place_bid (cfg : Settings.t) (now : Z) (ai_response : option string)
    (user : User.t) (method : Method) (posted_amount : option Z) (pk : Z)
    (sess : Session.t) (db : DB) : Reply * DB :=
  match items db !! pk with
  | None => (mkReply Http404 sess [], db)
  | Some item =>
  match method with
  | GET => (mkReply (redirect_item_detail []) sess [], db)
  | POST =>
  if Item.seller item =? User.id user then
    (mkReply (redirect_item_detail [(error, cannot_bid_on_own_item)]) sess [], db)
  else if negb (Item.status_eqb (Item.status item) Item.active) then
    (mkReply (redirect_item_detail [(error, auction_no_longer_active)]) sess [], db)
  else if Item.end_time item <=? now then
    (mkReply (redirect_item_detail [(error, auction_has_ended)]) sess [], db)
  else
  match PlaceBidForm.is_valid posted_amount (Some item) with
  | PlaceBidForm.Invalid e =>
      (mkReply (redirect_item_detail [(error, form_error e)]) sess [], db)
  | PlaceBidForm.Valid bid_amount =>
      let bid := Bid.mk pk (User.id user) bid_amount now false "web" in
      (* 1. rapid bidding *)
      let '(should_reject_bid, rejection_reasons, sess, db) :=
        check_rapid cfg now user pk item bid_amount sess db in
      (* 2. account age *)
      let '(should_reject_bid, rejection_reasons) :=
        check_account_age cfg now user bid_amount should_reject_bid
                          rejection_reasons in
      (* 3. always save the bid, to run the fraud detection on it *)
      let '(bid_pk, db) := Bid_save_new bid db in
      (* 4. fraud detection *)
      let '(should_reject_bid, rejection_reasons, logged, db) :=
        check_fraud cfg now ai_response user bid_pk bid item should_reject_bid
                    rejection_reasons db in
      (* 5. if any check failed, delete the bid and show all messages *)
      if should_reject_bid then
        (mkReply (redirect_item_detail (shown rejection_reasons)) sess logged,
         Bid_delete bid_pk db)
      else
        (* 6. the bid is valid: update the auction state *)
        let db := update_auction_state pk item db in
        (mkReply
           (redirect_item_detail
              ((success, bid_placed bid_amount)
               :: List.filter (fun r => match fst r with warning => true | _ => false end)
                              rejection_reasons))
           sess logged,
         db)
  end
  end
  end.

(** [buy_now], before the transaction: the checks on the item as loaded
    and on the wallet. Gives the response of a failed check, or the
    loaded item and the wallet balance. *)
Definition buy_now_prerequisites (now : Z) (user : User.t) (pk : Z) (db : DB)
  : Response + Item.t * Q :=
  match items db !! pk with
  | None => inl Http404
  | Some item =>
  if negb (Item.status_eqb (Item.status item) Item.active) then
    inl (redirect_item_detail [(error, auction_no_longer_active)])
  else if Item.end_time item <=? now then
    inl (redirect_item_detail [(error, auction_has_ended)])
  else
  match Item.buy_now_price item with
  | None => inl (redirect_item_detail [(error, no_buy_now_price)])
  | Some buy_now_price =>
  if buy_now_price =? 0 then
    inl (redirect_item_detail [(error, no_buy_now_price)])
  else if Item.seller item =? User.id user then
    inl (redirect_item_detail [(error, cannot_buy_own_item)])
  else if exists_ (item_bids db pk) then
    inl (redirect_item_detail [(error, bidding_has_started)])
  else
  match wallets db !! User.id user with
  | None => inl (redirect_item_detail [(error, wallet_needed)])
  | Some balance =>
      if negb (Qle_bool (inject_Z buy_now_price) balance) then
        inl (redirect_wallet_dashboard
               [(error, insufficient_wallet_balance buy_now_price balance)])
      else inr (item, balance)
  end
  end
  end.

(** The conditional update
    [Item.objects.filter(pk=pk, status='active', winner__isnull=True)
         .update(status='sold', winner=request.user)]:
    the number of rows it changed and the table after it. *)
Definition sell_if_available (user : User.t) (pk : Z) (table : gmap Z Item.t)
  : Z * gmap Z Item.t :=
  match table !! pk with
  | Some row =>
      if Item.status_eqb (Item.status row) Item.active
         && option_Z_eqb (Item.winner row) None
      then
        (1, <[pk := Item.mk (Item.seller row) (Item.current_price row)
                            (Item.min_increment row) (Item.buy_now_price row)
                            (Item.end_time row) Item.sold (Item.bid_count row)
                            (Item.created_at row) (Some (User.id user))]> table)
      else (0, table)
  | None => (0, table)
  end.

(** The block of [buy_now] under [transaction.atomic()]. *)
Definition buy_now_block (user : User.t) (pk : Z) (item : Item.t) (balance : Q)
    (db : DB) : Result (list (Level * Text) * DB) :=
  let total_amount := default 0 (Item.buy_now_price item) in
  let platform_tax := (inject_Z total_amount * (5 # 100))%Q in
  let seller_receives := (inject_Z total_amount - platform_tax)%Q in
  let '(updated_count, table) := sell_if_available user pk (items db) in
  let db := set_items (fun _ => table) db in
  if updated_count =? 0 then
    (* someone else bought it first *)
    Ok ([(error, someone_else_purchased)], db)
  else
    (* purchase successful: the wallet transactions *)
    let db :=
      set_wallets (insert (User.id user) (balance - inject_Z total_amount)%Q) db in
    db ← WalletTransaction_create
           ["wallet"; "transaction_type"; "amount"; "description"; "reference"]%string
           (WalletTransaction.mk (User.id user) "purchase" (- inject_Z total_amount)%Q)
           db;
    let seller_balance := default 0%Q (wallets db !! Item.seller item) in
    let db :=
      set_wallets (insert (Item.seller item) (seller_balance + seller_receives)%Q) db in
    db ← WalletTransaction_create
           ["wallet"; "transaction_type"; "amount"; "description"; "reference"]%string
           (WalletTransaction.mk (Item.seller item) "sale" seller_receives) db;
    db ← WalletTransaction_create
           ["wallet"; "transaction_type"; "amount"; "description"; "reference"]%string
           (WalletTransaction.mk (Item.seller item) "platform_tax" (- platform_tax)%Q)
           db;
    let db :=
      TransactionLog_create
        (TransactionLog.mk "buy_now_purchase" pk (User.id user) total_amount "wallet")
        db in
    Ok ([(success, purchased total_amount);
         (info, platform_fee platform_tax seller_receives)], db).

(** [buy_now], the transaction: an exception leaves the view as a server
    error, with the block's writes undone. *)
Definition buy_now_transaction (user : User.t) (pk : Z) (item : Item.t)
    (balance : Q) (db : DB) : Response * DB :=
  match atomic (buy_now_block user pk item balance) db with
  | (Ok messages, db) => (redirect_item_detail messages, db)
  | (Raise e, db) => (ServerError e, db)
  end.

(** [buy_now] *)
Definition buy_now (now : Z) (user : User.t) (pk : Z) (db : DB) : Response * DB :=
  match buy_now_prerequisites now user pk db with
  | inl response => (response, db)
  | inr (item, balance) => buy_now_transaction user pk item balance db
  end.
End views.

(** ** Vocabulary of the statements *)

(** A cooldown row restricts user [u] on item [it] at time [now]: it is the
    user's, active, not yet expired, and scoped to the item or global. *)
Definition in_force (now : Z) (u : Z) (it : option Z) (c : BidCooldown.t) : Prop :=
  BidCooldown.user c = u
  /\ BidCooldown.is_active c = true
  /\ now < BidCooldown.expires_at c
  /\ (BidCooldown.item c = it \/ BidCooldown.item c = None).

(** The row is a hard cooldown or a suspension. *)
Definition is_hard (c : BidCooldown.t) : Prop :=
  BidCooldown.cooldown_type c = BidCooldown.hard_cooldown
  \/ BidCooldown.cooldown_type c = BidCooldown.suspended.

(** The active rows are of the kinds the gate writes: a soft challenge
    whose CAPTCHA is still to be passed, a hard cooldown or a suspension. *)
Definition gate_written (table : gmap Z BidCooldown.t) : Prop :=
  forall k c,
    table !! k = Some c -> BidCooldown.is_active c = true ->
    (BidCooldown.cooldown_type c = BidCooldown.soft_challenge
     /\ BidCooldown.captcha_passed c = false)
    \/ is_hard c.

(** The two databases differ at most in the cooldown table and its
    sequence. *)
Definition only_cooldowns_differ (db db' : DB) : Prop :=
  items db' = items db /\ bids db' = bids db /\ bid_seq db' = bid_seq db
  /\ alerts db' = alerts db /\ alert_seq db' = alert_seq db
  /\ wallets db' = wallets db
  /\ wallet_transactions db' = wallet_transactions db
  /\ transaction_log db' = transaction_log db.

(** The two databases differ at most in the alert table and its sequence. *)
Definition only_alerts_differ (db db' : DB) : Prop :=
  items db' = items db /\ bids db' = bids db /\ bid_seq db' = bid_seq db
  /\ cooldowns db' = cooldowns db /\ cooldown_seq db' = cooldown_seq db
  /\ wallets db' = wallets db
  /\ wallet_transactions db' = wallet_transactions db
  /\ transaction_log db' = transaction_log db.

(** One of the two soft windows of the gate is breached by the pending
    bid. *)
Definition soft_window_breached (cfg : Settings.t) (now : Z) (db : DB) (u : Z)
    (item_pk : Z) (item : Item.t) : bool :=
  let multiplier := RapidBiddingDetector.endgame_multiplier cfg now item in
  let user_bids := RapidBiddingDetector.user_bids_on db u item_pk in
  fst (RapidBiddingDetector._check_window
         now user_bids (Some (Settings.RAPID_BID_SOFT_WINDOW_2MIN cfg)) None
         (RapidBiddingDetector.scaled (Settings.RAPID_BID_SOFT_THRESHOLD_2MIN cfg)
                                      multiplier))
  || fst (RapidBiddingDetector._check_window
            now user_bids (Some (Settings.RAPID_BID_SOFT_WINDOW_5MIN cfg)) None
            (RapidBiddingDetector.scaled (Settings.RAPID_BID_SOFT_THRESHOLD_5MIN cfg)
                                         multiplier)).



(** The number of soft challenges of the user in the scope that were
    created within the last hour. *)
Definition recent_soft_challenges (now : Z) (db : DB) (u : Z) (it : option Z) : Z :=
  count (List.filter (fun r => now - timedelta_hours 1
                               <=? BidCooldown.created_at (snd r))
                     (RapidBiddingDetector.soft_challenges db u it)).

(** Two buy-now requests in a race: the checks of both ran on the same
    database before either transaction; the two transactions then run one
    after the other (each is one atomic block that begins with the
    conditional update of the item's row). Gives both responses and the
    database after both, when both requests pass their checks. *)
Definition buy_now_race (now : Z) (first_user second_user : User.t) (pk : Z) (db : DB)
  : option (views.Response * views.Response * DB) :=
  match views.buy_now_prerequisites now first_user pk db,
        views.buy_now_prerequisites now second_user pk db with
  | inr (item1, balance1), inr (item2, balance2) =>
      let '(response1, db1) :=
        views.buy_now_transaction first_user pk item1 balance1 db in
      let '(response2, db2) :=
        views.buy_now_transaction second_user pk item2 balance2 db1 in
      Some (response1, response2, db2)
  | _, _ => None
  end.

(** The reply tells the user the bid was placed. *)
Definition admitted (reply : views.Reply) : Prop :=
  exists amount messages,
    views.response reply
    = views.redirect_item_detail ((views.success, views.bid_placed amount) :: messages).

(** The item has a bid. *)
Definition has_bid (db : DB) (item_pk : Z) : Prop :=
  exists k b, bids db !! k = Some b /\ Bid.item b = item_pk.

(** ** A small marketplace, for the examples *)

Module Scenario.
(** Thresholds in the style of the deployment: soft 5 bids in 2 minutes
    and 8 in 5 minutes, hard 15 in 5 minutes and 4 in 20 seconds, a
    5-minute endgame window with multiplier 2. *)
Definition cfg : Settings.t :=
  Settings.mk
    (float.of_int 2) 5         (* endgame multiplier, window minutes *)
    5 2 8 5                    (* soft thresholds and windows *)
    15 5 4 20                  (* hard thresholds and windows *)
    300                        (* cooldown duration *)
    10 10 3 10 20 5            (* global velocity *)
    60 5                       (* minimal increments *)
    1000000 7                  (* high-value bids, account age *)
    5 10 60 30 5 3%Q 5 3%Q
    10 5 (8 # 10)%Q 20 (5 # 100)%Q 3 (8 # 10)%Q
    (2 # 10)%Q (8 # 10)%Q 5 (2 # 10)%Q 3 2
    None.

(** The same with rate windows too wide to matter (50 bids) and a
    minimal-increment pattern of four bids in two minutes. *)
Definition lenient : Settings.t :=
  Settings.mk
    (float.of_int 2) 5
    50 2 50 5
    50 5 50 20
    300
    10 50 3 10 50 5
    120 4
    1000000 7
    5 10 60 30 5 3%Q 5 3%Q
    10 5 (8 # 10)%Q 20 (5 # 100)%Q 3 (8 # 10)%Q
    (2 # 10)%Q (8 # 10)%Q 5 (2 # 10)%Q 3 2
    None.

Definition seller : User.t := User.mk 1 false 0 false false false false.
Definition alice : User.t := User.mk 2 false 0 false false false false.
Definition bob : User.t := User.mk 3 false 0 false false false false.
Definition admin : User.t := User.mk 4 true 0 false false false false.

(** Day 60; the auction of item 10 was listed on day 50 and ends on
    day 100. *)
Definition now : Z := timedelta_days 60.

Definition laptop : Item.t :=
  Item.mk (User.id seller) (UGX 500000) (UGX 10000) (Some (UGX 900000))
          (timedelta_days 100) Item.active 0 (timedelta_days 50) None.

Definition no_session : views.Session.t := views.Session.mk ∅ ∅.

(** One item, no bids, funded wallets for Alice and Bob. *)
Definition fresh : DB :=
  mkDB {[ 10 := laptop ]} ∅ 1 ∅ 1 ∅ 1
       {[ 2 := inject_Z (UGX 1000000); 3 := inject_Z (UGX 1000000) ]} [] [].

Definition cooldown (u : Z) (it : option Z) (ty : BidCooldown.CooldownType)
    (created expires : Z) : BidCooldown.t :=
  BidCooldown.mk u it ty BidCooldown.Repeated_soft_challenge_violations
                 expires created true false false 0.

(** The same with a hard cooldown on the administrator, who is a
    superuser, for item 10. *)
Definition admin_cooling_down : DB :=
  set_cooldowns
    (fun _ => {[ 1 := cooldown 4 (Some 10) BidCooldown.hard_cooldown
                               (now - timedelta_minutes 1)
                               (now + timedelta_minutes 4) ]})
    fresh.

(** Alice with a hard cooldown for item 10. *)
Definition alice_cooling_down : DB :=
  set_cooldowns
    (fun _ => {[ 1 := cooldown 2 (Some 10) BidCooldown.hard_cooldown
                               (now - timedelta_minutes 1)
                               (now + timedelta_minutes 4) ]})
    fresh.

(** Alice with an older cooldown for item 10 and a newer global one. *)
Definition item_then_global : gmap Z BidCooldown.t :=
  {[ 1 := cooldown 2 (Some 10) BidCooldown.hard_cooldown
                   (now - timedelta_minutes 2) (now + timedelta_minutes 3);
     2 := cooldown 2 None BidCooldown.soft_challenge
                   (now - timedelta_minutes 1) (now + timedelta_minutes 9) ]}.

(** Alice's [k]-th bid of a bidding war on item 10, one every ten
    seconds, the ninth ten seconds ago. *)
Definition rapid_bid (k : Z) : Bid.t :=
  Bid.mk 10 2 (UGX (500000 + 10000 * k)) (now - timedelta_seconds (10 * (10 - k)))
         false "web".

Definition rapid_bids (n : nat) : gmap Z Bid.t :=
  list_to_map (map (fun k => (k, rapid_bid k)) (seqZ 1 (Z.of_nat n))).

(** The auction of item 10 in its last three minutes. *)
Definition closing_laptop : Item.t :=
  Item.mk (User.id seller) (UGX 500000) (UGX 10000) (Some (UGX 900000))
          (now + timedelta_minutes 3) Item.active 0 (timedelta_days 50) None.

(** The endgame of item 10 after [n] rapid bids of Alice. *)
Definition endgame (n : nat) : DB :=
  mkDB {[ 10 := closing_laptop ]} (rapid_bids n) (Z.of_nat n + 1) ∅ 1 ∅ 1
       {[ 2 := inject_Z (UGX 1000000) ]} [] [].

(** A soft challenge of Alice for item 10 that she passed. *)
Definition passed_challenge (created : Z) : BidCooldown.t :=
  BidCooldown.mk 2 (Some 10) BidCooldown.soft_challenge
                 (BidCooldown.Rapid_bidding (BidCooldown.bids_in_2_minutes 5))
                 (created + timedelta_minutes 10) created false true true 0.

(** Item 10, far from its end, after four rapid bids of Alice, who passed
    two soft challenges twenty and ten minutes ago. *)
Definition third_offence : DB :=
  mkDB {[ 10 := laptop ]} (rapid_bids 4) 5
       {[ 1 := passed_challenge (now - timedelta_minutes 20);
          2 := passed_challenge (now - timedelta_minutes 10) ]} 3
       ∅ 1 {[ 2 := inject_Z (UGX 1000000) ]} [] [].

(** Item 10, far from its end, after four bids of Alice. *)
Definition bidding_war : DB :=
  mkDB {[ 10 := laptop ]} (rapid_bids 4) 5 ∅ 1 ∅ 1
       {[ 2 := inject_Z (UGX 1000000); 3 := inject_Z (UGX 1000000) ]} [] [].
End Scenario.

(** * Around the pipeline

    The code that completes, bypasses or displays what the pipeline
    decides: the view [verify_captcha], which places a bid the gate
    answered with a soft challenge; the WebSocket consumer of
    [auctions/consumers.py], a second way to bid; the display methods of
    [Item]; the listing of an item; and the views that change the status
    of an item. *)

From Stdlib Require Import Lqa.

(** ** The time left, as displayed *)

(** [delta.seconds]: what is left of [delta] after its whole days. *)
Definition seconds (delta : Z) : Z :=
  (delta mod timedelta_days 1) / microseconds_per_second.

(** [divmod(a, b)] *)
Definition divmod (a b : Z) : Z * Z := (a / b, a mod b).

(** The texts of [Item.time_remaining] and of the consumer's
    [get_time_remaining]. *)
Inductive TimeText :=
| Ended
| days_hours (d h : Z)
    (* "{days}d {hours}h" *)
| hours_minutes (h m : Z)
    (* "{hours}h {minutes}m" *)
| minutes_seconds (m s : Z)
    (* "{minutes}m {seconds}s" *)
| seconds_only (s : Z)
    (* "{seconds}s" *).

(** The methods of [Item] ([auctions/models.py]). *)
Module ItemMethods.
(** [time_remaining] *)
Definition time_remaining (now : Z) (self : Item.t) : option TimeText :=
  if negb (Item.status_eqb (Item.status self) Item.active) then None
  else
    let remaining := Item.end_time self - now in
    if remaining <=? 0 then Some Ended
    else
      let days := days remaining in
      let '(hours, remainder) := divmod (seconds remaining) 3600 in
      let '(minutes, seconds) := divmod remainder 60 in
      if 0 <? days then Some (days_hours days hours)
      else if 0 <? hours then Some (hours_minutes hours minutes)
      else Some (minutes_seconds minutes seconds).

(** [is_ending_soon] *)
Definition is_ending_soon (now : Z) (self : Item.t) : bool :=
  if negb (Item.status_eqb (Item.status self) Item.active) then false
  else
    let remaining := Item.end_time self - now in
    (0 <? remaining) && (remaining <=? timedelta_seconds 3600).

(** [is_recently_added] *)
Definition is_recently_added (now : Z) (self : Item.t) : bool :=
  days (now - Item.created_at self) <? 7.
End ItemMethods.

(** ** The WebSocket consumer ([auctions/consumers.py]) *)

Module consumers.
(** [get_time_remaining]: the method reads the clock twice, for the test
    ([now]) and for the difference ([now']). *)
Definition get_time_remaining (now now' : Z) (item : Item.t) : TimeText :=
  if Item.end_time item <=? now then Ended
  else
    let delta := Item.end_time item - now' in
    let days := days delta in
    let '(hours, remainder) := divmod (seconds delta) 3600 in
    let '(minutes, seconds) := divmod remainder 60 in
    if 0 <? days then days_hours days hours
    else if 0 <? hours then hours_minutes hours minutes
    else if 0 <? minutes then minutes_seconds minutes seconds
    else seconds_only seconds.

(** The value under the cache key [ws_ratelimit:auction:{user.id}]. *)
Record RateData := mkRateData {
  count : Z;
  reset_time : Z
}.

(** The cache, by user id: the value and the time its timeout runs out. *)
Abbreviation Cache := (gmap Z (RateData * Z)).

(** [cache.get(key, default)] *)
Definition cache_get (now : Z) (cache : Cache) (key : Z) (default : RateData)
  : RateData :=
  match cache !! key with
  | Some (data, expires) => if now <? expires then data else default
  | None => default
  end.

(** [cache.set(key, data, timeout)] *)
Definition cache_set (now : Z) (key : Z) (data : RateData) (timeout : Z)
    (cache : Cache) : Cache :=
  <[key := (data, now + timedelta_seconds timeout)]> cache.

(** [check_websocket_rate_limit]; [user] is [None] for a connection that
    is not authenticated. The cache is taken to answer; the method allows
    the message when it does not. *)
Definition check_websocket_rate_limit (now : Z) (user : option User.t)
    (cache : Cache) : bool * Cache :=
  match user with
  | None => (true, cache)
  | Some user =>
      let cache_key := User.id user in
      let max_messages := 10 in
      let window := 60 in
      let data :=
        cache_get now cache cache_key
                  (mkRateData 0 (now + timedelta_seconds window)) in
      if reset_time data <=? now then
        let data := mkRateData 1 (now + timedelta_seconds window) in
        (true, cache_set now cache_key data window cache)
      else
        let data := mkRateData (count data + 1) (reset_time data) in
        if max_messages <? count data then
          (false, cache_set now cache_key data window cache)
        else
          (true, cache_set now cache_key data window cache)
  end.

(** The messages of one user at the given times, in order: the answers of
    the limiter and the cache after them. *)
Fixpoint receive_all (times : list Z) (user : option User.t) (cache : Cache)
  : list bool * Cache :=
  match times with
  | [] => ([], cache)
  | now :: times =>
      let '(allowed, cache) := check_websocket_rate_limit now user cache in
      let '(answers, cache) := receive_all times user cache in
      (allowed :: answers, cache)
  end.

(** The exception [create_bid] turns into its answer. *)
Inductive Raised :=
| TransactionManagementError
    (* select_for_update cannot be used outside of a transaction. *).

Inductive Error :=
| Auction_is_not_active
| Auction_has_ended
| cannot_bid_on_own_item
    (* "You cannot bid on your own item" *)
| Bid_must_be_at_least (min_bid : Z)
| Item_not_found
| str (e : Raised).

Record BidData := mkBidData {
  bidder : Z;
  amount : Z;
  time : Z;
  bid_count : Z;
  current_price : Z
}.

(** The dictionary [create_bid] returns. *)
Inductive Answer :=
| failure (error : Error)
| success (bid_data : BidData).

(** [Bid.objects.create(...)]: the row is built and saved. The model's
    [max_digits] is checked by the forms only; the amount is stored as it
    is given, whatever its number of digits. *)
Definition Bid_objects_create (b : Bid.t) (db : DB) : Z * DB := Bid_save_new b db.

(** [create_bid], run by the consumer outside of any transaction, each
    write committed as it is made. [has_select_for_update] is the feature
    of the database backend: where it holds, the locking query raises
    outside of a transaction; where it does not (SQLite), the lock is
    left out of the query. *)
Definition create_bid (has_select_for_update : bool) (now : Z) (user : User.t)
    (item_id : Z) (bid_amount : Z) (db : DB) : Answer * DB :=
  if has_select_for_update then (failure (str TransactionManagementError), db)
  else
  match items db !! item_id with
  | None => (failure Item_not_found, db)
  | Some item =>
  if negb (Item.status_eqb (Item.status item) Item.active) then
    (failure Auction_is_not_active, db)
  else if Item.end_time item <=? now then
    let item :=
      Item.mk (Item.seller item) (Item.current_price item) (Item.min_increment item)
              (Item.buy_now_price item) (Item.end_time item) Item.expired
              (Item.bid_count item) (Item.created_at item) (Item.winner item) in
    (failure Auction_has_ended, set_items (insert item_id item) db)
  else if Item.seller item =? User.id user then
    (failure cannot_bid_on_own_item, db)
  else
    let min_bid := Item.current_price item + Item.min_increment item in
    if bid_amount <? min_bid then (failure (Bid_must_be_at_least min_bid), db)
    else
      let db :=
        set_bids (fmap (fun b => if (Bid.item b =? item_id) && Bid.is_winning b
                                 then Bid.set_is_winning false b else b)) db in
      let '(bid_pk, db) :=
        Bid_objects_create
          (Bid.mk item_id (User.id user) bid_amount now true "websocket") db in
      let item :=
        Item.mk (Item.seller item) bid_amount (Item.min_increment item)
                (Item.buy_now_price item) (Item.end_time item) (Item.status item)
                (Item.bid_count item + 1) (Item.created_at item)
                (Item.winner item) in
      (success (mkBidData (User.id user) bid_amount now (Item.bid_count item)
                          (Item.current_price item)),
       set_items (insert item_id item) db)
  end.
End consumers.

(** ** The CAPTCHA view ([verify_captcha] of [auctions/views.py]) *)

Module CaptchaStore.
(** [captcha.models.CaptchaStore], by its unique [hashkey]: the expected
    [response]. *)
Abbreviation table := (gmap string string).
End CaptchaStore.

(** [str.lower()] on the letters of a CAPTCHA answer. *)
Definition lower_ascii (c : ascii) : ascii :=
  let n := nat_of_ascii c in
  if (65 <=? n)%nat && (n <=? 90)%nat then ascii_of_nat (n + 32) else c.

Fixpoint lower (s : string) : string :=
  match s with
  | EmptyString => EmptyString
  | String c s' => String (lower_ascii c) (lower s')
  end.

Module verification.
Import views(Level, error, warning, success, info, Method, GET, POST).
Import views.Session(pending_bid, show_captcha).

Inductive Text :=
| Verification_expired
    (* "Verification expired. Please try bidding again." *)
| price_was_raised (min_bid_required : Z)
    (* "Another bidder raised the price while you were verifying. Minimum bid is now UGX ... Please bid again." *)
| auction_no_longer_active
    (* "This auction is no longer active." *)
| auction_has_ended
    (* "This auction has ended." *)
| flagged_by_fraud_detection
    (* "Your bid has been flagged by our fraud detection system. ..." *)
| placed_but_flagged_for_review
    (* "Your bid has been placed but flagged for review. ..." *)
| Verification_successful (bid_amount : Z)
    (* "Verification successful! Your bid of UGX ... has been placed." *)
| No_pending_bid_found
    (* "No pending bid found. Please try bidding again." *)
| Incorrect_answer
    (* "Incorrect answer. Please try again." *)
| Invalid_or_expired_code
    (* "Invalid or expired verification code." *)
| Please_complete_the_verification
    (* "Please complete the verification." *).

Inductive SessionKey :=
| pending_bid_ (item_id : Z)
| show_captcha_ (item_id : Z).

Inductive Response :=
| Http404
| redirect_item_detail (messages : list (Level * Text))
| KeyError (key : SessionKey)
    (* the view is left by the exception: a server error, the session
       not saved *).

(** What the view wrote to the log. *)
Inductive Logged :=
| fraud_detection_failed (e : exn)
| fraud_detection_failed_on_session (key : SessionKey).

Record Reply := mkReply {
  response : Response;
  session : views.Session.t;
  logged : list Logged
}.

(** [request.POST.get(name)] in a condition: a missing and an empty value
    are both false. *)
Definition truthy (value : option string) : option string :=
  match value with
  | Some EmptyString => None
  | _ => value
  end.

(** [del request.session[session_key]] and then
    [del request.session[f'show_captcha_{item.id}']]: the session without
    the two keys, or the key whose absence raised, with the session as the
    deletions before it left it. *)
Definition clean_up (pk : Z) (sess : views.Session.t)
  : SessionKey * views.Session.t + views.Session.t :=
  match pending_bid sess !! pk with
  | None => inl (pending_bid_ pk, sess)
  | Some _ =>
      let sess := views.Session.mk (delete pk (pending_bid sess)) (show_captcha sess) in
      match show_captcha sess !! pk with
      | None => inl (show_captcha_ pk, sess)
      | Some _ =>
          inr (views.Session.mk (pending_bid sess) (delete pk (show_captcha sess)))
      end
  end.

(** An error message, then the session cleaned up, then, in the branches
    that do so, the CAPTCHA deleted, then the redirect. [saved] is the
    session as the request found it. *)
Definition refuse (text : Text) (delete_captcha : bool) (pk : Z)
    (captcha_key : string) (saved : views.Session.t) (store : CaptchaStore.table)
    (db : DB) : Reply * CaptchaStore.table * DB :=
  match clean_up pk saved with
  | inl (key, _) => (mkReply (KeyError key) saved [], store, db)
  | inr sess =>
      (mkReply (redirect_item_detail [(error, text)]) sess [],
       if delete_captcha then delete captcha_key store else store, db)
  end.

(** The end of a verified bid: the CAPTCHA marked as passed unless the
    fraud detection deleted the bid, the auction state updated as in
    [place_bid], the session cleaned up. [sess] is the session in memory,
    [saved] the one the request found. *)
Definition finish (fraud_passed : bool) (user : User.t) (pk : Z) (item : Item.t)
    (bid_amount : Z) (messages : list (Level * Text)) (logged : list Logged)
    (sess saved : views.Session.t) (store : CaptchaStore.table) (db : DB)
  : Reply * CaptchaStore.table * DB :=
  let db :=
    if fraud_passed
    then snd (RapidBiddingDetector.pass_captcha_challenge (User.id user) (Some pk) db)
    else db in
  let db := views.update_auction_state pk item db in
  match clean_up pk sess with
  | inl (key, _) => (mkReply (KeyError key) saved logged, store, db)
  | inr sess =>
      (mkReply
         (redirect_item_detail
            (messages ++ [(success, Verification_successful bid_amount)]))
         sess logged,
       store, db)
  end.

(** [verify_captcha]; [captcha_0] and [captcha_1] are the posted key and
    answer. The pending bid of the session holds the amount as [place_bid]
    wrote it, so the conversion back to a decimal does not fail. *)
Definition verify_captcha (cfg : Settings.t) (now : Z) (ai_response : option string)
    (user : User.t) (method : Method) (captcha_0 captcha_1 : option string)
    (pk : Z) (sess : views.Session.t) (store : CaptchaStore.table) (db : DB)
  : Reply * CaptchaStore.table * DB :=
  match items db !! pk with
  | None => (mkReply Http404 sess [], store, db)
  | Some item =>
  match method with
  | GET => (mkReply (redirect_item_detail []) sess [], store, db)
  | POST =>
  match truthy captcha_0, truthy captcha_1 with
  | Some captcha_key, Some captcha_value =>
      match store !! captcha_key with
      | None =>
          (* CaptchaStore.DoesNotExist *)
          (mkReply (redirect_item_detail [(error, Invalid_or_expired_code)])
                   (views.Session.mk (delete pk (pending_bid sess))
                                     (delete pk (show_captcha sess)))
                   [],
           store, db)
      | Some response =>
          if String.eqb response (lower captcha_value) then
            (* CAPTCHA passed: retrieve the pending bid from the session *)
            match pending_bid sess !! pk with
            | Some (bid_amount, bid_timestamp) =>
                let age := now - bid_timestamp in
                if timedelta_seconds 300 <? age then
                  refuse Verification_expired false pk captcha_key sess store db
                else
                (* revalidate the bid against the current auction state *)
                let min_bid_required :=
                  Item.current_price item + Item.min_increment item in
                if bid_amount <? min_bid_required then
                  refuse (price_was_raised min_bid_required) true pk captcha_key
                         sess store db
                else if negb (Item.status_eqb (Item.status item) Item.active) then
                  refuse auction_no_longer_active true pk captcha_key sess store db
                else if Item.end_time item <=? now then
                  refuse auction_has_ended true pk captcha_key sess store db
                else
                let bid := Bid.mk pk (User.id user) bid_amount now false "web" in
                let '(bid_pk, db) := Bid_save_new bid db in
                (* delete the used CAPTCHA to prevent reuse *)
                let store := delete captcha_key store in
                match FraudDetectionService.analyze_bid cfg now db bid_pk bid item
                                                        user ai_response with
                | Ok (fraud_alerts, db) =>
                    match fraud_alerts with
                    | [] => finish true user pk item bid_amount [] [] sess sess store db
                    | _ =>
                        let critical_alerts :=
                          List.filter
                            (fun a => FraudAlert.severity_eqb (FraudAlert.severity a)
                                                              FraudAlert.critical)
                            fraud_alerts in
                        match critical_alerts with
                        | _ :: _ =>
                            let db := Bid_delete bid_pk db in
                            match clean_up pk sess with
                            | inr cleaned =>
                                (mkReply
                                   (redirect_item_detail
                                      [(error, flagged_by_fraud_detection)])
                                   cleaned [],
                                 store, db)
                            | inl (key, partly) =>
                                (* the KeyError is caught with the exceptions
                                   of the fraud detection *)
                                finish false user pk item bid_amount []
                                       [fraud_detection_failed_on_session key]
                                       partly sess store db
                            end
                        | [] =>
                            finish true user pk item bid_amount
                                   [(warning, placed_but_flagged_for_review)] []
                                   sess sess store db
                        end
                    end
                | Raise e =>
                    finish true user pk item bid_amount [] [fraud_detection_failed e]
                           sess sess store db
                end
            | None =>
                (mkReply (redirect_item_detail [(error, No_pending_bid_found)])
                         (views.Session.mk (pending_bid sess)
                                           (delete pk (show_captcha sess)))
                         [],
                 store, db)
            end
          else
            (* CAPTCHA failed *)
            let db :=
              RapidBiddingDetector.fail_captcha_challenge cfg now (User.id user)
                                                          (Some pk) db in
            (mkReply (redirect_item_detail [(error, Incorrect_answer)]) sess [],
             delete captcha_key store, db)
      end
  | _, _ =>
      (mkReply (redirect_item_detail [(error, Please_complete_the_verification)])
               sess [],
       store, db)
  end
  end
  end.
End verification.

(** ** The status of an item ([change_item_status],
    [admin_change_item_status] and [admin_required] of [auctions/views.py]) *)

Module status_views.
Import views(Method, GET, POST).

Inductive ErrorText :=
| Invalid_request_method
| Invalid_status
| Item_not_found_or_no_permission
    (* "Item not found or you do not have permission" *)
| Item_not_found.

Inductive JsonResponse :=
| json_success (new_status : Item.Status)
    (* 'Item status changed to ...' *)
| json_failure (status : Z) (error : ErrorText).

Inductive Response :=
| json (r : JsonResponse)
| HttpResponseNotAllowed
    (* of [require_POST] *)
| redirect_login
    (* "Please login to access the admin dashboard." *)
| redirect_home
    (* "You do not have permission to access the admin dashboard." *).

(** The value of the [status] column by its text. *)
Definition status_of (text : string) : option Item.Status :=
  if String.eqb text "active" then Some Item.active
  else if String.eqb text "sold" then Some Item.sold
  else if String.eqb text "expired" then Some Item.expired
  else if String.eqb text "cancelled" then Some Item.cancelled
  else if String.eqb text "private" then Some Item.private
  else if String.eqb text "off_sale" then Some Item.off_sale
  else None.

(** [new_status not in valid_statuses], for the posted value. *)
Definition valid_status (valid_statuses : list string) (new_status : option string)
  : option Item.Status :=
  match new_status with
  | Some text => if existsb (String.eqb text) valid_statuses then status_of text else None
  | None => None
  end.

(** [item.status = new_status; item.save(update_fields=['status'])] *)
Definition save_status (item_id : Z) (new_status : Item.Status) (db : DB) : DB :=
  set_items
    (alter (fun row => Item.mk (Item.seller row) (Item.current_price row)
                               (Item.min_increment row) (Item.buy_now_price row)
                               (Item.end_time row) new_status (Item.bid_count row)
                               (Item.created_at row) (Item.winner row))
           item_id) db.

(** [change_item_status] *)
Definition change_item_status (user : User.t) (method : Method)
    (posted_status : option string) (item_id : Z) (db : DB) : JsonResponse * DB :=
  match method with
  | GET => (json_failure 405 Invalid_request_method, db)
  | POST =>
      match items db !! item_id with
      | Some item =>
          if Item.seller item =? User.id user then
            match valid_status ["active"; "private"; "off_sale"; "sold"]%string
                               posted_status with
            | None => (json_failure 400 Invalid_status, db)
            | Some new_status =>
                (json_success new_status, save_status item_id new_status db)
            end
          else (json_failure 404 Item_not_found_or_no_permission, db)
      | None => (json_failure 404 Item_not_found_or_no_permission, db)
      end
  end.

(** [admin_required]: the view behind the decorator runs for a superuser
    only; [user] is [None] for a request that is not authenticated. *)
Definition admin_required (view_func : User.t -> Response * DB)
    (user : option User.t) (db : DB) : Response * DB :=
  match user with
  | None => (redirect_login, db)
  | Some user =>
      if negb (User.is_superuser user) then (redirect_home, db)
      else view_func user
  end.

(** [admin_change_item_status], with its decorators. *)
Definition admin_change_item_status (user : option User.t) (method : Method)
    (posted_status : option string) (item_id : Z) (db : DB) : Response * DB :=
  admin_required
    (fun _ =>
       match method with
       | GET => (HttpResponseNotAllowed, db)
       | POST =>
           match items db !! item_id with
           | Some item =>
               match valid_status ["active"; "private"; "off_sale"; "sold";
                                   "expired"; "cancelled"]%string
                                  posted_status with
               | None => (json (json_failure 400 Invalid_status), db)
               | Some new_status =>
                   (json (json_success new_status),
                    save_status item_id new_status db)
               end
           | None => (json (json_failure 404 Item_not_found), db)
           end
       end)
    user db.
End status_views.

(** ** Listing an item ([SellItemForm] of [auctions/forms.py] and
    [sell_item] of [auctions/views.py]) *)

Module SellItemForm.
(** A posted value: left blank, not a number the field accepts, or a
    number (a price in hundredths, a duration in minutes). *)
Inductive Posted := blank | malformed | number (value : Z).

Inductive ValidationError :=
| This_field_is_required
| Enter_a_number
| Ensure_at_most_12_digits
| Ensure_greater_than_or_equal_to_10
| Starting_price_must_be_greater_than_zero
| Minimum_increment_must_be_greater_than_zero
| Buy_Now_price_must_be_greater_than_zero
| Buy_Now_price_must_be_higher_than_starting_price.

(** The posted form: the four numbers, and whether the other fields
    (title, description, category, image, shipping) pass. *)
Record Data := mkData {
  starting_price : Posted;
  min_increment : Posted;
  buy_now_price : Posted;
  duration_minutes : Posted;
  rest_is_valid : bool
}.

(** [cleaned_data]: a field that failed is not in it. *)
Record CleanedData := mkCleanedData {
  cleaned_starting_price : option Z;
  cleaned_min_increment : option Z;
  cleaned_buy_now_price : option Z;
  cleaned_duration_minutes : option Z
}.

(** The form field of a [DecimalField(max_digits=12, decimal_places=2)]
    column: required unless the column may be blank. *)
Definition decimal_field (required : bool) (posted : Posted)
  : ValidationError + option Z :=
  match posted with
  | blank => if required then inl This_field_is_required else inr None
  | malformed => inl Enter_a_number
  | number v => if Z.abs v <? 10 ^ 12 then inr (Some v) else inl Ensure_at_most_12_digits
  end.

(** [forms.IntegerField(min_value=10)] *)
Definition duration_field (posted : Posted) : ValidationError + option Z :=
  match posted with
  | blank => inl This_field_is_required
  | malformed => inl Enter_a_number
  | number v => if v <? 10 then inl Ensure_greater_than_or_equal_to_10 else inr (Some v)
  end.

(** [clean_starting_price] *)
Definition clean_starting_price (price : option Z) : ValidationError + option Z :=
  match price with
  | Some p => if p <=? 0 then inl Starting_price_must_be_greater_than_zero
              else inr price
  | None => inr price
  end.

(** [clean_min_increment] *)
Definition clean_min_increment (increment : option Z) : ValidationError + option Z :=
  match increment with
  | Some i => if i <=? 0 then inl Minimum_increment_must_be_greater_than_zero
              else inr increment
  | None => inr increment
  end.

(** [clean_buy_now_price]; [starting_price] is what [cleaned_data] holds
    for the starting price, if anything. *)
Definition clean_buy_now_price (buy_now starting_price : option Z)
  : ValidationError + option Z :=
  match buy_now with
  | Some b =>
      if b <=? 0 then inl Buy_Now_price_must_be_greater_than_zero
      else
        match starting_price with
        | Some s =>
            if negb (s =? 0) && (b <? s)
            then inl Buy_Now_price_must_be_higher_than_starting_price
            else inr buy_now
        | None => inr buy_now
        end
  | None => inr buy_now
  end.

(** One field of the form: its own validation, then its [clean_...]
    method; an error leaves the field out of [cleaned_data]. *)
Definition clean_field (field : ValidationError + option Z)
    (clean : option Z -> ValidationError + option Z)
  : list ValidationError * option Z :=
  match field with
  | inl e => ([e], None)
  | inr value =>
      match clean value with
      | inl e => ([e], None)
      | inr value => ([], value)
      end
  end.

(** The cleaning of the form, field by field in the order of the form:
    the errors and [cleaned_data]. *)
Definition full_clean (data : Data) : list ValidationError * CleanedData :=
  let '(e1, starting) :=
    clean_field (decimal_field true (starting_price data)) clean_starting_price in
  let '(e2, increment) :=
    clean_field (decimal_field true (min_increment data)) clean_min_increment in
  let '(e3, buy_now) :=
    clean_field (decimal_field false (buy_now_price data))
                (fun b => clean_buy_now_price b starting) in
  let '(e4, duration) := clean_field (duration_field (duration_minutes data)) inr in
  (e1 ++ e2 ++ e3 ++ e4, mkCleanedData starting increment buy_now duration).

(** [form.is_valid()] *)
Definition is_valid (data : Data) : bool :=
  match fst (full_clean data) with
  | [] => rest_is_valid data
  | _ => false
  end.
End SellItemForm.

Module listing.
Import views(Method, GET, POST).

Inductive SellerStatus := none | pending | approved | rejected.

(** The seller fields of the user's profile. *)
Record Profile := mkProfile {
  is_seller : bool;
  seller_status : SellerStatus
}.

Definition is_approved (status : SellerStatus) : bool :=
  match status with approved => true | _ => false end.

Inductive Response :=
| redirect_seller_application_status
    (* "Your seller application is under review. Please wait for approval." *)
| redirect_seller_application_rejected
    (* "Your seller application was rejected. Reason: ..." *)
| redirect_seller_application
    (* "You need to become a verified seller before you can list items." *)
| redirect_home
    (* "Your item ... is now live!" *)
| render_form (errors : list SellItemForm.ValidationError)
| OverflowError
    (* "date value out of range": the view is left by the exception *).

(** [sell_item]; [item_seq] is the sequence of the item table and
    [datetime_max] the last point in time a [datetime] can hold. The
    instance is built from [cleaned_data], which holds the two required
    prices when the form is valid. *)
Definition sell_item (datetime_max : Z) (now : Z) (user : User.t) (profile : Profile)
    (method : Method) (data : SellItemForm.Data) (item_seq : Z) (db : DB)
  : Response * Z * DB :=
  if negb (is_seller profile) || negb (is_approved (seller_status profile)) then
    match seller_status profile with
    | pending => (redirect_seller_application_status, item_seq, db)
    | rejected => (redirect_seller_application_rejected, item_seq, db)
    | _ => (redirect_seller_application, item_seq, db)
    end
  else
    match method with
    | POST =>
        if SellItemForm.is_valid data then
          let cleaned := snd (SellItemForm.full_clean data) in
          let starting_price := default 0 (SellItemForm.cleaned_starting_price cleaned) in
          let duration_minutes :=
            default 600 (SellItemForm.cleaned_duration_minutes cleaned) in
          let end_time := now + timedelta_minutes duration_minutes in
          if datetime_max <? end_time then (OverflowError, item_seq, db)
          else
          let item :=
            Item.mk (User.id user) starting_price
                    (default 0 (SellItemForm.cleaned_min_increment cleaned))
                    (SellItemForm.cleaned_buy_now_price cleaned)
                    end_time Item.active 0 now None in
          (redirect_home, item_seq + 1, set_items (insert item_seq item) db)
        else (render_form (fst (SellItemForm.full_clean data)), item_seq, db)
    | GET => (render_form [], item_seq, db)
    end.
End listing.

(** ** [place_bid], statement by statement

    [place_bid] opens no transaction and takes no lock on the item: the
    database connection is in autocommit mode, every statement is
    committed as it is executed, and the statements of another request can
    run between any two of them. [views.place_bid] and
    [views.update_auction_state] above are the view for a request that
    runs alone; here its step 6 is cut into the four statements it
    consists of, so that a second request can be placed between them. *)

Module statements.
Import views(Level, error, warning, success, info, Method, GET, POST, Reply, mkReply,
             redirect_item_detail, Http404).

(** [place_bid] up to its step 5: the reply of a request that ends there,
    or, for a bid that passed every check, the reply it will give, the
    item as loaded at the start of the request and the database with the
    bid saved. *)
Definition checks (cfg : Settings.t) (now : Z) (ai_response : option string)
    (user : User.t) (method : Method) (posted_amount : option Z) (pk : Z)
    (sess : views.Session.t) (db : DB) : Reply * DB + Reply * Item.t * DB :=
  match items db !! pk with
  | None => inl (mkReply Http404 sess [], db)
  | Some item =>
  match method with
  | GET => inl (mkReply (redirect_item_detail []) sess [], db)
  | POST =>
  if Item.seller item =? User.id user then
    inl (mkReply (redirect_item_detail [(error, views.cannot_bid_on_own_item)]) sess [],
         db)
  else if negb (Item.status_eqb (Item.status item) Item.active) then
    inl (mkReply (redirect_item_detail [(error, views.auction_no_longer_active)])
                 sess [],
         db)
  else if Item.end_time item <=? now then
    inl (mkReply (redirect_item_detail [(error, views.auction_has_ended)]) sess [], db)
  else
  match PlaceBidForm.is_valid posted_amount (Some item) with
  | PlaceBidForm.Invalid e =>
      inl (mkReply (redirect_item_detail [(error, views.form_error e)]) sess [], db)
  | PlaceBidForm.Valid bid_amount =>
      let bid := Bid.mk pk (User.id user) bid_amount now false "web" in
      let '(should_reject_bid, rejection_reasons, sess, db) :=
        views.check_rapid cfg now user pk item bid_amount sess db in
      let '(should_reject_bid, rejection_reasons) :=
        views.check_account_age cfg now user bid_amount should_reject_bid
                                rejection_reasons in
      let '(bid_pk, db) := Bid_save_new bid db in
      let '(should_reject_bid, rejection_reasons, logged, db) :=
        views.check_fraud cfg now ai_response user bid_pk bid item should_reject_bid
                          rejection_reasons db in
      if should_reject_bid then
        inl (mkReply (redirect_item_detail (views.shown rejection_reasons)) sess logged,
             Bid_delete bid_pk db)
      else
        inr (mkReply
               (redirect_item_detail
                  ((success, views.bid_placed bid_amount)
                   :: List.filter
                        (fun r => match fst r with warning => true | _ => false end)
                        rejection_reasons))
               sess logged,
             item, db)
  end
  end
  end.

(** [Bid.objects.filter(item=item).update(is_winning=False)] *)
Definition clear_winners (item_pk : Z) (db : DB) : DB :=
  set_bids (fmap (fun b => if Bid.item b =? item_pk
                           then Bid.set_is_winning false b else b)) db.

(** [highest_bid = item.bids.order_by('-amount').first()] *)
Definition read_highest (item_pk : Z) (db : DB) : option (Z * Bid.t) :=
  first (order_by_desc (fun r => Bid.amount (snd r)) (item_bids db item_pk)).

(** [highest_bid.is_winning = True] and
    [highest_bid.save(update_fields=['is_winning'])], when there is a
    highest bid: an update of that one column of the row with the key of
    the instance. [None] stands for the [DatabaseError] Django raises when
    the update finds no row. *)
Definition save_winner (highest_bid : option (Z * Bid.t)) (db : DB) : option DB :=
  match highest_bid with
  | Some (highest_pk, _) =>
      match bids db !! highest_pk with
      | Some _ => Some (set_bids (alter (Bid.set_is_winning true) highest_pk) db)
      | None => None
      end
  | None => Some db
  end.

(** [item.current_price = highest_bid.amount] (when there is a highest
    bid), [item.bid_count += 1] and
    [item.save(update_fields=['current_price', 'bid_count'])]: both values
    come from the instances the request holds, the bid as read and the
    item as loaded at the start. [None] as above. *)
Definition save_item (item_pk : Z) (item : Item.t) (highest_bid : option (Z * Bid.t))
    (db : DB) : option DB :=
  let current_price :=
    match highest_bid with
    | Some (_, highest) => Bid.amount highest
    | None => Item.current_price item
    end in
  let bid_count := Item.bid_count item + 1 in
  match items db !! item_pk with
  | Some _ =>
      Some (set_items
              (alter (fun row =>
                        Item.mk (Item.seller row) current_price (Item.min_increment row)
                                (Item.buy_now_price row) (Item.end_time row)
                                (Item.status row) bid_count (Item.created_at row)
                                (Item.winner row))
                     item_pk) db)
  | None => None
  end.

(** Step 6 of a request that runs alone. *)
Definition step6 (item_pk : Z) (item : Item.t) (db : DB) : option DB :=
  let db := clear_winners item_pk db in
  let highest_bid := read_highest item_pk db in
  match save_winner highest_bid db with
  | Some db => save_item item_pk item highest_bid db
  | None => None
  end.

(** Two requests to [place_bid] for the same item that overlap: the
    second runs from its first statement to its last after the first has
    read the highest bid and before it saves that bid as the winner. Gives
    both replies and the database after both, when the first request
    reaches step 6 and no statement raises. *)
Definition overlapped (cfg : Settings.t) (ai_response : option string)
    (now1 : Z) (user1 : User.t) (posted1 : option Z) (sess1 : views.Session.t)
    (now2 : Z) (user2 : User.t) (posted2 : option Z) (sess2 : views.Session.t)
    (pk : Z) (db : DB) : option (Reply * Reply * DB) :=
  match checks cfg now1 ai_response user1 POST posted1 pk sess1 db with
  | inl _ => None
  | inr (reply1, item, db) =>
      let db := clear_winners pk db in
      let highest_bid := read_highest pk db in
      let '(reply2, db) :=
        views.place_bid cfg now2 ai_response user2 POST posted2 pk sess2 db in
      match save_winner highest_bid db with
      | Some db =>
          match save_item pk item highest_bid db with
          | Some db => Some (reply1, reply2, db)
          | None => None
          end
      | None => None
      end
  end.
End statements.

(** ** Vocabulary of the further statements *)

(** What a step of the gate does to the cooldown table: nothing, or one
    row added under the next key of the sequence. *)
Definition adds_at_most_one_cooldown (db db' : DB) : Prop :=
  (cooldowns db' = cooldowns db /\ cooldown_seq db' = cooldown_seq db)
  \/ exists c, cooldowns db' = <[cooldown_seq db := c]> (cooldowns db)
               /\ cooldown_seq db' = cooldown_seq db + 1.

(** A row of the user that is active, unexpired and of exactly the scope. *)
Definition holds_row (now : Z) (u : Z) (it : option Z) (db : DB) : Prop :=
  exists k c,
    cooldowns db !! k = Some c
    /\ BidCooldown.user c = u /\ BidCooldown.is_active c = true
    /\ now < BidCooldown.expires_at c /\ BidCooldown.item c = it.

(** Every item with a pending bid in the session has its CAPTCHA flag
    there, too. *)
Definition session_consistent (sess : views.Session.t) : Prop :=
  forall pk, views.Session.pending_bid sess !! pk <> None ->
             views.Session.show_captcha sess !! pk <> None.

(** The session without the two keys of the item. *)
Definition forget (pk : Z) (sess : views.Session.t) : views.Session.t :=
  views.Session.mk (delete pk (views.Session.pending_bid sess))
                   (delete pk (views.Session.show_captcha sess)).

(** The session with the bid stored for the CAPTCHA, as [place_bid] writes
    it on a soft challenge. *)
Definition stash (pk amount timestamp : Z) (sess : views.Session.t)
  : views.Session.t :=
  views.Session.mk (<[pk := (amount, timestamp)]> (views.Session.pending_bid sess))
                   (<[pk := true]> (views.Session.show_captcha sess)).

(** The reply of [verify_captcha] tells the user the bid was placed. *)
Definition verified (reply : verification.Reply) : Prop :=
  exists amount messages,
    verification.response reply
    = verification.redirect_item_detail
        (messages ++ [(views.success, verification.Verification_successful amount)]).

(** The bids of the item have at most one winner, and none is above the
    item's current price. *)
Definition auction_consistent (db : DB) (item_pk : Z) : Prop :=
  (forall k1 k2 b1 b2,
      bids db !! k1 = Some b1 -> bids db !! k2 = Some b2 ->
      Bid.item b1 = item_pk -> Bid.item b2 = item_pk ->
      Bid.is_winning b1 = true -> Bid.is_winning b2 = true ->
      k1 = k2)
  /\ (forall k b item,
         bids db !! k = Some b -> Bid.item b = item_pk ->
         items db !! item_pk = Some item ->
         Bid.amount b <= Item.current_price item).

(** The span of time a text of the time left stands for: its start and
    its length. *)
Definition shown_span (text : TimeText) : option (Z * Z) :=
  match text with
  | Ended => None
  | days_hours d h => Some (timedelta_days d + timedelta_hours h, timedelta_hours 1)
  | hours_minutes h m =>
      Some (timedelta_hours h + timedelta_minutes m, timedelta_minutes 1)
  | minutes_seconds m s =>
      Some (timedelta_minutes m + timedelta_seconds s, timedelta_seconds 1)
  | seconds_only s => Some (timedelta_seconds s, timedelta_seconds 1)
  end.

(** The numbers of the text are in the ranges of their units, the leading
    one positive where the text has a shorter form. *)
Definition in_range (text : TimeText) : Prop :=
  match text with
  | Ended => True
  | days_hours d h => 0 < d /\ 0 <= h < 24
  | hours_minutes h m => 0 < h < 24 /\ 0 <= m < 60
  | minutes_seconds m s => 0 <= m < 60 /\ 0 <= s < 60
  | seconds_only s => 0 <= s < 60
  end.

(** [db'] is [db] with the status of the item set to [new_status] and
    nothing else changed. *)
Definition status_set (db db' : DB) (item_id : Z) (new_status : Item.Status) : Prop :=
  exists item,
    items db !! item_id = Some item
    /\ items db' !! item_id
       = Some (Item.mk (Item.seller item) (Item.current_price item)
                       (Item.min_increment item) (Item.buy_now_price item)
                       (Item.end_time item) new_status (Item.bid_count item)
                       (Item.created_at item) (Item.winner item))
    /\ (forall pk, pk <> item_id -> items db' !! pk = items db !! pk)
    /\ bids db' = bids db /\ bid_seq db' = bid_seq db
    /\ cooldowns db' = cooldowns db /\ cooldown_seq db' = cooldown_seq db
    /\ alerts db' = alerts db /\ alert_seq db' = alert_seq db
    /\ wallets db' = wallets db
    /\ wallet_transactions db' = wallet_transactions db
    /\ transaction_log db' = transaction_log db.

(** ** Further cases, for the examples *)

Module Cases.
(** One stored CAPTCHA, with the answer in lower case. *)
Definition captchas : CaptchaStore.table := {[ "k1"%string := "xkcd"%string ]}.

(** Alice's session with a bid of 550,000 on item 10 pending since forty
    seconds. *)
Definition pending : views.Session.t :=
  stash 10 (UGX 550000) (Scenario.now - timedelta_seconds 40) Scenario.no_session.

(** Item 10 after four bids of Alice, who is under a soft challenge of
    global scope. *)
Definition velocity_challenged : DB :=
  mkDB {[ 10 := Scenario.laptop ]} (Scenario.rapid_bids 4) 5
       {[ 1 := Scenario.cooldown 2 None BidCooldown.soft_challenge
                                 (Scenario.now - timedelta_minutes 1)
                                 (Scenario.now + timedelta_minutes 9) ]} 2
       ∅ 1 {[ 2 := inject_Z (UGX 1000000) ]} [] [].

(** Item 10 after two bids of Alice. *)
Definition two_bids : DB :=
  mkDB {[ 10 := Scenario.laptop ]}
       (<[1 := Scenario.rapid_bid 1]> (<[2 := Scenario.rapid_bid 2]> ∅)) 3
       ∅ 1 ∅ 1 {[ 3 := inject_Z (UGX 1000000) ]} [] [].

(** Item 10 after the same two bids were admitted: the second one is the
    winner and its amount the price. *)
Definition settled : DB :=
  mkDB {[ 10 := Item.mk (User.id Scenario.seller) (UGX 520000) (UGX 10000)
                        (Some (UGX 900000)) (timedelta_days 100) Item.active 2
                        (timedelta_days 50) None ]}
       (<[1 := Scenario.rapid_bid 1]>
          (<[2 := Bid.set_is_winning true (Scenario.rapid_bid 2)]> ∅)) 3
       ∅ 1 ∅ 1 {[ 3 := inject_Z (UGX 1000000) ]} [] [].
End Cases.

(** * Properties *)

(** ** Query sets *)

Section QuerySetFacts.
Context {R : Type}.
Implicit Types (key : Z * R -> Z) (x y : Z * R) (l qs : list (Z * R)).

Lemma In_insert_sorted key x y l :
  In y (insert_sorted key x l) <-> y = x \/ In y l.
Proof.
  induction l as [|z l IH]; simpl.
  - intuition.
  - destruct (key x <=? key z); simpl; [intuition|].
    rewrite IH. intuition.
Qed.

Lemma In_order_by_asc key y qs : In y (order_by_asc key qs) <-> In y qs.
Proof.
  unfold order_by_asc. induction qs as [|x qs IH]; simpl; [reflexivity|].
  rewrite In_insert_sorted, IH. intuition.
Qed.

Lemma In_order_by_desc key y qs : In y (order_by_desc key qs) <-> In y qs.
Proof. apply In_order_by_asc. Qed.

Lemma objects_spec (table : gmap Z R) k (r : R) :
  In (k, r) (objects table) <-> table !! k = Some r.
Proof.
  unfold objects. rewrite In_order_by_asc, <- list_elem_of_In.
  apply elem_of_map_to_list.
Qed.

(** The head of a list built by [insert_sorted] carries a least key. *)
Definition head_least key l : Prop :=
  match l with
  | [] => True
  | x :: _ => forall y, In y l -> key x <= key y
  end.

Lemma insert_sorted_head_least key x l :
  head_least key l -> head_least key (insert_sorted key x l).
Proof.
  destruct l as [|z l]; simpl.
  - intros _ y [<-|[]]. lia.
  - intros Hz. destruct (key x <=? key z) eqn:Hlt; simpl.
    + intros y [<-|Hy]; [lia|]. specialize (Hz y Hy). lia.
    + intros y [<-|Hy]; [lia|].
      apply In_insert_sorted in Hy as [->|Hy]; [lia|].
      apply Hz. now right.
Qed.

Lemma order_by_asc_head_least key qs : head_least key (order_by_asc key qs).
Proof.
  unfold order_by_asc. induction qs as [|x qs IH]; simpl; [exact I|].
  now apply insert_sorted_head_least.
Qed.

Lemma first_order_by_desc key qs x :
  first (order_by_desc key qs) = Some x ->
  In x qs /\ forall y, In y qs -> key y <= key x.
Proof.
  unfold first, order_by_desc. intros Hhd.
  pose proof (order_by_asc_head_least (fun r => - key r) qs) as Hleast.
  destruct (order_by_asc (fun r => - key r) qs) as [|z l] eqn:Hsorted;
    simpl in Hhd; [discriminate|].
  injection Hhd as ->. split.
  - apply (In_order_by_asc (fun r => - key r)). rewrite Hsorted. now left.
  - intros y Hy. simpl in Hleast.
    assert (In y (x :: l)) as Hy'.
    { rewrite <- Hsorted. now apply In_order_by_asc. }
    specialize (Hleast y Hy'). lia.
Qed.

Lemma first_order_by_desc_None key qs :
  first (order_by_desc key qs) = None -> qs = [].
Proof.
  unfold first, order_by_desc. intros Hhd.
  destruct qs as [|x qs]; [reflexivity|].
  assert (In x (order_by_asc (fun r => - key r) (x :: qs))) as Hin.
  { apply In_order_by_asc. now left. }
  destruct (order_by_asc (fun r => - key r) (x :: qs)); [destruct Hin | discriminate].
Qed.

Lemma exists_spec qs : exists_ qs = true <-> exists x, In x qs.
Proof.
  destruct qs as [|x qs]; simpl.
  - split; [discriminate | intros [? []]].
  - split; [eauto | reflexivity].
Qed.
End QuerySetFacts.

(** ** The bid form *)


(** An amount the form accepts is one it was posted with, above the current
    price and not below the minimum bid. *)
Lemma is_valid_Valid posted item amount :
  PlaceBidForm.is_valid posted (Some item) = PlaceBidForm.Valid amount ->
  posted = Some amount
  /\ Item.current_price item < amount
  /\ Item.current_price item + Item.min_increment item <= amount.
Proof.
  unfold PlaceBidForm.is_valid, PlaceBidForm.amount_field, PlaceBidForm.clean_amount.
  destruct posted as [a|]; [|discriminate].
  destruct (Z.abs a <? 10 ^ 12); [|discriminate].
  destruct (a <=? Item.current_price item) eqn:Hle; [discriminate|].
  destruct (a <? Item.current_price item + Item.min_increment item) eqn:Hlt;
    [discriminate|].
  intros [= ->]. repeat split; lia.
Qed.




(** ** The cooldown store *)

Lemma option_Z_eqb_eq a b : option_Z_eqb a b = true <-> a = b.
Proof.
  destruct a, b; simpl; try (split; congruence).
  rewrite Z.eqb_eq. split; congruence.
Qed.

Lemma cleanup_expired_lookup now table k :
  fst (BidCooldown.cleanup_expired now table) !! k
  = (fun c => if BidCooldown.is_active c && (BidCooldown.expires_at c <=? now)
              then BidCooldown.set_is_active false c else c) <$> table !! k.
Proof. unfold BidCooldown.cleanup_expired. simpl. apply lookup_fmap. Qed.

(** The lazy cleanup neither adds nor removes a row that is in force. *)
Lemma cleanup_expired_in_force now table u it k c :
  (fst (BidCooldown.cleanup_expired now table) !! k = Some c /\ in_force now u it c)
  <-> (table !! k = Some c /\ in_force now u it c).
Proof.
  rewrite cleanup_expired_lookup. unfold in_force.
  split.
  - intros [Hk (Hu & Ha & He & Hs)].
    destruct (table !! k) as [c0|] eqn:Hc0; simpl in Hk; [|discriminate].
    injection Hk as Hk.
    destruct (BidCooldown.is_active c0 && (BidCooldown.expires_at c0 <=? now)) eqn:Hx.
    + subst c. simpl in Ha. discriminate.
    + subst c. auto.
  - intros [Hk (Hu & Ha & He & Hs)]. rewrite Hk. simpl.
    replace (BidCooldown.expires_at c <=? now) with false by lia.
    rewrite andb_false_r. auto.
Qed.

Lemma active_query_spec now table u it k c :
  In (k, c) (BidCooldown.active_query now table u it)
  <-> table !! k = Some c /\ in_force now u it c.
Proof.
  unfold BidCooldown.active_query, in_force.
  destruct it as [i|]; rewrite !filter_In, objects_spec; simpl;
    rewrite ?orb_true_iff, !andb_true_iff, !option_Z_eqb_eq, Z.eqb_eq, Z.ltb_lt;
    intuition.
Qed.

Lemma get_active_cooldown_fst now table u it :
  fst (BidCooldown.get_active_cooldown now table u it)
  = first (order_by_desc (fun r => BidCooldown.created_at (snd r))
             (BidCooldown.active_query
                now (fst (BidCooldown.cleanup_expired now table)) u it)).
Proof. reflexivity. Qed.

Lemma get_active_cooldown_snd now table u it :
  snd (BidCooldown.get_active_cooldown now table u it)
  = fst (BidCooldown.cleanup_expired now table).
Proof. reflexivity. Qed.

(** C9, as stated, fails: Alice has an active, unexpired cooldown scoped to
    item 10 and a more recent active, unexpired global one; the lookup for
    item 10 returns the global row, not the item-scoped one. *)
Lemma get_active_cooldown_returns_newer_global :
  in_force Scenario.now 2 (Some 10)
           (Scenario.cooldown 2 (Some 10) BidCooldown.hard_cooldown
              (Scenario.now - timedelta_minutes 2) (Scenario.now + timedelta_minutes 3))
  /\ Scenario.item_then_global !! 1
     = Some (Scenario.cooldown 2 (Some 10) BidCooldown.hard_cooldown
               (Scenario.now - timedelta_minutes 2) (Scenario.now + timedelta_minutes 3))
  /\ fst (BidCooldown.get_active_cooldown Scenario.now Scenario.item_then_global
                                          2 (Some 10))
     = Some (2, Scenario.cooldown 2 None BidCooldown.soft_challenge
                  (Scenario.now - timedelta_minutes 1)
                  (Scenario.now + timedelta_minutes 9)).
Proof.
  split; [|split].
  - unfold in_force. simpl. repeat split; auto; vm_compute; reflexivity.
  - reflexivity.
  - vm_compute. reflexivity.
Qed.

(** What the lookup returns is a row of the table that is in force. *)
Lemma get_active_cooldown_sound now table u it k c :
  fst (BidCooldown.get_active_cooldown now table u it) = Some (k, c) ->
  table !! k = Some c /\ in_force now u it c.
Proof.
  rewrite get_active_cooldown_fst. intros Hfirst.
  apply (first_order_by_desc (fun r => BidCooldown.created_at (snd r))) in Hfirst
    as [Hin _].
  apply active_query_spec in Hin.
  now apply (proj1 (cleanup_expired_in_force now table u it k c)) in Hin.
Qed.

(** It returns nothing only when no row is in force. *)
Lemma get_active_cooldown_complete now table u it k c :
  fst (BidCooldown.get_active_cooldown now table u it) = None ->
  table !! k = Some c -> ~ in_force now u it c.
Proof.
  rewrite get_active_cooldown_fst. intros Hfirst Hk Hforce.
  apply first_order_by_desc_None in Hfirst.
  assert (In (k, c) (BidCooldown.active_query
                       now (fst (BidCooldown.cleanup_expired now table)) u it)) as Hin.
  { apply active_query_spec.
    apply (proj2 (cleanup_expired_in_force now table u it k c)). auto. }
  rewrite Hfirst in Hin. destruct Hin.
Qed.

(** C9, amended: [get_active_cooldown] returns the most recently created
    among the user's cooldowns in force for the item (item-scoped and
    global alike, without precedence of one over the other); what it
    returns is active with [expires_at] in the future; it returns nothing
    only when no such cooldown exists. *)
Theorem get_active_cooldown_most_recent now table u it :
  (forall k c,
      fst (BidCooldown.get_active_cooldown now table u it) = Some (k, c) ->
      table !! k = Some c
      /\ in_force now u it c
      /\ forall k' c', table !! k' = Some c' -> in_force now u it c' ->
                       BidCooldown.created_at c' <= BidCooldown.created_at c)
  /\ (fst (BidCooldown.get_active_cooldown now table u it) = None ->
      forall k c, table !! k = Some c -> ~ in_force now u it c).
Proof.
  split.
  - intros k c Hfirst.
    destruct (get_active_cooldown_sound now table u it k c Hfirst) as [Hk Hforce].
    split; [exact Hk|]. split; [exact Hforce|].
    intros k' c' Hk' Hforce'.
    rewrite get_active_cooldown_fst in Hfirst.
    apply (first_order_by_desc (fun r => BidCooldown.created_at (snd r))) in Hfirst
      as [_ Hmax].
    apply (Hmax (k', c')).
    apply active_query_spec.
    apply (proj2 (cleanup_expired_in_force now table u it k' c')). auto.
  - intros Hfirst k c. now apply get_active_cooldown_complete.
Qed.

(** ** The rapid-bidding gate *)

Lemma only_cooldowns_differ_refl db : only_cooldowns_differ db db.
Proof. unfold only_cooldowns_differ. tauto. Qed.

Lemma only_cooldowns_differ_trans db1 db2 db3 :
  only_cooldowns_differ db1 db2 -> only_cooldowns_differ db2 db3 ->
  only_cooldowns_differ db1 db3.
Proof. unfold only_cooldowns_differ. intuition congruence. Qed.

Lemma set_cooldowns_frame f db : only_cooldowns_differ db (set_cooldowns f db).
Proof. unfold only_cooldowns_differ. simpl. tauto. Qed.

Lemma BidCooldown_create_frame c db : only_cooldowns_differ db (BidCooldown_create c db).
Proof. unfold only_cooldowns_differ. simpl. tauto. Qed.

Lemma _create_hard_cooldown_frame now u it d reason db :
  only_cooldowns_differ
    db (RapidBiddingDetector._create_hard_cooldown now u it d reason db).
Proof. apply BidCooldown_create_frame. Qed.

Lemma _create_soft_challenge_frame cfg now u it reason db :
  only_cooldowns_differ
    db (snd (RapidBiddingDetector._create_soft_challenge cfg now u it reason db)).
Proof.
  unfold RapidBiddingDetector._create_soft_challenge.
  repeat case_match; simpl;
    auto using only_cooldowns_differ_refl, BidCooldown_create_frame,
               _create_hard_cooldown_frame.
Qed.

Lemma check_thresholds_frame cfg now db u item_pk item bid_amount :
  only_cooldowns_differ
    db (snd (RapidBiddingDetector.check_thresholds cfg now db u item_pk item bid_amount)).
Proof.
  unfold RapidBiddingDetector.check_thresholds.
  repeat case_match; simpl;
    try apply only_cooldowns_differ_refl;
    try apply _create_hard_cooldown_frame;
    match goal with
    | H : RapidBiddingDetector._create_soft_challenge ?c ?n ?u ?i ?r ?d = (_, ?d') |- _ =>
        pose proof (_create_soft_challenge_frame c n u i r d) as Hf;
        rewrite H in Hf; exact Hf
    end.
Qed.

(** The gate writes cooldown rows and nothing else. *)
Lemma check_rapid_bidding_frame cfg now db u item_pk item bid_amount :
  only_cooldowns_differ
    db (snd (RapidBiddingDetector.check_rapid_bidding cfg now db u item_pk item
                                                     bid_amount)).
Proof.
  unfold RapidBiddingDetector.check_rapid_bidding.
  destruct (BidCooldown.get_active_cooldown now (cooldowns db) u (Some item_pk))
    as [existing table].
  destruct (RapidBiddingDetector.existing_cooldown_verdict now existing); simpl.
  - apply set_cooldowns_frame.
  - eapply only_cooldowns_differ_trans; [apply set_cooldowns_frame|].
    apply check_thresholds_frame.
Qed.

Lemma filter_length_map {A B} (P : B -> bool) (g : A -> B) (l : list A) :
  length (List.filter P (map g l)) = length (List.filter (fun x => P (g x)) l).
Proof. induction l as [|x l IH]; simpl; [reflexivity|]. case_match; simpl; congruence. Qed.

Lemma filter_filter_andb {A} (P Q : A -> bool) (l : list A) :
  List.filter Q (List.filter P l) = List.filter (fun x => P x && Q x) l.
Proof.
  induction l as [|x l IH]; simpl; [reflexivity|].
  destruct (P x); simpl; [destruct (Q x)|]; congruence.
Qed.

(** Counting rows by a predicate that does not look at what an update
    changes gives the same number before and after the update. *)
Lemma order_by_asc_map {R} (key : Z * R -> Z) (g : Z * R -> Z * R) (l : list (Z * R)) :
  (forall x, key (g x) = key x) ->
  order_by_asc key (map g l) = map g (order_by_asc key l).
Proof.
  intros Hkey. unfold order_by_asc.
  induction l as [|x l IH]; simpl; [reflexivity|]. rewrite IH.
  generalize (foldr (insert_sorted key) [] l). clear IH.
  intros sorted. induction sorted as [|y sorted IH]; simpl; [reflexivity|].
  rewrite !Hkey. destruct (key x <=? key y); simpl; [reflexivity|].
  now rewrite IH.
Qed.

Lemma count_filter_fmap {R} (P : Z * R -> bool) (f : R -> R) (table : gmap Z R) :
  (forall k r, P (k, f r) = P (k, r)) ->
  count (List.filter P (objects (f <$> table)))
  = count (List.filter P (objects table)).
Proof.
  intros HP. unfold count, objects. f_equal.
  rewrite map_to_list_fmap.
  change (prod_map id f <$> map_to_list table)
    with (map (prod_map id f) (map_to_list table)).
  rewrite order_by_asc_map by (now intros [k r]).
  rewrite filter_length_map. f_equal. apply filter_ext.
  intros [k r]. apply HP.
Qed.

(** The lazy cleanup does not change how many soft challenges were created
    within the last hour. *)
Lemma recent_soft_challenges_cleanup now db u it :
  recent_soft_challenges
    now (set_cooldowns (fun _ => fst (BidCooldown.cleanup_expired now (cooldowns db))) db)
    u it
  = recent_soft_challenges now db u it.
Proof.
  unfold recent_soft_challenges, RapidBiddingDetector.soft_challenges.
  rewrite !filter_filter_andb. simpl.
  apply count_filter_fmap. intros k r. simpl.
  destruct (BidCooldown.is_active r && (BidCooldown.expires_at r <=? now));
    reflexivity.
Qed.

Lemma _create_soft_challenge_escalates cfg now u it reason db :
  2 <= recent_soft_challenges now db u it ->
  RapidBiddingDetector._create_soft_challenge cfg now u it reason db
  = (true,
     RapidBiddingDetector._create_hard_cooldown
       now u it (Settings.RAPID_BID_COOLDOWN_DURATION cfg * 2)
       BidCooldown.Repeated_soft_challenge_violations db).
Proof.
  intros Hrecent. unfold RapidBiddingDetector._create_soft_challenge.
  fold (recent_soft_challenges now db u it).
  replace (2 <=? recent_soft_challenges now db u it) with true by lia.
  reflexivity.
Qed.


(** What [check_thresholds] does on a breach of a soft window when two soft
    challenges are on record for the last hour. *)
Lemma check_thresholds_escalates cfg now db u item_pk item bid_amount :
  soft_window_breached cfg now db u item_pk item = true ->
  2 <= recent_soft_challenges now db u (Some item_pk) ->
  RapidBiddingDetector.check_thresholds cfg now db u item_pk item bid_amount
  = ((false, RapidBiddingDetector.hard_cooldown,
      RapidBiddingDetector.too_many_verification_attempts,
      Some (Settings.RAPID_BID_COOLDOWN_DURATION cfg * 2)),
     RapidBiddingDetector._create_hard_cooldown
       now u (Some item_pk) (Settings.RAPID_BID_COOLDOWN_DURATION cfg * 2)
       BidCooldown.Repeated_soft_challenge_violations db).
Proof.
  intros Hbreach Hrecent.
  unfold RapidBiddingDetector.check_thresholds.
  unfold soft_window_breached in Hbreach.
  destruct (RapidBiddingDetector._check_window _ _
              (Some (Settings.RAPID_BID_SOFT_WINDOW_2MIN cfg)) _ _) as [c2 n2].
  destruct (RapidBiddingDetector._check_window _ _
              (Some (Settings.RAPID_BID_SOFT_WINDOW_5MIN cfg)) _ _) as [c5 n5].
  simpl in Hbreach. rewrite Hbreach.
  rewrite (_create_soft_challenge_escalates _ _ _ _ _ _ Hrecent).
  reflexivity.
Qed.

(** On a breach of a rate window the escalation is reported. When no
    cooldown in force stops the check at its first step, a breach of one
    of the two soft windows by a user who already has two (or more) soft
    challenges for the same (user, item) scope created within the last
    hour makes [check_rapid_bidding] answer blocked with action
    hard_cooldown (and twice the cooldown duration), and the one row it
    adds to the cooldown table is a hard cooldown for that scope: no third
    soft challenge is written. *)
Theorem third_soft_challenge_escalates cfg now db u item_pk item bid_amount :
  RapidBiddingDetector.existing_cooldown_verdict
    now (fst (BidCooldown.get_active_cooldown now (cooldowns db) u (Some item_pk)))
  = None ->
  soft_window_breached cfg now db u item_pk item = true ->
  2 <= recent_soft_challenges now db u (Some item_pk) ->
  fst (RapidBiddingDetector.check_rapid_bidding cfg now db u item_pk item bid_amount)
  = (false, RapidBiddingDetector.hard_cooldown,
     RapidBiddingDetector.too_many_verification_attempts,
     Some (Settings.RAPID_BID_COOLDOWN_DURATION cfg * 2))
  /\ cooldowns (snd (RapidBiddingDetector.check_rapid_bidding
                       cfg now db u item_pk item bid_amount))
     = <[cooldown_seq db :=
           BidCooldown.mk u (Some item_pk) BidCooldown.hard_cooldown
             BidCooldown.Repeated_soft_challenge_violations
             (now + timedelta_seconds (Settings.RAPID_BID_COOLDOWN_DURATION cfg * 2))
             now true false false 0]>
         (fst (BidCooldown.cleanup_expired now (cooldowns db))).
Proof.
  intros Hnone Hbreach Hrecent.
  unfold RapidBiddingDetector.check_rapid_bidding.
  destruct (BidCooldown.get_active_cooldown now (cooldowns db) u (Some item_pk))
    as [existing table] eqn:Hget.
  assert (table = fst (BidCooldown.cleanup_expired now (cooldowns db))) as ->.
  { rewrite <- get_active_cooldown_snd with (u := u) (it := Some item_pk).
    now rewrite Hget. }
  simpl in Hnone. rewrite Hnone.
  rewrite check_thresholds_escalates.
  - split; reflexivity.
  - exact Hbreach.
  - now rewrite recent_soft_challenges_cleanup.
Qed.

Lemma third_soft_challenge_escalates_witness :
  fst (RapidBiddingDetector.check_rapid_bidding
         Scenario.cfg Scenario.now Scenario.third_offence 2 10 Scenario.laptop
         (UGX 550000))
  = (false, RapidBiddingDetector.hard_cooldown,
     RapidBiddingDetector.too_many_verification_attempts, Some (300 * 2))
  /\ cooldowns (snd (RapidBiddingDetector.check_rapid_bidding
                       Scenario.cfg Scenario.now Scenario.third_offence 2 10
                       Scenario.laptop (UGX 550000)))
     = <[3 := BidCooldown.mk 2 (Some 10) BidCooldown.hard_cooldown
                BidCooldown.Repeated_soft_challenge_violations
                (Scenario.now + timedelta_seconds (300 * 2))
                Scenario.now true false false 0]>
         (fst (BidCooldown.cleanup_expired Scenario.now
                 (cooldowns Scenario.third_offence))).
Proof.
  apply (third_soft_challenge_escalates
           Scenario.cfg Scenario.now Scenario.third_offence 2 10 Scenario.laptop
           (UGX 550000)).
  - vm_compute. reflexivity.
  - vm_compute. reflexivity.
  - vm_compute. congruence.
Defined.

(** The same third offence with rate windows that do not fire: Alice's
    fifth minimal increment after two soft challenges gets her the hard
    cooldown row, while the answer still reads soft_challenge. *)
Example escalation_by_increment_pattern_answers_soft_challenge :
  RapidBiddingDetector.check_rapid_bidding
    Scenario.lenient Scenario.now Scenario.third_offence 2 10 Scenario.laptop
    (UGX 550000)
  = ((false, RapidBiddingDetector.soft_challenge,
      RapidBiddingDetector.unusual_bid_pattern, None),
     RapidBiddingDetector._create_hard_cooldown
       Scenario.now 2 (Some 10) (300 * 2)
       BidCooldown.Repeated_soft_challenge_violations
       (set_cooldowns
          (fun _ => fst (BidCooldown.cleanup_expired
                           Scenario.now (cooldowns Scenario.third_offence)))
          Scenario.third_offence)).
Proof. vm_compute. reflexivity. Qed.

(** C4 fails where the breach is not one of a rate window. The escalation
    of [_create_soft_challenge] is also reached from the minimal-increment
    check and from the global velocity check, and these two call sites
    drop what it returns. Whenever [check_rapid_bidding] answers with the
    message of one of the two ("Unusual bid pattern detected ..." for the
    item, "Unusual bidding activity detected ..." for the global scope)
    for a user with two or more soft challenges of that scope from the
    last hour, the one row it writes is a hard cooldown of twice the
    cooldown duration for the scope, as the claim says, but the answer is
    blocked with action soft_challenge and no duration, not
    hard_cooldown. *)
Theorem dropped_escalation_answers_soft_challenge
    cfg now db u item_pk item bid_amount scope :
  let verdict :=
    fst (RapidBiddingDetector.check_rapid_bidding cfg now db u item_pk item bid_amount) in
  let db' :=
    snd (RapidBiddingDetector.check_rapid_bidding cfg now db u item_pk item bid_amount) in
  (snd (fst verdict) = RapidBiddingDetector.unusual_bid_pattern /\ scope = Some item_pk)
  \/ (snd (fst verdict) = RapidBiddingDetector.unusual_bidding_activity
      /\ scope = None) ->
  2 <= recent_soft_challenges now db u scope ->
  fst (fst verdict) = (false, RapidBiddingDetector.soft_challenge)
  /\ snd verdict = None
  /\ cooldowns db'
     = <[cooldown_seq db :=
           BidCooldown.mk u scope BidCooldown.hard_cooldown
             BidCooldown.Repeated_soft_challenge_violations
             (now + timedelta_seconds (Settings.RAPID_BID_COOLDOWN_DURATION cfg * 2))
             now true false false 0]>
         (fst (BidCooldown.cleanup_expired now (cooldowns db)))
  /\ cooldown_seq db' = cooldown_seq db + 1.
Proof.
  cbv zeta. intros Hpath Hrecent.
  rewrite <- recent_soft_challenges_cleanup in Hrecent.
  unfold RapidBiddingDetector.check_rapid_bidding in *.
  destruct (BidCooldown.get_active_cooldown now (cooldowns db) u (Some item_pk))
    as [existing table] eqn:Hget.
  assert (table = fst (BidCooldown.cleanup_expired now (cooldowns db))) as ->.
  { rewrite <- get_active_cooldown_snd with (u := u) (it := Some item_pk).
    now rewrite Hget. }
  set (db1 := set_cooldowns _ db) in *.
  destruct (RapidBiddingDetector.existing_cooldown_verdict now existing)
    as [verdict|] eqn:Hverdict.
  { exfalso. unfold RapidBiddingDetector.existing_cooldown_verdict in Hverdict.
    destruct existing as [[k c]|]; [|discriminate].
    repeat case_match; try discriminate; injection Hverdict as <-;
      simpl in Hpath; destruct Hpath as [[? ?]|[? ?]]; discriminate. }
  destruct (RapidBiddingDetector.check_thresholds cfg now db1 u item_pk item bid_amount)
    as [verdict db'] eqn:Hcheck.
  cbn [fst snd] in *.
  unfold RapidBiddingDetector.check_thresholds in Hcheck.
  repeat case_match; injection Hcheck as <- <-; cbn [fst snd] in Hpath;
    destruct Hpath as [[Hmessage ->]|[Hmessage ->]]; try discriminate;
    match goal with
    | H : RapidBiddingDetector._create_soft_challenge _ _ _ _ _ _ = _ |- _ =>
        rewrite (_create_soft_challenge_escalates _ _ _ _ _ _ Hrecent) in H;
        injection H as <- <-
    end;
    repeat split.
Qed.

Lemma dropped_escalation_answers_soft_challenge_witness :
  let verdict :=
    fst (RapidBiddingDetector.check_rapid_bidding
           Scenario.lenient Scenario.now Scenario.third_offence 2 10 Scenario.laptop
           (UGX 550000)) in
  let db' :=
    snd (RapidBiddingDetector.check_rapid_bidding
           Scenario.lenient Scenario.now Scenario.third_offence 2 10 Scenario.laptop
           (UGX 550000)) in
  fst (fst verdict) = (false, RapidBiddingDetector.soft_challenge)
  /\ snd verdict = None
  /\ cooldowns db'
     = <[cooldown_seq Scenario.third_offence :=
           BidCooldown.mk 2 (Some 10) BidCooldown.hard_cooldown
             BidCooldown.Repeated_soft_challenge_violations
             (Scenario.now
              + timedelta_seconds
                  (Settings.RAPID_BID_COOLDOWN_DURATION Scenario.lenient * 2))
             Scenario.now true false false 0]>
         (fst (BidCooldown.cleanup_expired Scenario.now
                 (cooldowns Scenario.third_offence)))
  /\ cooldown_seq db' = cooldown_seq Scenario.third_offence + 1.
Proof.
  apply (dropped_escalation_answers_soft_challenge
           Scenario.lenient Scenario.now Scenario.third_offence 2 10 Scenario.laptop
           (UGX 550000) (Some 10)).
  - left. split; [vm_compute|]; reflexivity.
  - vm_compute. congruence.
Defined.

(** ** The endgame multiplier *)


Lemma _is_auction_endgame_true cfg now item :
  Item.status item = Item.active ->
  0 < Item.end_time item - now
  <= timedelta_minutes (Settings.AUCTION_ENDGAME_WINDOW_MINUTES cfg) ->
  RapidBiddingDetector._is_auction_endgame cfg now item = true.
Proof.
  intros Hs Ht. unfold RapidBiddingDetector._is_auction_endgame.
  rewrite Hs. simpl. unfold timedelta_minutes in Ht.
  apply andb_true_iff. split; lia.
Qed.


Example scaled_25_by_2_2 :
  RapidBiddingDetector.scaled 25 (float.literal (22 # 10)) = 56
  /\ RapidBiddingDetector.scaled 25 (float.of_int 1) = 25.
Proof. split; reflexivity. Qed.



(** Far from its end the same auction has the threshold of 5: after four
    bids in the window the fifth is challenged, and the ninth bid of the
    endgame would have been. *)
Example soft_threshold_outside_the_endgame :
  fst (RapidBiddingDetector.check_rapid_bidding
         Scenario.cfg Scenario.now Scenario.bidding_war 2 10 Scenario.laptop
         (UGX 600000))
  = (false, RapidBiddingDetector.soft_challenge,
     RapidBiddingDetector.unusual_activity_detected (BidCooldown.bids_in_2_minutes 5),
     None)
  /\ fst (RapidBiddingDetector.check_rapid_bidding
            Scenario.cfg Scenario.now
            (set_items (fun _ => {[ 10 := Scenario.laptop ]}) (Scenario.endgame 8))
            2 10 Scenario.laptop (UGX 600000))
     = (false, RapidBiddingDetector.soft_challenge,
        RapidBiddingDetector.unusual_activity_detected
          (BidCooldown.bids_in_2_minutes 9),
        None).
Proof. split; vm_compute; reflexivity. Qed.

(** ** The fraud service as [place_bid] sees it *)

Lemma only_alerts_differ_refl db : only_alerts_differ db db.
Proof. unfold only_alerts_differ. tauto. Qed.

Lemma save_alerts_frame (fraud_alerts : list FraudAlert.t) db :
  only_alerts_differ db (foldl (fun d a => FraudAlert_save_new a d) db fraud_alerts).
Proof.
  revert db. induction fraud_alerts as [|a l IH]; intros db; simpl.
  - apply only_alerts_differ_refl.
  - specialize (IH (FraudAlert_save_new a db)).
    unfold only_alerts_differ in *. simpl in IH. exact IH.
Qed.

(** Whatever the detectors find, the service writes alert rows only. *)
Lemma analyze_bid_frame cfg now db bid_pk bid item bidder ai_response fraud_alerts db' :
  FraudDetectionService.analyze_bid cfg now db bid_pk bid item bidder ai_response
  = Ok (fraud_alerts, db') ->
  only_alerts_differ db db'.
Proof.
  unfold FraudDetectionService.analyze_bid.
  destruct (FraudDetectionService.detect_bid_pattern_anomaly cfg db bid_pk bid bidder)
    as [anomaly|e]; [|discriminate].
  destruct (FraudDetectionService.detect_shill_bidding_patterns
              cfg db bid_pk bid item bidder) as [shill|e]; [|discriminate].
  unfold mbind, Result_bind. intros [= <- <-]. apply save_alerts_frame.
Qed.

Lemma check_fraud_frame cfg now ai_response user bid_pk bid item reject reasons db :
  only_alerts_differ
    db (snd (views.check_fraud cfg now ai_response user bid_pk bid item
                               reject reasons db)).
Proof.
  unfold views.check_fraud.
  destruct (FraudDetectionService.analyze_bid _ _ _ _ _ _ _ _)
    as [[fraud_alerts db']|e] eqn:Hanalyze.
  - apply analyze_bid_frame in Hanalyze.
    repeat case_match; exact Hanalyze.
  - apply only_alerts_differ_refl.
Qed.

(** No later check takes back a rejection. *)
Lemma check_account_age_keeps_rejection cfg now user bid_amount reasons :
  fst (views.check_account_age cfg now user bid_amount true reasons) = true.
Proof. unfold views.check_account_age. repeat case_match; reflexivity. Qed.

Lemma check_fraud_keeps_rejection cfg now ai_response user bid_pk bid item reasons db :
  fst (fst (fst (views.check_fraud cfg now ai_response user bid_pk bid item
                                   true reasons db))) = true.
Proof. unfold views.check_fraud. repeat case_match; reflexivity. Qed.

(** ** Hard cooldowns *)

(** With a hard cooldown in force and only gate-written rows active, the
    first step of the gate blocks. *)
Lemma existing_cooldown_blocks now table u it k c :
  gate_written table ->
  table !! k = Some c -> in_force now u it c ->
  exists action message duration,
    RapidBiddingDetector.existing_cooldown_verdict
      now (fst (BidCooldown.get_active_cooldown now table u it))
    = Some (false, action, message, duration).
Proof.
  intros Hgate Hk Hforce.
  pose proof (get_active_cooldown_sound now table u it) as Hsome.
  pose proof (get_active_cooldown_complete now table u it) as Hnone.
  destruct (fst (BidCooldown.get_active_cooldown now table u it)) as [[k' c']|].
  - destruct (Hsome k' c' eq_refl) as (Hk' & Hforce').
    destruct Hforce' as (_ & Hactive & _ & _).
    unfold RapidBiddingDetector.existing_cooldown_verdict.
    destruct (Hgate k' c' Hk' Hactive) as [[Hty Hpassed]|[Hty|Hty]];
      rewrite Hty; [rewrite Hpassed|..]; simpl; eauto.
  - exfalso. exact (Hnone k c eq_refl Hk Hforce).
Qed.

Lemma check_rapid_blocks cfg now user pk item bid_amount sess db k c :
  views.bypass_rapid_bidding user = false ->
  gate_written (cooldowns db) ->
  cooldowns db !! k = Some c -> in_force now (User.id user) (Some pk) c ->
  fst (fst (fst (views.check_rapid cfg now user pk item bid_amount sess db))) = true.
Proof.
  intros Hbypass Hgate Hk Hforce. unfold views.check_rapid. rewrite Hbypass. simpl.
  unfold RapidBiddingDetector.check_rapid_bidding.
  destruct (existing_cooldown_blocks now (cooldowns db) (User.id user) (Some pk) k c
              Hgate Hk Hforce) as (action & message & duration & Hverdict).
  destruct (BidCooldown.get_active_cooldown now (cooldowns db) (User.id user) (Some pk))
    as [existing table].
  simpl in Hverdict. rewrite Hverdict. simpl.
  destruct action; reflexivity.
Qed.

Lemma check_rapid_frame cfg now user pk item bid_amount sess db :
  only_cooldowns_differ
    db (snd (views.check_rapid cfg now user pk item bid_amount sess db)).
Proof.
  unfold views.check_rapid.
  destruct (negb (views.bypass_rapid_bidding user));
    [|apply only_cooldowns_differ_refl].
  pose proof (check_rapid_bidding_frame cfg now db (User.id user) pk item bid_amount)
    as Hframe.
  destruct (RapidBiddingDetector.check_rapid_bidding _ _ _ _ _ _ _)
    as [[[[is_allowed action] message] duration] db'].
  simpl in Hframe. repeat case_match; simpl; exact Hframe.
Qed.

(** Users with a bypass are exempt, by the guard of the view: the
    administrator, a superuser, has an active hard cooldown for item 10
    that expires in four minutes, and the bid is admitted all the same. *)
Lemma superuser_bids_through_hard_cooldown :
  cooldowns Scenario.admin_cooling_down !! 1
  = Some (Scenario.cooldown 4 (Some 10) BidCooldown.hard_cooldown
            (Scenario.now - timedelta_minutes 1) (Scenario.now + timedelta_minutes 4))
  /\ in_force Scenario.now (User.id Scenario.admin) (Some 10)
       (Scenario.cooldown 4 (Some 10) BidCooldown.hard_cooldown
          (Scenario.now - timedelta_minutes 1) (Scenario.now + timedelta_minutes 4))
  /\ admitted (fst (views.place_bid Scenario.cfg Scenario.now None Scenario.admin
                                    views.POST (Some (UGX 510000)) 10
                                    Scenario.no_session Scenario.admin_cooling_down))
  /\ bids (snd (views.place_bid Scenario.cfg Scenario.now None Scenario.admin
                                views.POST (Some (UGX 510000)) 10
                                Scenario.no_session Scenario.admin_cooling_down)) !! 1
     = Some (Bid.mk 10 4 (UGX 510000) Scenario.now true "web").
Proof.
  split; [reflexivity|]. split; [|split].
  - unfold in_force. simpl. repeat split; auto; vm_compute; reflexivity.
  - exists (UGX 510000), []. vm_compute. reflexivity.
  - vm_compute. reflexivity.
Qed.

(** Through the bid form the cooldown holds. For a user without a
    rapid-bidding bypass (no superuser, no bypass flag) who holds an active
    hard cooldown or suspension that has not expired and covers the item
    (scoped to it, or global), no bid through [place_bid] is admitted: no
    Bid row is left behind and the item is as before, whatever amount is
    posted. This holds as long as the active cooldown rows are of the kinds
    the gate writes, and the bid sequence is ahead of the bid table. *)
Theorem hard_cooldown_blocks_place_bid
    cfg now ai_response user method posted pk sess db k c :
  views.bypass_rapid_bidding user = false ->
  gate_written (cooldowns db) ->
  bids db !! bid_seq db = None ->
  cooldowns db !! k = Some c ->
  in_force now (User.id user) (Some pk) c ->
  is_hard c ->
  ~ admitted (fst (views.place_bid cfg now ai_response user method posted pk sess db))
  /\ bids (snd (views.place_bid cfg now ai_response user method posted pk sess db))
     = bids db
  /\ items (snd (views.place_bid cfg now ai_response user method posted pk sess db))
     = items db.
Proof.
  intros Hbypass Hgate Hfresh Hk Hforce _.
  assert (forall text sess' logged,
             ~ admitted (views.mkReply
                           (views.redirect_item_detail [(views.error, text)])
                           sess' logged)) as Herror.
  { intros text sess' logged (amount & messages & Heq). simpl in Heq. discriminate. }
  unfold views.place_bid.
  destruct (items db !! pk) as [item|];
    [|split; [intros (? & ? & Heq); discriminate | auto]].
  destruct method; [split; [intros (? & ? & Heq); discriminate | auto]|].
  destruct (Item.seller item =? User.id user); [split; [apply Herror | auto]|].
  destruct (negb (Item.status_eqb (Item.status item) Item.active));
    [split; [apply Herror | auto]|].
  destruct (Item.end_time item <=? now); [split; [apply Herror | auto]|].
  destruct (PlaceBidForm.is_valid posted (Some item)) as [bid_amount|e];
    [|split; [apply Herror | auto]].
  pose proof (check_rapid_blocks cfg now user pk item bid_amount sess db k c
                Hbypass Hgate Hk Hforce) as Hblocked.
  pose proof (check_rapid_frame cfg now user pk item bid_amount sess db) as Hframe1.
  destruct (views.check_rapid cfg now user pk item bid_amount sess db)
    as [[[reject1 reasons1] sess1] db1].
  simpl in Hblocked, Hframe1. subst reject1.
  pose proof (check_account_age_keeps_rejection cfg now user bid_amount reasons1)
    as Hkept2.
  destruct (views.check_account_age cfg now user bid_amount true reasons1)
    as [reject2 reasons2].
  simpl in Hkept2. subst reject2.
  unfold Bid_save_new.
  set (bid := Bid.mk pk (User.id user) bid_amount now false "web").
  set (db2 := mkDB _ _ _ _ _ _ _ _ _ _).
  pose proof (check_fraud_keeps_rejection cfg now ai_response user (bid_seq db1)
                bid item reasons2 db2) as Hkept4.
  pose proof (check_fraud_frame cfg now ai_response user (bid_seq db1)
                bid item true reasons2 db2) as Hframe4.
  destruct (views.check_fraud cfg now ai_response user (bid_seq db1) bid item
                              true reasons2 db2)
    as [[[reject4 reasons4] logged] db4].
  simpl in Hkept4, Hframe4. subst reject4.
  destruct Hframe1 as (Hitems1 & Hbids1 & Hseq1 & _).
  destruct Hframe4 as (Hitems4 & Hbids4 & _).
  simpl in Hitems4, Hbids4.
  split; [|split].
  - intros (amount & messages & Heq). simpl in Heq.
    injection Heq as Heq. unfold views.shown in Heq.
    destruct reasons4 as [|[level text] reasons4]; simpl in Heq; [discriminate|].
    destruct level; discriminate.
  - simpl. rewrite Hbids4, Hseq1, Hbids1.
    apply delete_insert_id. exact Hfresh.
  - simpl. congruence.
Qed.

Lemma hard_cooldown_blocks_place_bid_witness :
  ~ admitted (fst (views.place_bid Scenario.cfg Scenario.now None Scenario.alice
                                   views.POST (Some (UGX 510000)) 10
                                   Scenario.no_session Scenario.alice_cooling_down))
  /\ bids (snd (views.place_bid Scenario.cfg Scenario.now None Scenario.alice
                                views.POST (Some (UGX 510000)) 10
                                Scenario.no_session Scenario.alice_cooling_down))
     = bids Scenario.alice_cooling_down
  /\ items (snd (views.place_bid Scenario.cfg Scenario.now None Scenario.alice
                                 views.POST (Some (UGX 510000)) 10
                                 Scenario.no_session Scenario.alice_cooling_down))
     = items Scenario.alice_cooling_down.
Proof.
  apply (hard_cooldown_blocks_place_bid
           Scenario.cfg Scenario.now None Scenario.alice views.POST
           (Some (UGX 510000)) 10 Scenario.no_session Scenario.alice_cooling_down
           1 (Scenario.cooldown 2 (Some 10) BidCooldown.hard_cooldown
                (Scenario.now - timedelta_minutes 1)
                (Scenario.now + timedelta_minutes 4))).
  - reflexivity.
  - intros k c Hk _. simpl in Hk.
    apply lookup_singleton_Some in Hk as [_ <-]. right. left. reflexivity.
  - reflexivity.
  - reflexivity.
  - unfold in_force. simpl. repeat split; auto; vm_compute; reflexivity.
  - left. reflexivity.
Defined.

(** The hypothesis on the active rows is needed: a row that no path of the
    gate writes, an active soft challenge already marked as passed, hides
    an older hard cooldown from the lookup, and the bid goes through. *)
Lemma passed_challenge_hides_hard_cooldown :
  let table : gmap Z BidCooldown.t :=
    {[ 1 := Scenario.cooldown 2 (Some 10) BidCooldown.hard_cooldown
              (Scenario.now - timedelta_minutes 2) (Scenario.now + timedelta_minutes 3);
       2 := BidCooldown.mk 2 (Some 10) BidCooldown.soft_challenge
              BidCooldown.Suspicious_minimal_increment_pattern
              (Scenario.now + timedelta_minutes 9) (Scenario.now - timedelta_minutes 1)
              true true true 0 ]} in
  admitted (fst (views.place_bid Scenario.cfg Scenario.now None Scenario.alice
                                 views.POST (Some (UGX 510000)) 10 Scenario.no_session
                                 (set_cooldowns (fun _ => table) Scenario.fresh))).
Proof. exists (UGX 510000), []. vm_compute. reflexivity. Qed.

(** The gate itself keeps the active rows of the kinds it writes. *)
Lemma cleanup_expired_gate_written now table :
  gate_written table -> gate_written (fst (BidCooldown.cleanup_expired now table)).
Proof.
  intros Hgate k c Hk Hactive. rewrite cleanup_expired_lookup in Hk.
  destruct (table !! k) as [c0|] eqn:Hc0; simpl in Hk; [|discriminate].
  injection Hk as Hk.
  destruct (BidCooldown.is_active c0 && (BidCooldown.expires_at c0 <=? now)).
  - subst c. simpl in Hactive. discriminate.
  - subst c. eauto.
Qed.

Lemma BidCooldown_create_gate_written c db :
  gate_written (cooldowns db) ->
  (BidCooldown.cooldown_type c = BidCooldown.soft_challenge
   /\ BidCooldown.captcha_passed c = false) \/ is_hard c ->
  gate_written (cooldowns (BidCooldown_create c db)).
Proof.
  intros Hgate Hc k c' Hk Hactive. simpl in Hk.
  destruct (decide (k = cooldown_seq db)) as [->|Hne].
  - rewrite lookup_insert_eq in Hk. injection Hk as <-. exact Hc.
  - rewrite lookup_insert_ne in Hk by congruence. eauto.
Qed.

Lemma _create_soft_challenge_gate_written cfg now u it reason db :
  gate_written (cooldowns db) ->
  gate_written
    (cooldowns (snd (RapidBiddingDetector._create_soft_challenge cfg now u it reason db))).
Proof.
  intros Hgate. unfold RapidBiddingDetector._create_soft_challenge.
  repeat case_match; simpl snd; try exact Hgate;
    apply BidCooldown_create_gate_written; try exact Hgate;
    [right; left; reflexivity | left; split; reflexivity].
Qed.

Lemma check_rapid_bidding_gate_written cfg now db u item_pk item bid_amount :
  gate_written (cooldowns db) ->
  gate_written
    (cooldowns (snd (RapidBiddingDetector.check_rapid_bidding
                       cfg now db u item_pk item bid_amount))).
Proof.
  intros Hgate. unfold RapidBiddingDetector.check_rapid_bidding.
  destruct (BidCooldown.get_active_cooldown now (cooldowns db) u (Some item_pk))
    as [existing table] eqn:Hget.
  assert (gate_written table) as Hgate'.
  { replace table with (fst (BidCooldown.cleanup_expired now (cooldowns db))).
    - now apply cleanup_expired_gate_written.
    - rewrite <- get_active_cooldown_snd with (u := u) (it := Some item_pk).
      now rewrite Hget. }
  set (db1 := set_cooldowns (fun _ => table) db).
  assert (gate_written (cooldowns db1)) as Hgate1 by exact Hgate'.
  clearbody db1.
  destruct (RapidBiddingDetector.existing_cooldown_verdict now existing);
    [exact Hgate1|].
  unfold RapidBiddingDetector.check_thresholds.
  repeat case_match; simpl snd; try exact Hgate1;
    try (apply BidCooldown_create_gate_written;
         [exact Hgate1 | right; left; reflexivity]);
    match goal with
    | H : RapidBiddingDetector._create_soft_challenge ?c ?n ?u' ?i ?r ?d = (_, ?d') |- _ =>
        pose proof (_create_soft_challenge_gate_written c n u' i r d Hgate1) as Hf;
        rewrite H in Hf; exact Hf
    end.
Qed.

Lemma soft_challenges_spec db u it k c :
  In (k, c) (RapidBiddingDetector.soft_challenges db u it)
  <-> cooldowns db !! k = Some c
      /\ BidCooldown.user c = u /\ BidCooldown.item c = it
      /\ BidCooldown.cooldown_type c = BidCooldown.soft_challenge.
Proof.
  unfold RapidBiddingDetector.soft_challenges.
  rewrite filter_In, objects_spec. simpl.
  rewrite !andb_true_iff, Z.eqb_eq, option_Z_eqb_eq.
  destruct (BidCooldown.cooldown_type c); simpl; intuition congruence.
Qed.

Lemma insert_gate_written k c table :
  gate_written table ->
  (BidCooldown.is_active c = true ->
   (BidCooldown.cooldown_type c = BidCooldown.soft_challenge
    /\ BidCooldown.captcha_passed c = false) \/ is_hard c) ->
  gate_written (<[k := c]> table).
Proof.
  intros Hgate Hc k' c' Hk' Hactive.
  destruct (decide (k' = k)) as [->|Hne].
  - rewrite lookup_insert_eq in Hk'. injection Hk' as <-. auto.
  - rewrite lookup_insert_ne in Hk' by congruence. eauto.
Qed.

(** Passing and failing a CAPTCHA keep the active rows of the kinds the
    gate writes, too. *)
Lemma pass_captcha_challenge_gate_written u it db :
  gate_written (cooldowns db) ->
  gate_written (cooldowns (snd (RapidBiddingDetector.pass_captcha_challenge u it db))).
Proof.
  intros Hgate. unfold RapidBiddingDetector.pass_captcha_challenge.
  destruct (first _) as [[k c]|]; [|exact Hgate].
  simpl. apply insert_gate_written; [exact Hgate|]. simpl. discriminate.
Qed.

Lemma fail_captcha_challenge_gate_written cfg now u it db :
  gate_written (cooldowns db) ->
  gate_written (cooldowns (RapidBiddingDetector.fail_captcha_challenge cfg now u it db)).
Proof.
  intros Hgate. unfold RapidBiddingDetector.fail_captcha_challenge.
  destruct (first _) as [[k c]|] eqn:Hfirst; [|exact Hgate].
  apply (first_order_by_desc (fun r => BidCooldown.created_at (snd r))) in Hfirst
    as [Hin _].
  apply filter_In in Hin as [Hin Hactive].
  apply soft_challenges_spec in Hin as (Hk & _ & _ & Hty).
  simpl in Hactive.
  destruct (Hgate k c Hk Hactive) as [[_ Hpassed]|[Hhard|Hhard]];
    try (rewrite Hty in Hhard; discriminate).
  destruct (3 <=? _).
  - apply BidCooldown_create_gate_written; [|right; left; reflexivity].
    simpl. apply insert_gate_written; [exact Hgate|]. simpl. discriminate.
  - simpl. apply insert_gate_written; [exact Hgate|].
    simpl. intros _. left. auto.
Qed.

(** ** The winning bid *)

Lemma item_bids_spec db item_pk k b :
  In (k, b) (item_bids db item_pk) <-> bids db !! k = Some b /\ Bid.item b = item_pk.
Proof.
  unfold item_bids. rewrite filter_In, objects_spec. simpl. rewrite Z.eqb_eq. tauto.
Qed.

(** Step 6 on its own: after it, the bids of the item have at most one
    winner; and if the item has a bid, there is a winner, it carries the
    highest amount among the item's bids, and the item's row, if any, shows
    that amount as its current price. *)
Lemma update_auction_state_winner item_pk item db :
  let db' := views.update_auction_state item_pk item db in
  (forall k1 k2 b1 b2,
      bids db' !! k1 = Some b1 -> bids db' !! k2 = Some b2 ->
      Bid.item b1 = item_pk -> Bid.item b2 = item_pk ->
      Bid.is_winning b1 = true -> Bid.is_winning b2 = true ->
      k1 = k2)
  /\ (has_bid db item_pk ->
      exists k b,
        bids db' !! k = Some b /\ Bid.item b = item_pk /\ Bid.is_winning b = true
        /\ (forall k' b', bids db' !! k' = Some b' -> Bid.item b' = item_pk ->
                          Bid.amount b' <= Bid.amount b)
        /\ (forall row, items db !! item_pk = Some row ->
            exists row', items db' !! item_pk = Some row'
                         /\ Item.current_price row' = Bid.amount b)).
Proof.
  unfold views.update_auction_state.
  set (reset := fun b : Bid.t =>
                  if Bid.item b =? item_pk then Bid.set_is_winning false b else b).
  set (db1 := set_bids (fmap reset) db).
  assert (forall k b, bids db1 !! k = Some b -> Bid.item b = item_pk ->
                      Bid.is_winning b = false) as Hreset.
  { intros k b Hk Hitem. simpl in Hk. rewrite lookup_fmap in Hk.
    destruct (bids db !! k) as [b0|]; simpl in Hk; [|discriminate].
    injection Hk as <-. unfold reset in *.
    destruct (Bid.item b0 =? item_pk) eqn:Heq; [reflexivity|].
    apply Z.eqb_neq in Heq. contradiction. }
  destruct (first (order_by_desc (fun r => Bid.amount (snd r)) (item_bids db1 item_pk)))
    as [[highest_pk highest]|] eqn:Hfirst.
  - apply (first_order_by_desc (fun r => Bid.amount (snd r))) in Hfirst
      as [Hin Hmax].
    apply item_bids_spec in Hin as [Hhighest Hitem].
    cbn zeta. split.
    + assert (forall k b, alter (Bid.set_is_winning true) highest_pk (bids db1) !! k
                          = Some b ->
                          Bid.item b = item_pk -> Bid.is_winning b = true ->
                          k = highest_pk) as Hone.
      { intros k b Hk Hb Hw.
        destruct (decide (k = highest_pk)) as [|Hne]; [assumption|].
        rewrite lookup_alter_ne in Hk by congruence.
        rewrite (Hreset k b Hk Hb) in Hw. discriminate. }
      intros k1 k2 b1 b2 Hk1 Hk2 Hb1 Hb2 Hw1 Hw2. simpl in Hk1, Hk2.
      rewrite (Hone k1 b1 Hk1 Hb1 Hw1), (Hone k2 b2 Hk2 Hb2 Hw2). reflexivity.
    + intros _. exists highest_pk, (Bid.set_is_winning true highest).
      split; [|split; [exact Hitem|split; [reflexivity|split]]].
      * simpl. rewrite lookup_alter_eq.
        simpl in Hhighest. rewrite Hhighest. reflexivity.
      * intros k' b' Hk' Hb'. simpl in Hk'.
        destruct (decide (k' = highest_pk)) as [->|Hne].
        -- rewrite lookup_alter_eq in Hk'. simpl in Hhighest.
           rewrite Hhighest in Hk'. injection Hk' as <-. simpl. lia.
        -- rewrite lookup_alter_ne in Hk' by congruence.
           apply (Hmax (k', b')). apply item_bids_spec. auto.
      * intros row Hrow. simpl. rewrite lookup_alter_eq, Hrow. simpl.
        eexists. split; reflexivity.
  - apply first_order_by_desc_None in Hfirst. cbn zeta. split.
    + intros k1 k2 b1 b2 Hk1 _ Hb1 _ Hw1 _. simpl in Hk1.
      rewrite (Hreset k1 b1 Hk1 Hb1) in Hw1. discriminate.
    + intros (k & b & Hk & Hb). exfalso.
      assert (In (k, reset b) (item_bids db1 item_pk)) as Hin.
      { apply item_bids_spec. split.
        - simpl. rewrite lookup_fmap, Hk. reflexivity.
        - unfold reset. destruct (Bid.item b =? item_pk); assumption. }
      rewrite Hfirst in Hin. destruct Hin.
Qed.

Lemma shown_not_admitted reasons sess logged :
  ~ admitted (views.mkReply (views.redirect_item_detail (views.shown reasons))
                            sess logged).
Proof.
  intros (amount & messages & Heq). simpl in Heq. injection Heq as Heq.
  destruct reasons as [|[level text] reasons]; simpl in Heq; [discriminate|].
  destruct level; discriminate.
Qed.

(** For a request that runs alone: after every admission through
    [place_bid] (the reply reports the bid as placed), at most one Bid row
    of the item has is_winning = true; there is such a row, its amount is
    the highest among the item's bids, and the item's current_price equals
    that amount. *)
Theorem admitted_bid_leaves_one_winner
    cfg now ai_response user method posted pk sess db :
  admitted (fst (views.place_bid cfg now ai_response user method posted pk sess db)) ->
  let db' := snd (views.place_bid cfg now ai_response user method posted pk sess db) in
  (forall k1 k2 b1 b2,
      bids db' !! k1 = Some b1 -> bids db' !! k2 = Some b2 ->
      Bid.item b1 = pk -> Bid.item b2 = pk ->
      Bid.is_winning b1 = true -> Bid.is_winning b2 = true ->
      k1 = k2)
  /\ exists k b row,
      bids db' !! k = Some b /\ Bid.item b = pk /\ Bid.is_winning b = true
      /\ (forall k' b', bids db' !! k' = Some b' -> Bid.item b' = pk ->
                        Bid.amount b' <= Bid.amount b)
      /\ items db' !! pk = Some row
      /\ Item.current_price row = Bid.amount b.
Proof.
  assert (forall text sess' logged,
             ~ admitted (views.mkReply
                           (views.redirect_item_detail [(views.error, text)])
                           sess' logged)) as Herror.
  { intros text sess' logged (amount & messages & Heq). simpl in Heq. discriminate. }
  unfold views.place_bid.
  destruct (items db !! pk) as [item|] eqn:Hitem;
    [|intros (? & ? & Heq); discriminate].
  destruct method; [intros (? & ? & Heq); discriminate|].
  destruct (Item.seller item =? User.id user);
    [intros Hadm; destruct (Herror _ _ _ Hadm)|].
  destruct (negb (Item.status_eqb (Item.status item) Item.active));
    [intros Hadm; destruct (Herror _ _ _ Hadm)|].
  destruct (Item.end_time item <=? now);
    [intros Hadm; destruct (Herror _ _ _ Hadm)|].
  destruct (PlaceBidForm.is_valid posted (Some item)) as [bid_amount|e];
    [|intros Hadm; destruct (Herror _ _ _ Hadm)].
  pose proof (check_rapid_frame cfg now user pk item bid_amount sess db) as Hframe1.
  destruct (views.check_rapid cfg now user pk item bid_amount sess db)
    as [[[reject1 reasons1] sess1] db1].
  destruct (views.check_account_age cfg now user bid_amount reject1 reasons1)
    as [reject2 reasons2].
  unfold Bid_save_new.
  set (bid := Bid.mk pk (User.id user) bid_amount now false "web").
  set (db2 := mkDB _ _ _ _ _ _ _ _ _ _).
  pose proof (check_fraud_frame cfg now ai_response user (bid_seq db1)
                bid item reject2 reasons2 db2) as Hframe4.
  destruct (views.check_fraud cfg now ai_response user (bid_seq db1) bid item
                              reject2 reasons2 db2)
    as [[[reject4 reasons4] logged] db4].
  simpl in Hframe1, Hframe4.
  destruct Hframe1 as (Hitems1 & _).
  destruct Hframe4 as (Hitems4 & Hbids4 & _).
  destruct reject4; [intros Hadm; destruct (shown_not_admitted _ _ _ Hadm)|].
  intros _. cbn zeta. simpl snd.
  destruct (update_auction_state_winner pk item db4) as [Hone Hwinner].
  split; [exact Hone|].
  destruct Hwinner as (k & b & Hk & Hb & Hw & Hmax & Hprice).
  { exists (bid_seq db1), bid. split; [|reflexivity].
    rewrite Hbids4. apply lookup_insert_eq. }
  destruct (Hprice item) as (row' & Hrow' & Hcurrent).
  { rewrite Hitems4. change (items db2) with (items db1).
    rewrite Hitems1. exact Hitem. }
  exists k, b, row'.
  split; [|split; [|split; [|split; [|split]]]]; assumption.
Qed.

Lemma admitted_bid_leaves_one_winner_witness :
  let db' := snd (views.place_bid Scenario.cfg Scenario.now None Scenario.alice
                                  views.POST (Some (UGX 510000)) 10
                                  Scenario.no_session Scenario.fresh) in
  (forall k1 k2 b1 b2,
      bids db' !! k1 = Some b1 -> bids db' !! k2 = Some b2 ->
      Bid.item b1 = 10 -> Bid.item b2 = 10 ->
      Bid.is_winning b1 = true -> Bid.is_winning b2 = true ->
      k1 = k2)
  /\ exists k b row,
      bids db' !! k = Some b /\ Bid.item b = 10 /\ Bid.is_winning b = true
      /\ (forall k' b', bids db' !! k' = Some b' -> Bid.item b' = 10 ->
                        Bid.amount b' <= Bid.amount b)
      /\ items db' !! 10 = Some row
      /\ Item.current_price row = Bid.amount b.
Proof.
  apply (admitted_bid_leaves_one_winner
           Scenario.cfg Scenario.now None Scenario.alice views.POST
           (Some (UGX 510000)) 10 Scenario.no_session Scenario.fresh).
  exists (UGX 510000), []. vm_compute. reflexivity.
Defined.

(** ** Self-bidding *)




(** ** The audit trail of fraud alerts *)

(** The orderings the pipeline asks for by a column of [Bid] resolve. *)
Example order_by_bid_time_resolves (qs : list (Z * Bid.t)) :
  Bid.order_by "-bid_time" qs = Ok (order_by_desc (fun r => Bid.bid_time (snd r)) qs)
  /\ Bid.order_by "bid_time" qs = Ok (order_by_asc (fun r => Bid.bid_time (snd r)) qs)
  /\ Bid.order_by "-amount" qs = Ok (order_by_desc (fun r => Bid.amount (snd r)) qs).
Proof. repeat split. Qed.

(** [Bid] has no column created_at (its timestamp is bid_time): the
    ordering of [detect_bid_pattern_anomaly] does not resolve. *)
Lemma detect_bid_pattern_anomaly_raises cfg db bid_pk bid bidder :
  FraudDetectionService.detect_bid_pattern_anomaly cfg db bid_pk bid bidder
  = Raise (FieldError "created_at").
Proof. reflexivity. Qed.

(** So [analyze_bid] leaves by that exception on every bid, before its
    saving loop. *)
Lemma analyze_bid_raises cfg now db bid_pk bid item bidder ai_response :
  FraudDetectionService.analyze_bid cfg now db bid_pk bid item bidder ai_response
  = Raise (FieldError "created_at").
Proof. reflexivity. Qed.

(** The saving loop and the rollback for themselves do what C8 says: the
    loop stores every alert it is given, unresolved as built, under a fresh
    key, and deleting the tentative bid leaves the alert table alone. *)
Lemma save_alerts_seq (fraud_alerts : list FraudAlert.t) db :
  alert_seq (foldl (fun d a => FraudAlert_save_new a d) db fraud_alerts)
  = alert_seq db + Z.of_nat (length fraud_alerts).
Proof.
  revert db. induction fraud_alerts as [|a l IH]; intros db; simpl; [lia|].
  rewrite IH. simpl. lia.
Qed.

Lemma save_alerts_older (fraud_alerts : list FraudAlert.t) db k :
  k < alert_seq db ->
  alerts (foldl (fun d a => FraudAlert_save_new a d) db fraud_alerts) !! k
  = alerts db !! k.
Proof.
  revert db. induction fraud_alerts as [|a l IH]; intros db Hk; simpl; [reflexivity|].
  rewrite IH by (simpl; lia). simpl. apply lookup_insert_ne. lia.
Qed.

Lemma save_alerts_persist (fraud_alerts : list FraudAlert.t) db i a :
  fraud_alerts !! i = Some a ->
  alerts (foldl (fun d a => FraudAlert_save_new a d) db fraud_alerts)
    !! (alert_seq db + Z.of_nat i)
  = Some a.
Proof.
  revert db i. induction fraud_alerts as [|a0 l IH]; intros db i Hi; [discriminate|].
  destruct i as [|i]; simpl in *.
  - injection Hi as ->. rewrite save_alerts_older by (simpl; lia).
    simpl. rewrite Z.add_0_r. apply lookup_insert_eq.
  - specialize (IH (FraudAlert_save_new a0 db) i Hi). simpl in IH.
    rewrite <- IH. f_equal. lia.
Qed.

Lemma Bid_delete_keeps_alerts bid_pk db : alerts (Bid_delete bid_pk db) = alerts db.
Proof. reflexivity. Qed.

(** C8 at a failing input: Bob bids 4,000,000 on item 10, whose four bids
    so far average 525,000. The detector for unusual amounts builds an
    alert for the saved bid, but [analyze_bid] leaves by the exception of
    [detect_bid_pattern_anomaly] before any alert is saved; [place_bid]
    logs the exception and admits the bid, and the alert table stays
    empty. *)
Lemma unusual_amount_alert_is_lost :
  let bid := Bid.mk 10 3 (UGX 4000000) Scenario.now false "web" in
  let saved := snd (Bid_save_new bid Scenario.bidding_war) in
  let outcome :=
    views.place_bid Scenario.cfg Scenario.now None Scenario.bob views.POST
                    (Some (UGX 4000000)) 10 Scenario.no_session Scenario.bidding_war in
  FraudDetectionService.detect_unusual_bid_amount Scenario.cfg saved 5 bid Scenario.bob
  = [FraudAlert.mk 3 (Some 10) FraudAlert.unusual_bid_amount FraudAlert.medium
                   5 false None]
  /\ FraudDetectionService.analyze_bid Scenario.cfg Scenario.now saved 5 bid
                                       Scenario.laptop Scenario.bob None
     = Raise (FieldError "created_at")
  /\ admitted (fst outcome)
  /\ views.logged (fst outcome) = [FieldError "created_at"]
  /\ alerts (snd outcome) = ∅.
Proof.
  intros bid saved outcome. split; [|split; [|split; [|split]]].
  - vm_compute. reflexivity.
  - reflexivity.
  - exists (UGX 4000000), []. vm_compute. reflexivity.
  - vm_compute. reflexivity.
  - vm_compute. reflexivity.
Qed.

(** ** Buy now *)

Lemma set_items_same db : set_items (fun _ => items db) db = db.
Proof. destruct db. reflexivity. Qed.

(** The conditional update for itself is the mutual exclusion C5 describes:
    on an active, unowned item it changes one row, to sold with the buyer
    as winner, and a second one finds nothing to change. *)
Lemma sell_if_available_once first_user second_user pk table row :
  table !! pk = Some row ->
  Item.status row = Item.active ->
  Item.winner row = None ->
  exists row',
    views.sell_if_available first_user pk table = (1, <[pk := row']> table)
    /\ Item.status row' = Item.sold
    /\ Item.winner row' = Some (User.id first_user)
    /\ views.sell_if_available second_user pk (<[pk := row']> table)
       = (0, <[pk := row']> table).
Proof.
  intros Hrow Hstatus Hwinner. unfold views.sell_if_available.
  rewrite Hrow, Hstatus, Hwinner. simpl.
  eexists. split; [reflexivity|]. split; [reflexivity|]. split; [reflexivity|].
  rewrite lookup_insert_eq. reflexivity.
Qed.

(** No keyword list of the purchase bookkeeping is accepted by the model:
    [WalletTransaction] has a field payment_reference, none called
    reference. *)
Lemma reference_is_unexpected :
  WalletTransaction.unexpected
    ["wallet"; "transaction_type"; "amount"; "description"; "reference"]%string
  = ["reference"%string].
Proof. reflexivity. Qed.

(** The atomic block of [buy_now] either finds the item taken and changes
    nothing, or raises on its first wallet transaction. *)
Lemma buy_now_block_outcome user pk item balance db :
  views.buy_now_block user pk item balance db
  = Ok ([(views.error, views.someone_else_purchased)], db)
  \/ views.buy_now_block user pk item balance db = Raise (TypeError ["reference"%string]).
Proof.
  unfold views.buy_now_block, views.sell_if_available.
  destruct (items db !! pk) as [row|].
  - destruct (Item.status_eqb (Item.status row) Item.active
              && option_Z_eqb (Item.winner row) None).
    + right. reflexivity.
    + left. simpl. now rewrite set_items_same.
  - left. simpl. now rewrite set_items_same.
Qed.

(** Hence no run of [buy_now] changes the database: no item is ever sold
    through it. *)
Lemma buy_now_changes_nothing now user pk db : snd (views.buy_now now user pk db) = db.
Proof.
  unfold views.buy_now.
  destruct (views.buy_now_prerequisites now user pk db) as [response|[item balance]];
    [reflexivity|].
  unfold views.buy_now_transaction, atomic.
  destruct (buy_now_block_outcome user pk item balance db) as [-> | ->]; reflexivity.
Qed.

(** C5 at a failing input: Alice and Bob, both with a funded wallet, race
    to buy item 10 (active, buy-now price set, no bids). Both requests
    pass their checks; each transaction updates the item's row and then
    raises TypeError on [WalletTransaction.objects.create(... reference=...)],
    which undoes the update. Both requests end as server errors, and item
    10 is still active with no winner; the same happens when the two
    requests run strictly one after the other. *)
Lemma buy_now_race_sells_to_nobody :
  buy_now_race Scenario.now Scenario.alice Scenario.bob 10 Scenario.fresh
  = Some (views.ServerError (TypeError ["reference"%string]),
          views.ServerError (TypeError ["reference"%string]),
          Scenario.fresh)
  /\ views.buy_now Scenario.now Scenario.alice 10 Scenario.fresh
     = (views.ServerError (TypeError ["reference"%string]), Scenario.fresh)
  /\ views.buy_now Scenario.now Scenario.bob 10 Scenario.fresh
     = (views.ServerError (TypeError ["reference"%string]), Scenario.fresh)
  /\ items Scenario.fresh !! 10 = Some Scenario.laptop
  /\ Item.status Scenario.laptop = Item.active
  /\ Item.winner Scenario.laptop = None.
Proof.
  split; [|split; [|split; [|split; [|split]]]]; vm_compute; reflexivity.
Qed.

(** C10: for an item that already has a Bid row, every run of [buy_now] is
    rejected with a single error message and the database unchanged; when
    the earlier checks pass (item active, not ended, buy-now price set,
    buyer not the seller) the message is "Buy Now is no longer available.
    Bidding has started."; and the checks never let such a request through
    to the transaction, the only place where [buy_now] writes. *)
Theorem buy_now_rejected_once_bidding_started now user pk db item :
  items db !! pk = Some item ->
  has_bid db pk ->
  (exists text,
      views.buy_now now user pk db
      = (views.redirect_item_detail [(views.error, text)], db))
  /\ (Item.status item = Item.active ->
      now < Item.end_time item ->
      (exists price, Item.buy_now_price item = Some price /\ price <> 0) ->
      Item.seller item <> User.id user ->
      views.buy_now now user pk db
      = (views.redirect_item_detail [(views.error, views.bidding_has_started)], db))
  /\ (forall loaded, views.buy_now_prerequisites now user pk db <> inr loaded).
Proof.
  intros Hitem (k & b & Hk & Hb).
  assert (exists_ (item_bids db pk) = true) as Hexists.
  { apply exists_spec. exists (k, b). apply item_bids_spec. auto. }
  unfold views.buy_now, views.buy_now_prerequisites. rewrite Hitem, Hexists.
  split; [|split].
  - destruct (negb (Item.status_eqb (Item.status item) Item.active)); [eauto|].
    destruct (Item.end_time item <=? now); [eauto|].
    destruct (Item.buy_now_price item) as [price|]; [|eauto].
    destruct (price =? 0); [eauto|].
    destruct (Item.seller item =? User.id user); eauto.
  - intros Hactive Hend (price & Hprice & Hnonzero) Hseller.
    rewrite Hactive, Hprice. simpl.
    replace (Item.end_time item <=? now) with false by lia.
    replace (price =? 0) with false by lia.
    replace (Item.seller item =? User.id user) with false by lia.
    reflexivity.
  - intros loaded.
    destruct (negb (Item.status_eqb (Item.status item) Item.active)); [discriminate|].
    destruct (Item.end_time item <=? now); [discriminate|].
    destruct (Item.buy_now_price item) as [price|]; [|discriminate].
    destruct (price =? 0); [discriminate|].
    destruct (Item.seller item =? User.id user); discriminate.
Qed.

Lemma buy_now_rejected_once_bidding_started_witness :
  (exists text,
      views.buy_now Scenario.now Scenario.bob 10 Scenario.bidding_war
      = (views.redirect_item_detail [(views.error, text)], Scenario.bidding_war))
  /\ (Item.status Scenario.laptop = Item.active ->
      Scenario.now < Item.end_time Scenario.laptop ->
      (exists price, Item.buy_now_price Scenario.laptop = Some price /\ price <> 0) ->
      Item.seller Scenario.laptop <> User.id Scenario.bob ->
      views.buy_now Scenario.now Scenario.bob 10 Scenario.bidding_war
      = (views.redirect_item_detail [(views.error, views.bidding_has_started)],
         Scenario.bidding_war))
  /\ (forall loaded,
         views.buy_now_prerequisites Scenario.now Scenario.bob 10 Scenario.bidding_war
         <> inr loaded).
Proof.
  apply (buy_now_rejected_once_bidding_started
           Scenario.now Scenario.bob 10 Scenario.bidding_war Scenario.laptop).
  - reflexivity.
  - exists 1, (Scenario.rapid_bid 1). split; reflexivity.
Defined.

(** In the scenario the earlier checks do pass, and the message is the one
    about bidding. *)
Example buy_now_after_bids_in_scenario :
  views.buy_now Scenario.now Scenario.bob 10 Scenario.bidding_war
  = (views.redirect_item_detail [(views.error, views.bidding_has_started)],
     Scenario.bidding_war).
Proof. vm_compute. reflexivity. Qed.

(** * Further properties of the pipeline *)

(** ** The cooldown store, continued *)

Lemma filter_nil_of_all_false {A} (P : A -> bool) (l : list A) :
  (forall x, In x l -> P x = false) -> List.filter P l = [].
Proof.
  induction l as [|x l IH]; intros Hall; simpl; [reflexivity|].
  rewrite (Hall x) by now left. apply IH. intros y Hy. apply Hall. now right.
Qed.

(** X1. [cleanup_expired] leaves no active row whose expiry has passed:
    such a row stays in the table under its key, with [is_active] set to
    false and every other column as it was. Every other row is kept as it
    is, no row is added or removed, the number it returns is zero when no
    active row had expired, and a second cleanup at the same time finds
    nothing to update. *)
Theorem cleanup_expired_settles now table :
  (forall k c,
      fst (BidCooldown.cleanup_expired now table) !! k = Some c ->
      BidCooldown.is_active c = true -> now < BidCooldown.expires_at c)
  /\ (forall k c,
         table !! k = Some c ->
         BidCooldown.is_active c = true -> BidCooldown.expires_at c <= now ->
         fst (BidCooldown.cleanup_expired now table) !! k
         = Some (BidCooldown.mk (BidCooldown.user c) (BidCooldown.item c)
                                (BidCooldown.cooldown_type c) (BidCooldown.reason c)
                                (BidCooldown.expires_at c) (BidCooldown.created_at c)
                                false (BidCooldown.captcha_required c)
                                (BidCooldown.captcha_passed c)
                                (BidCooldown.failed_attempts c)))
  /\ (forall k c,
         table !! k = Some c ->
         BidCooldown.is_active c = false \/ now < BidCooldown.expires_at c ->
         fst (BidCooldown.cleanup_expired now table) !! k = Some c)
  /\ (forall k, table !! k = None ->
                fst (BidCooldown.cleanup_expired now table) !! k = None)
  /\ ((forall k c, table !! k = Some c ->
                   BidCooldown.is_active c = false \/ now < BidCooldown.expires_at c) ->
      BidCooldown.cleanup_expired now table = (table, 0))
  /\ BidCooldown.cleanup_expired now (fst (BidCooldown.cleanup_expired now table))
     = (fst (BidCooldown.cleanup_expired now table), 0).
Proof.
  assert (forall t : gmap Z BidCooldown.t,
             (forall k c, t !! k = Some c ->
                          BidCooldown.is_active c
                          && (BidCooldown.expires_at c <=? now) = false) ->
             BidCooldown.cleanup_expired now t = (t, 0)) as Hidle.
  { intros t Hnone. unfold BidCooldown.cleanup_expired. f_equal.
    - apply map_eq. intros k. rewrite lookup_fmap.
      destruct (t !! k) as [c|] eqn:Hk; simpl; [|reflexivity].
      now rewrite (Hnone k c Hk).
    - rewrite filter_nil_of_all_false; [reflexivity|].
      intros [k c] Hin. apply objects_spec in Hin. simpl. exact (Hnone k c Hin). }
  assert (forall k c,
             fst (BidCooldown.cleanup_expired now table) !! k = Some c ->
             BidCooldown.is_active c = true -> now < BidCooldown.expires_at c)
    as Hpost.
  { intros k c Hk Hactive. rewrite cleanup_expired_lookup in Hk.
    destruct (table !! k) as [c0|]; simpl in Hk; [|discriminate].
    injection Hk as Hk.
    destruct (BidCooldown.is_active c0 && (BidCooldown.expires_at c0 <=? now)) eqn:Hx.
    - subst c. simpl in Hactive. discriminate.
    - subst c. rewrite Hactive in Hx. simpl in Hx. lia. }
  split; [exact Hpost|]. split; [|split; [|split; [|split]]].
  - intros k c Hk Hactive Hexpired. rewrite cleanup_expired_lookup, Hk. simpl.
    rewrite Hactive. replace (BidCooldown.expires_at c <=? now) with true by lia.
    reflexivity.
  - intros k c Hk Hkeep. rewrite cleanup_expired_lookup, Hk. simpl.
    destruct Hkeep as [Hinactive|Hfuture].
    + now rewrite Hinactive.
    + replace (BidCooldown.expires_at c <=? now) with false by lia.
      now rewrite andb_false_r.
  - intros k Hk. now rewrite cleanup_expired_lookup, Hk.
  - intros Hkeep. apply Hidle. intros k c Hk.
    destruct (Hkeep k c Hk) as [Hinactive|Hfuture].
    + now rewrite Hinactive.
    + replace (BidCooldown.expires_at c <=? now) with false by lia.
      apply andb_false_r.
  - apply Hidle. intros k c Hk.
    destruct (BidCooldown.is_active c) eqn:Hactive; [|reflexivity].
    pose proof (Hpost k c Hk Hactive). simpl. lia.
Qed.

(** X2. [has_active_cooldown] answers true exactly when the table holds
    a row of the user that is active, unexpired and scoped to the item or
    global. *)
Theorem has_active_cooldown_iff now table u it :
  BidCooldown.has_active_cooldown now table u it = true
  <-> exists k c, table !! k = Some c /\ in_force now u it c.
Proof.
  unfold BidCooldown.has_active_cooldown.
  pose proof (get_active_cooldown_sound now table u it) as Hsound.
  pose proof (get_active_cooldown_complete now table u it) as Hcomplete.
  destruct (fst (BidCooldown.get_active_cooldown now table u it)) as [[k c]|].
  - split; [intros _|reflexivity]. exists k, c. now apply Hsound.
  - split; [discriminate|]. intros (k & c & Hk & Hforce).
    destruct (Hcomplete k c eq_refl Hk Hforce).
Qed.

(** ** The rapid-bidding gate, continued *)

Lemma BidCooldown_create_adds_one c db :
  adds_at_most_one_cooldown db (BidCooldown_create c db).
Proof. right. exists c. split; reflexivity. Qed.

Lemma _create_soft_challenge_adds_at_most_one cfg now u it reason db :
  adds_at_most_one_cooldown
    db (snd (RapidBiddingDetector._create_soft_challenge cfg now u it reason db)).
Proof.
  unfold RapidBiddingDetector._create_soft_challenge.
  repeat case_match; simpl snd;
    try apply BidCooldown_create_adds_one; left; split; reflexivity.
Qed.

Lemma check_thresholds_adds_at_most_one cfg now db u item_pk item bid_amount :
  adds_at_most_one_cooldown
    db (snd (RapidBiddingDetector.check_thresholds cfg now db u item_pk item bid_amount)).
Proof.
  unfold RapidBiddingDetector.check_thresholds.
  repeat case_match; simpl snd;
    try apply BidCooldown_create_adds_one;
    try (left; split; reflexivity);
    match goal with
    | H : RapidBiddingDetector._create_soft_challenge ?c ?n ?u' ?i ?r ?d = (_, ?d') |- _ =>
        pose proof (_create_soft_challenge_adds_at_most_one c n u' i r d) as Hf;
        rewrite H in Hf; exact Hf
    end.
Qed.

(** X3. [check_rapid_bidding] writes to the cooldown table only: bids,
    items, alerts and wallets are as before; of the cooldown rows below
    the sequence none is removed, and none changed except that an expired
    active row is deactivated; at most one row is added. *)
Theorem check_rapid_bidding_writes_only_cooldowns cfg now db u item_pk item bid_amount :
  only_cooldowns_differ
    db (snd (RapidBiddingDetector.check_rapid_bidding cfg now db u item_pk item
                                                     bid_amount))
  /\ (forall k c,
         k < cooldown_seq db -> cooldowns db !! k = Some c ->
         cooldowns (snd (RapidBiddingDetector.check_rapid_bidding
                           cfg now db u item_pk item bid_amount)) !! k
         = Some (if BidCooldown.is_active c && (BidCooldown.expires_at c <=? now)
                 then BidCooldown.set_is_active false c else c))
  /\ cooldown_seq db
     <= cooldown_seq (snd (RapidBiddingDetector.check_rapid_bidding
                             cfg now db u item_pk item bid_amount))
     <= cooldown_seq db + 1.
Proof.
  split; [apply check_rapid_bidding_frame|].
  unfold RapidBiddingDetector.check_rapid_bidding.
  destruct (BidCooldown.get_active_cooldown now (cooldowns db) u (Some item_pk))
    as [existing table] eqn:Hget.
  assert (table = fst (BidCooldown.cleanup_expired now (cooldowns db))) as ->.
  { rewrite <- get_active_cooldown_snd with (u := u) (it := Some item_pk).
    now rewrite Hget. }
  set (db1 := set_cooldowns _ db).
  assert (forall k c, cooldowns db !! k = Some c ->
                      cooldowns db1 !! k
                      = Some (if BidCooldown.is_active c
                                 && (BidCooldown.expires_at c <=? now)
                              then BidCooldown.set_is_active false c else c)) as Hclean.
  { intros k c Hk.
    change (cooldowns db1) with (fst (BidCooldown.cleanup_expired now (cooldowns db))).
    now rewrite cleanup_expired_lookup, Hk. }
  destruct (RapidBiddingDetector.existing_cooldown_verdict now existing); simpl snd.
  - split; [auto|]. simpl. lia.
  - destruct (check_thresholds_adds_at_most_one cfg now db1 u item_pk item bid_amount)
      as [[Hsame Hseq]|(c' & Hadd & Hseq)]; rewrite Hseq.
    + split; [|simpl; lia]. intros k c _ Hk. rewrite Hsame. auto.
    + split; [|simpl; lia]. intros k c Hlt Hk. rewrite Hadd.
      rewrite lookup_insert_ne by (simpl; lia). auto.
Qed.

(** X4. [check_rapid_bidding] answers allowed exactly with the action
    'allow'; when it does, the message is "Bid allowed", there is no
    duration, and the cooldown table is the cleaned one: no row was
    written. *)
Theorem allowed_bid_writes_no_cooldown cfg now db u item_pk item bid_amount :
  let verdict :=
    fst (RapidBiddingDetector.check_rapid_bidding cfg now db u item_pk item bid_amount) in
  let db' :=
    snd (RapidBiddingDetector.check_rapid_bidding cfg now db u item_pk item bid_amount) in
  (fst (fst (fst verdict)) = true <-> snd (fst (fst verdict)) = RapidBiddingDetector.allow)
  /\ (fst (fst (fst verdict)) = true ->
      verdict = (true, RapidBiddingDetector.allow, RapidBiddingDetector.bid_allowed, None)
      /\ cooldowns db' = fst (BidCooldown.cleanup_expired now (cooldowns db))
      /\ cooldown_seq db' = cooldown_seq db).
Proof.
  cbn zeta.
  unfold RapidBiddingDetector.check_rapid_bidding.
  destruct (BidCooldown.get_active_cooldown now (cooldowns db) u (Some item_pk))
    as [existing table] eqn:Hget.
  assert (table = fst (BidCooldown.cleanup_expired now (cooldowns db))) as ->.
  { rewrite <- get_active_cooldown_snd with (u := u) (it := Some item_pk).
    now rewrite Hget. }
  destruct (RapidBiddingDetector.existing_cooldown_verdict now existing)
    as [verdict|] eqn:Hverdict.
  - unfold RapidBiddingDetector.existing_cooldown_verdict in Hverdict.
    destruct existing as [[k c]|]; [|discriminate].
    destruct (BidCooldown.cooldown_type c), (BidCooldown.captcha_passed c);
      simpl in Hverdict; try discriminate;
      injection Hverdict as <-; simpl; repeat split; discriminate.
  - unfold RapidBiddingDetector.check_thresholds.
    repeat case_match; simpl;
      repeat split; try discriminate; try reflexivity; intros; congruence.
Qed.

(** X5. The edges of [_check_window], for every threshold. Without a
    window it answers (False, 0). A window of zero minutes counts as no
    window, so the seconds decide; zero seconds likewise. Where minutes
    are given (and not zero) the seconds are not looked at. With a window
    the count includes the pending bid, so it is the number of bids in the
    window plus one, it is at least one, and the check fires exactly when
    the threshold is no higher than the count: a threshold of one or less
    is breached by every bid, the first one of the user included. A bid
    placed exactly at the start of the window counts. *)
Theorem _check_window_edges now qs minutes seconds threshold :
  RapidBiddingDetector._check_window now qs None None threshold = (false, 0)
  /\ RapidBiddingDetector._check_window now qs (Some 0) seconds threshold
     = RapidBiddingDetector._check_window now qs None seconds threshold
  /\ RapidBiddingDetector._check_window now qs None (Some 0) threshold = (false, 0)
  /\ (minutes <> 0 ->
      let n :=
        count (List.filter (fun r => now - timedelta_minutes minutes
                                     <=? Bid.bid_time (snd r)) qs) in
      RapidBiddingDetector._check_window now qs (Some minutes) seconds threshold
      = (threshold <=? n + 1, n + 1)
      /\ 1 <= n + 1
      /\ (threshold <= 1 ->
          fst (RapidBiddingDetector._check_window
                 now qs (Some minutes) seconds threshold) = true)
      /\ forall k b,
           In (k, b) qs -> Bid.bid_time b = now - timedelta_minutes minutes ->
           2 <= n + 1).
Proof.
  unfold RapidBiddingDetector._check_window, RapidBiddingDetector.given.
  split; [reflexivity|]. split; [reflexivity|]. split; [reflexivity|].
  intros Hm. replace (minutes =? 0) with false by lia. cbn [negb default from_option id].
  cbv zeta.
  set (inside := fun r : Z * Bid.t =>
                   now - timedelta_minutes minutes <=? Bid.bid_time (snd r)).
  assert (0 <= count (List.filter inside qs)) as Hn by (unfold count; lia).
  split; [reflexivity|]. split; [lia|]. split.
  - intros Hth. cbn [fst]. apply Z.leb_le. lia.
  - intros k b Hin Htime.
    assert (In (k, b) (List.filter inside qs)) as Hfiltered.
    { apply filter_In. split; [exact Hin|]. unfold inside. simpl. lia. }
    unfold count. destruct (List.filter inside qs); [destruct Hfiltered|].
    simpl length. lia.
Qed.

Lemma _check_window_edges_witness :
  let qs := [(1, Scenario.rapid_bid 1); (2, Scenario.rapid_bid 2)] in
  let n :=
    count (List.filter (fun r => Scenario.now - timedelta_minutes 2
                                 <=? Bid.bid_time (snd r)) qs) in
  RapidBiddingDetector._check_window Scenario.now qs (Some 2) (Some 20) 3
  = (3 <=? n + 1, n + 1)
  /\ 1 <= n + 1
  /\ (3 <= 1 ->
      fst (RapidBiddingDetector._check_window Scenario.now qs (Some 2) (Some 20) 3)
      = true)
  /\ forall k b,
       In (k, b) qs -> Bid.bid_time b = Scenario.now - timedelta_minutes 2 ->
       2 <= n + 1.
Proof.
  apply (_check_window_edges
           Scenario.now [(1, Scenario.rapid_bid 1); (2, Scenario.rapid_bid 2)]
           2 (Some 20) 3).
  discriminate.
Defined.

(** X6. [_create_soft_challenge] does not stack challenges: while the
    user has an active soft challenge in the scope (and fewer than two
    from the last hour), it writes nothing and reports no escalation. *)
Theorem _create_soft_challenge_keeps_the_open_one cfg now u it reason db k c :
  recent_soft_challenges now db u it < 2 ->
  cooldowns db !! k = Some c ->
  BidCooldown.user c = u ->
  BidCooldown.item c = it ->
  BidCooldown.cooldown_type c = BidCooldown.soft_challenge ->
  BidCooldown.is_active c = true ->
  RapidBiddingDetector._create_soft_challenge cfg now u it reason db = (false, db).
Proof.
  intros Hrecent Hk Hu Hit Hty Hactive.
  unfold RapidBiddingDetector._create_soft_challenge.
  fold (recent_soft_challenges now db u it).
  replace (2 <=? recent_soft_challenges now db u it) with false by lia.
  destruct (first _) as [existing|] eqn:Hfirst; [reflexivity|].
  apply first_order_by_desc_None in Hfirst.
  assert (In (k, c) (List.filter (fun r => BidCooldown.is_active (snd r))
                                 (RapidBiddingDetector.soft_challenges db u it))) as Hin.
  { apply filter_In. split; [|exact Hactive]. apply soft_challenges_spec. auto. }
  rewrite Hfirst in Hin. destruct Hin.
Qed.

Lemma _create_soft_challenge_keeps_the_open_one_witness :
  let db :=
    set_cooldowns
      (fun _ => {[ 1 := Scenario.cooldown 2 (Some 10) BidCooldown.soft_challenge
                                 (Scenario.now - timedelta_minutes 1)
                                 (Scenario.now + timedelta_minutes 9) ]})
      Scenario.fresh in
  RapidBiddingDetector._create_soft_challenge
    Scenario.cfg Scenario.now 2 (Some 10)
    BidCooldown.Suspicious_minimal_increment_pattern db
  = (false, db).
Proof.
  intros db.
  apply (_create_soft_challenge_keeps_the_open_one
           Scenario.cfg Scenario.now 2 (Some 10)
           BidCooldown.Suspicious_minimal_increment_pattern db 1
           (Scenario.cooldown 2 (Some 10) BidCooldown.soft_challenge
              (Scenario.now - timedelta_minutes 1)
              (Scenario.now + timedelta_minutes 9)));
    try reflexivity.
Defined.

(** X7. [pass_captcha_challenge] touches one row at most: when it
    answers True, that row was an active soft challenge of exactly the
    given user and scope with its CAPTCHA required, and it is now inactive
    and marked as passed; when it answers False there was no such row and
    nothing changed. Called for an item, it never clears a global
    challenge. *)
Theorem pass_captcha_challenge_clears_one u it db :
  let passed := fst (RapidBiddingDetector.pass_captcha_challenge u it db) in
  let db' := snd (RapidBiddingDetector.pass_captcha_challenge u it db) in
  only_cooldowns_differ db db'
  /\ cooldown_seq db' = cooldown_seq db
  /\ (passed = true ->
      exists k c,
        cooldowns db !! k = Some c
        /\ BidCooldown.user c = u /\ BidCooldown.item c = it
        /\ BidCooldown.cooldown_type c = BidCooldown.soft_challenge
        /\ BidCooldown.is_active c = true /\ BidCooldown.captcha_required c = true
        /\ cooldowns db'
           = <[k := BidCooldown.set_is_active
                      false (BidCooldown.set_captcha_passed true c)]> (cooldowns db))
  /\ (passed = false ->
      db' = db
      /\ forall k c,
          cooldowns db !! k = Some c ->
          ~ (BidCooldown.user c = u /\ BidCooldown.item c = it
             /\ BidCooldown.cooldown_type c = BidCooldown.soft_challenge
             /\ BidCooldown.is_active c = true
             /\ BidCooldown.captcha_required c = true)).
Proof.
  cbn zeta. unfold RapidBiddingDetector.pass_captcha_challenge.
  destruct (first _) as [[k c]|] eqn:Hfirst; cbn [fst snd].
  - split; [apply set_cooldowns_frame|]. split; [reflexivity|].
    split; [|discriminate]. intros _.
    apply (first_order_by_desc (fun r => BidCooldown.created_at (snd r))) in Hfirst
      as [Hin _].
    apply filter_In in Hin as [Hin Hflags].
    apply soft_challenges_spec in Hin as (Hk & Hu & Hit & Hty).
    simpl in Hflags. apply andb_true_iff in Hflags as [Hactive Hrequired].
    exists k, c. repeat split; assumption.
  - split; [apply only_cooldowns_differ_refl|]. split; [reflexivity|].
    split; [discriminate|]. intros _. split; [reflexivity|].
    intros k c Hk (Hu & Hit & Hty & Hactive & Hrequired).
    apply first_order_by_desc_None in Hfirst.
    assert (In (k, c)
               (List.filter (fun r => BidCooldown.is_active (snd r)
                                      && BidCooldown.captcha_required (snd r))
                            (RapidBiddingDetector.soft_challenges db u it))) as Hin.
    { apply filter_In. split; [apply soft_challenges_spec; auto|].
      simpl. now rewrite Hactive, Hrequired. }
    rewrite Hfirst in Hin. destruct Hin.
Qed.

(** X8. [fail_captcha_challenge] without an active soft challenge of the
    scope changes nothing; otherwise it counts the failure on one such
    row, and when that makes three it deactivates the row and adds a hard
    cooldown of three times the configured duration for the same scope;
    below three the row stays active. *)
Theorem fail_captcha_challenge_counts_to_three cfg now u it db :
  let db' := RapidBiddingDetector.fail_captcha_challenge cfg now u it db in
  only_cooldowns_differ db db'
  /\ ((db' = db
       /\ forall k c,
           cooldowns db !! k = Some c ->
           ~ (BidCooldown.user c = u /\ BidCooldown.item c = it
              /\ BidCooldown.cooldown_type c = BidCooldown.soft_challenge
              /\ BidCooldown.is_active c = true))
      \/ exists k c,
          cooldowns db !! k = Some c
          /\ BidCooldown.user c = u /\ BidCooldown.item c = it
          /\ BidCooldown.cooldown_type c = BidCooldown.soft_challenge
          /\ BidCooldown.is_active c = true
          /\ let counted :=
               BidCooldown.set_failed_attempts (BidCooldown.failed_attempts c + 1) c in
             if 3 <=? BidCooldown.failed_attempts c + 1 then
               cooldowns db'
               = <[cooldown_seq db :=
                     BidCooldown.mk u it BidCooldown.hard_cooldown
                       BidCooldown.Failed_CAPTCHA_challenge_3_times
                       (now + timedelta_seconds
                                (Settings.RAPID_BID_COOLDOWN_DURATION cfg * 3))
                       now true false false 0]>
                   (<[k := BidCooldown.set_is_active false counted]> (cooldowns db))
             else cooldowns db' = <[k := counted]> (cooldowns db)).
Proof.
  cbn zeta. unfold RapidBiddingDetector.fail_captcha_challenge.
  destruct (first _) as [[k c]|] eqn:Hfirst.
  - apply (first_order_by_desc (fun r => BidCooldown.created_at (snd r))) in Hfirst
      as [Hin _].
    apply filter_In in Hin as [Hin Hactive].
    apply soft_challenges_spec in Hin as (Hk & Hu & Hit & Hty).
    simpl in Hactive. cbn [BidCooldown.failed_attempts BidCooldown.set_failed_attempts].
    split.
    + destruct (3 <=? BidCooldown.failed_attempts c + 1).
      * eapply only_cooldowns_differ_trans;
          [apply set_cooldowns_frame | apply _create_hard_cooldown_frame].
      * apply set_cooldowns_frame.
    + right. exists k, c. repeat (split; [assumption|]).
      destruct (3 <=? BidCooldown.failed_attempts c + 1); reflexivity.
  - split; [apply only_cooldowns_differ_refl|]. left. split; [reflexivity|].
    intros k c Hk (Hu & Hit & Hty & Hactive).
    apply first_order_by_desc_None in Hfirst.
    assert (In (k, c) (List.filter (fun r => BidCooldown.is_active (snd r))
                                   (RapidBiddingDetector.soft_challenges db u it)))
      as Hin.
    { apply filter_In. split; [apply soft_challenges_spec; auto|exact Hactive]. }
    rewrite Hfirst in Hin. destruct Hin.
Qed.

Lemma timedelta_seconds_pos s : 0 < s -> 0 < timedelta_seconds s.
Proof. unfold timedelta_seconds, microseconds_per_second. lia. Qed.

Lemma cleanup_expired_active_unexpired now table k c :
  fst (BidCooldown.cleanup_expired now table) !! k = Some c ->
  BidCooldown.is_active c = true -> now < BidCooldown.expires_at c.
Proof.
  intros Hk Hactive. rewrite cleanup_expired_lookup in Hk.
  destruct (table !! k) as [c0|]; simpl in Hk; [|discriminate].
  injection Hk as Hk.
  destruct (BidCooldown.is_active c0 && (BidCooldown.expires_at c0 <=? now)) eqn:Hx.
  - subst c. simpl in Hactive. discriminate.
  - subst c. rewrite Hactive in Hx. simpl in Hx. lia.
Qed.

Lemma _create_hard_cooldown_holds_row now u it duration reason db :
  0 < duration ->
  holds_row now u it (RapidBiddingDetector._create_hard_cooldown
                        now u it duration reason db).
Proof.
  intros Hd. eexists _, _. split; [apply lookup_insert_eq|]. simpl.
  pose proof (timedelta_seconds_pos duration Hd). repeat split; lia.
Qed.

Lemma _create_soft_challenge_holds_row cfg now u it reason db :
  (forall k c, cooldowns db !! k = Some c -> BidCooldown.is_active c = true ->
               now < BidCooldown.expires_at c) ->
  0 < Settings.RAPID_BID_COOLDOWN_DURATION cfg ->
  holds_row now u it
    (snd (RapidBiddingDetector._create_soft_challenge cfg now u it reason db)).
Proof.
  intros Hclean Hd. unfold RapidBiddingDetector._create_soft_challenge.
  destruct (2 <=? _); [apply _create_hard_cooldown_holds_row; lia|].
  destruct (first _) as [[k c]|] eqn:Hfirst; simpl snd.
  - apply (first_order_by_desc (fun r => BidCooldown.created_at (snd r))) in Hfirst
      as [Hin _].
    apply filter_In in Hin as [Hin Hactive]. simpl in Hactive.
    apply soft_challenges_spec in Hin as (Hk & Hu & Hit & _).
    exists k, c. repeat split; eauto.
  - eexists _, _. split; [apply lookup_insert_eq|]. simpl.
    pose proof (timedelta_seconds_pos (10 * 60) eq_refl).
    unfold timedelta_minutes. repeat split; lia.
Qed.

Lemma holds_row_in_force now u item_pk it db :
  it = Some item_pk \/ it = None ->
  holds_row now u it db ->
  exists k c, cooldowns db !! k = Some c /\ in_force now u (Some item_pk) c.
Proof.
  intros Hscope (k & c & Hk & Hu & Hactive & Hexpires & Hit).
  exists k, c. split; [exact Hk|]. unfold in_force.
  repeat split; try assumption. destruct Hscope; subst it; auto.
Qed.

(** X9. [check_rapid_bidding] never refuses without a record: after a
    refusal the user has a cooldown in force for the item (the one that
    blocked, or the one the check just wrote), provided the configured
    cooldown duration is positive. With only gate-written rows active,
    asking again at once is refused again. *)
Theorem refusal_leaves_cooldown_in_force cfg now db u item_pk item bid_amount :
  0 < Settings.RAPID_BID_COOLDOWN_DURATION cfg ->
  fst (fst (fst (fst (RapidBiddingDetector.check_rapid_bidding
                        cfg now db u item_pk item bid_amount)))) = false ->
  let db' :=
    snd (RapidBiddingDetector.check_rapid_bidding cfg now db u item_pk item bid_amount) in
  (exists k c, cooldowns db' !! k = Some c /\ in_force now u (Some item_pk) c)
  /\ (gate_written (cooldowns db) ->
      forall bid_amount',
        fst (fst (fst (fst (RapidBiddingDetector.check_rapid_bidding
                              cfg now db' u item_pk item bid_amount')))) = false).
Proof.
  intros Hd Hrefused db'.
  assert (exists k c, cooldowns db' !! k = Some c /\ in_force now u (Some item_pk) c)
    as Hforce.
  { subst db'. revert Hrefused.
    unfold RapidBiddingDetector.check_rapid_bidding.
    pose proof (get_active_cooldown_sound now (cooldowns db) u (Some item_pk))
      as Hsound.
    destruct (BidCooldown.get_active_cooldown now (cooldowns db) u (Some item_pk))
      as [existing table] eqn:Hget.
    assert (table = fst (BidCooldown.cleanup_expired now (cooldowns db))) as ->.
    { rewrite <- get_active_cooldown_snd with (u := u) (it := Some item_pk).
      now rewrite Hget. }
    simpl fst in Hsound.
    destruct (RapidBiddingDetector.existing_cooldown_verdict now existing)
      as [verdict|] eqn:Hverdict.
    - intros _. simpl snd.
      destruct existing as [[k c]|]; [|discriminate].
      destruct (Hsound k c eq_refl) as [Hk Hforce].
      exists k, c. split; [|exact Hforce].
      apply (proj2 (cleanup_expired_in_force now (cooldowns db) u (Some item_pk) k c)).
      auto.
    - set (db1 := set_cooldowns _ db).
      assert (forall k c, cooldowns db1 !! k = Some c ->
                          BidCooldown.is_active c = true ->
                          now < BidCooldown.expires_at c) as Hclean.
      { intros k c. apply cleanup_expired_active_unexpired. }
      clearbody db1.
      unfold RapidBiddingDetector.check_thresholds.
      repeat case_match; cbn [fst snd]; intros Hrefused; try discriminate;
        try (apply (holds_row_in_force now u item_pk (Some item_pk)); [now left|];
             apply _create_hard_cooldown_holds_row; lia);
        try (apply (holds_row_in_force now u item_pk None); [now right|];
             apply _create_hard_cooldown_holds_row; lia);
        match goal with
        | H : RapidBiddingDetector._create_soft_challenge ?c ?n ?u' ?i ?r ?d = (_, ?d')
          |- _ =>
            pose proof (_create_soft_challenge_holds_row c n u' i r d Hclean Hd) as Hf;
            rewrite H in Hf; simpl in Hf;
            apply (holds_row_in_force now u item_pk i); [auto|exact Hf]
        end. }
  split; [exact Hforce|].
  intros Hgate bid_amount'.
  destruct Hforce as (k & c & Hk & Hforce).
  assert (gate_written (cooldowns db')) as Hgate'
    by now apply check_rapid_bidding_gate_written.
  unfold RapidBiddingDetector.check_rapid_bidding.
  destruct (existing_cooldown_blocks now (cooldowns db') u (Some item_pk) k c
              Hgate' Hk Hforce) as (action & message & duration & Hverdict).
  destruct (BidCooldown.get_active_cooldown now (cooldowns db') u (Some item_pk))
    as [existing table].
  simpl in Hverdict. rewrite Hverdict. reflexivity.
Qed.

Lemma refusal_leaves_cooldown_in_force_witness :
  let db' :=
    snd (RapidBiddingDetector.check_rapid_bidding
           Scenario.cfg Scenario.now (Scenario.endgame 9) 2 10 Scenario.closing_laptop
           (UGX 600000)) in
  (exists k c, cooldowns db' !! k = Some c /\ in_force Scenario.now 2 (Some 10) c)
  /\ (gate_written (cooldowns (Scenario.endgame 9)) ->
      forall bid_amount',
        fst (fst (fst (fst (RapidBiddingDetector.check_rapid_bidding
                              Scenario.cfg Scenario.now db' 2 10 Scenario.closing_laptop
                              bid_amount')))) = false).
Proof.
  apply (refusal_leaves_cooldown_in_force
           Scenario.cfg Scenario.now (Scenario.endgame 9) 2 10 Scenario.closing_laptop
           (UGX 600000)).
  - reflexivity.
  - vm_compute. reflexivity.
Defined.

(** ** What a request to [place_bid] leaves behind *)

Lemma status_eqb_eq a b : Item.status_eqb a b = true <-> a = b.
Proof. destruct a, b; simpl; split; congruence. Qed.

(** Step 6 in detail, for an item that has a bid under key [k]: the item's
    row gets a price no lower than that bid's amount and one more on
    [bid_count]; the bid row stays but for its winning flag; nothing but
    the two tables is written. *)
Lemma update_auction_state_effect item_pk item db k b :
  bids db !! k = Some b -> Bid.item b = item_pk ->
  let db' := views.update_auction_state item_pk item db in
  (exists price,
      Bid.amount b <= price
      /\ items db'
         = alter (fun row =>
                    Item.mk (Item.seller row) price (Item.min_increment row)
                            (Item.buy_now_price row) (Item.end_time row)
                            (Item.status row) (Item.bid_count item + 1)
                            (Item.created_at row) (Item.winner row))
                 item_pk (items db))
  /\ (exists w, bids db' !! k = Some (Bid.set_is_winning w b))
  /\ bid_seq db' = bid_seq db.
Proof.
  intros Hk Hb. unfold views.update_auction_state.
  set (reset := fun b : Bid.t =>
                  if Bid.item b =? item_pk then Bid.set_is_winning false b else b).
  set (db1 := set_bids (fmap reset) db).
  assert (reset b = Bid.set_is_winning false b) as Hreset.
  { unfold reset. now rewrite Hb, Z.eqb_refl. }
  assert (bids db1 !! k = Some (Bid.set_is_winning false b)) as Hk1.
  { simpl. now rewrite lookup_fmap, Hk, <- Hreset. }
  destruct (first (order_by_desc (fun r => Bid.amount (snd r)) (item_bids db1 item_pk)))
    as [[highest_pk highest]|] eqn:Hfirst.
  - apply (first_order_by_desc (fun r => Bid.amount (snd r))) in Hfirst
      as [Hin Hmax].
    apply item_bids_spec in Hin as [Hhighest _].
    cbn zeta. split; [|split].
    + exists (Bid.amount highest). split; [|reflexivity].
      apply (Hmax (k, Bid.set_is_winning false b)).
      apply item_bids_spec. split; [exact Hk1|exact Hb].
    + simpl. destruct (decide (k = highest_pk)) as [->|Hne].
      * exists true. rewrite lookup_alter_eq. simpl in Hk1. now rewrite Hk1.
      * exists false. rewrite lookup_alter_ne by congruence. exact Hk1.
    + reflexivity.
  - apply first_order_by_desc_None in Hfirst. exfalso.
    assert (In (k, Bid.set_is_winning false b) (item_bids db1 item_pk)) as Hin.
    { apply item_bids_spec. split; [exact Hk1|exact Hb]. }
    rewrite Hfirst in Hin. destruct Hin.
Qed.

(** X10. A request to [place_bid] that is not admitted leaves no bid: the
    view saves the bid before the fraud detection and deletes it again, so
    the bid and item tables, the wallets and the ledgers are as before
    (for a database whose next bid key is unused); only the bid sequence,
    the cooldowns and the alerts may differ. *)
Theorem rejected_bid_leaves_no_row
    cfg now ai_response user method posted pk sess db :
  bids db !! bid_seq db = None ->
  ~ admitted (fst (views.place_bid cfg now ai_response user method posted pk sess db)) ->
  let db' := snd (views.place_bid cfg now ai_response user method posted pk sess db) in
  bids db' = bids db /\ items db' = items db /\ wallets db' = wallets db
  /\ wallet_transactions db' = wallet_transactions db
  /\ transaction_log db' = transaction_log db
  /\ bid_seq db <= bid_seq db' <= bid_seq db + 1.
Proof.
  intros Hfresh. unfold views.place_bid.
  assert (bid_seq db <= bid_seq db <= bid_seq db + 1) as Hseq by lia.
  destruct (items db !! pk) as [item|] eqn:Hitem; [|simpl; auto 10].
  destruct method; [simpl; auto 10|].
  destruct (Item.seller item =? User.id user); [simpl; auto 10|].
  destruct (negb (Item.status_eqb (Item.status item) Item.active)); [simpl; auto 10|].
  destruct (Item.end_time item <=? now); [simpl; auto 10|].
  destruct (PlaceBidForm.is_valid posted (Some item)) as [bid_amount|e];
    [|simpl; auto 10].
  pose proof (check_rapid_frame cfg now user pk item bid_amount sess db) as Hframe1.
  destruct (views.check_rapid cfg now user pk item bid_amount sess db)
    as [[[reject1 reasons1] sess1] db1].
  destruct (views.check_account_age cfg now user bid_amount reject1 reasons1)
    as [reject2 reasons2].
  unfold Bid_save_new.
  set (bid := Bid.mk pk (User.id user) bid_amount now false "web").
  set (db2 := mkDB _ _ _ _ _ _ _ _ _ _).
  pose proof (check_fraud_frame cfg now ai_response user (bid_seq db1)
                bid item reject2 reasons2 db2) as Hframe4.
  destruct (views.check_fraud cfg now ai_response user (bid_seq db1) bid item
                              reject2 reasons2 db2)
    as [[[reject4 reasons4] logged] db4].
  simpl in Hframe1, Hframe4.
  destruct Hframe1 as (Hitems1 & Hbids1 & Hseq1 & _ & _ & Hwallets1 & Htx1 & Hlog1).
  destruct Hframe4 as (Hitems4 & Hbids4 & Hseq4 & _ & _ & Hwallets4 & Htx4 & Hlog4).
  destruct reject4.
  - intros _. simpl. rewrite Hbids4, Hitems4, Hwallets4, Htx4, Hlog4, Hseq4.
    subst db2. simpl. rewrite Hseq1, Hbids1.
    rewrite delete_insert_id by exact Hfresh.
    repeat split; auto; lia.
  - intros Hnot. exfalso. apply Hnot. eexists _, _. reflexivity.
Qed.

Lemma rejected_bid_leaves_no_row_witness :
  let db' := snd (views.place_bid Scenario.cfg Scenario.now None Scenario.alice
                                  views.POST (Some (UGX 510000)) 10
                                  Scenario.no_session Scenario.alice_cooling_down) in
  bids db' = bids Scenario.alice_cooling_down
  /\ items db' = items Scenario.alice_cooling_down
  /\ wallets db' = wallets Scenario.alice_cooling_down
  /\ wallet_transactions db' = wallet_transactions Scenario.alice_cooling_down
  /\ transaction_log db' = transaction_log Scenario.alice_cooling_down
  /\ bid_seq Scenario.alice_cooling_down <= bid_seq db'
     <= bid_seq Scenario.alice_cooling_down + 1.
Proof.
  apply (rejected_bid_leaves_no_row
           Scenario.cfg Scenario.now None Scenario.alice views.POST
           (Some (UGX 510000)) 10 Scenario.no_session Scenario.alice_cooling_down).
  - vm_compute. reflexivity.
  - intros (amount & messages & Heq). vm_compute in Heq. discriminate.
Defined.

(** X11. [place_bid] admits a bid only on a POST to an active auction that
    has not ended, from a user who is not the seller, for an amount above
    the current price by the minimum increment or more. The admitted bid
    is stored under the next bid key with the posted amount and the time
    of the request; the item's row gets a current price no lower than the
    amount, one more on its bid count, and is otherwise as before; the
    messages after the success message are warnings. *)
Theorem admitted_bid_raises_the_price
    cfg now ai_response user method posted pk sess db :
  admitted (fst (views.place_bid cfg now ai_response user method posted pk sess db)) ->
  let reply := fst (views.place_bid cfg now ai_response user method posted pk sess db) in
  let db' := snd (views.place_bid cfg now ai_response user method posted pk sess db) in
  exists item amount price warnings winning,
    method = views.POST /\ posted = Some amount /\ items db !! pk = Some item
    /\ Item.status item = Item.active /\ now < Item.end_time item
    /\ Item.seller item <> User.id user
    /\ Item.current_price item < amount
    /\ Item.current_price item + Item.min_increment item <= amount
    /\ amount <= price
    /\ views.response reply
       = views.redirect_item_detail
           ((views.success, views.bid_placed amount) :: warnings)
    /\ Forall (fun m => fst m = views.warning) warnings
    /\ items db' !! pk
       = Some (Item.mk (Item.seller item) price (Item.min_increment item)
                       (Item.buy_now_price item) (Item.end_time item)
                       (Item.status item) (Item.bid_count item + 1)
                       (Item.created_at item) (Item.winner item))
    /\ (forall pk', pk' <> pk -> items db' !! pk' = items db !! pk')
    /\ bids db' !! bid_seq db = Some (Bid.mk pk (User.id user) amount now winning "web")
    /\ bid_seq db' = bid_seq db + 1.
Proof.
  assert (forall text sess' logged,
             ~ admitted (views.mkReply
                           (views.redirect_item_detail [(views.error, text)])
                           sess' logged)) as Herror.
  { intros text sess' logged (amount & messages & Heq). simpl in Heq. discriminate. }
  unfold views.place_bid.
  destruct (items db !! pk) as [item|] eqn:Hitem;
    [|intros (? & ? & Heq); discriminate].
  destruct method; [intros (? & ? & Heq); discriminate|].
  destruct (Item.seller item =? User.id user) eqn:Hseller;
    [intros Hadm; destruct (Herror _ _ _ Hadm)|].
  destruct (Item.status_eqb (Item.status item) Item.active) eqn:Hstatus; simpl negb;
    cbv iota; [|intros Hadm; destruct (Herror _ _ _ Hadm)].
  destruct (Item.end_time item <=? now) eqn:Hend;
    [intros Hadm; destruct (Herror _ _ _ Hadm)|].
  destruct (PlaceBidForm.is_valid posted (Some item)) as [bid_amount|e] eqn:Hvalid;
    [|intros Hadm; destruct (Herror _ _ _ Hadm)].
  apply is_valid_Valid in Hvalid as (Hposted & Habove & Hmin).
  apply status_eqb_eq in Hstatus. apply Z.eqb_neq in Hseller. apply Z.leb_gt in Hend.
  pose proof (check_rapid_frame cfg now user pk item bid_amount sess db) as Hframe1.
  destruct (views.check_rapid cfg now user pk item bid_amount sess db)
    as [[[reject1 reasons1] sess1] db1].
  destruct (views.check_account_age cfg now user bid_amount reject1 reasons1)
    as [reject2 reasons2].
  unfold Bid_save_new.
  set (bid := Bid.mk pk (User.id user) bid_amount now false "web").
  set (db2 := mkDB _ _ _ _ _ _ _ _ _ _).
  pose proof (check_fraud_frame cfg now ai_response user (bid_seq db1)
                bid item reject2 reasons2 db2) as Hframe4.
  destruct (views.check_fraud cfg now ai_response user (bid_seq db1) bid item
                              reject2 reasons2 db2)
    as [[[reject4 reasons4] logged] db4].
  simpl in Hframe1, Hframe4.
  destruct Hframe1 as (Hitems1 & Hbids1 & Hseq1 & _).
  destruct Hframe4 as (Hitems4 & Hbids4 & Hseq4 & _).
  destruct reject4; [intros Hadm; destruct (shown_not_admitted _ _ _ Hadm)|].
  intros _. cbn zeta. simpl fst. simpl snd.
  assert (bids db4 !! bid_seq db1 = Some bid) as Hsaved.
  { rewrite Hbids4. apply lookup_insert_eq. }
  destruct (update_auction_state_effect pk item db4 (bid_seq db1) bid Hsaved eq_refl)
    as ((price & Hprice & Hitems) & (winning & Hbid) & Hseq).
  assert (items db4 = items db) as Hitems04.
  { rewrite Hitems4. change (items db2) with (items db1). exact Hitems1. }
  exists item, bid_amount, price. eexists. exists winning.
  repeat (split; [first [reflexivity | assumption]|]).
  split; [|split; [|split; [|split]]].
  - apply Forall_forall. intros [level text] Hin.
    apply list_elem_of_In, filter_In in Hin as [_ Hlevel]. simpl in *.
    destruct level; congruence.
  - rewrite Hitems, Hitems04, lookup_alter_eq, Hitem. reflexivity.
  - intros pk' Hne. rewrite Hitems, Hitems04. apply lookup_alter_ne. congruence.
  - rewrite <- Hseq1. exact Hbid.
  - rewrite Hseq, Hseq4. subst db2. simpl. lia.
Qed.

Lemma admitted_bid_raises_the_price_witness :
  let reply := fst (views.place_bid Scenario.cfg Scenario.now None Scenario.bob
                                    views.POST (Some (UGX 550000)) 10
                                    Scenario.no_session Scenario.bidding_war) in
  let db' := snd (views.place_bid Scenario.cfg Scenario.now None Scenario.bob
                                  views.POST (Some (UGX 550000)) 10
                                  Scenario.no_session Scenario.bidding_war) in
  exists item amount price warnings winning,
    views.POST = views.POST /\ Some (UGX 550000) = Some amount
    /\ items Scenario.bidding_war !! 10 = Some item
    /\ Item.status item = Item.active /\ Scenario.now < Item.end_time item
    /\ Item.seller item <> User.id Scenario.bob
    /\ Item.current_price item < amount
    /\ Item.current_price item + Item.min_increment item <= amount
    /\ amount <= price
    /\ views.response reply
       = views.redirect_item_detail
           ((views.success, views.bid_placed amount) :: warnings)
    /\ Forall (fun m => fst m = views.warning) warnings
    /\ items db' !! 10
       = Some (Item.mk (Item.seller item) price (Item.min_increment item)
                       (Item.buy_now_price item) (Item.end_time item)
                       (Item.status item) (Item.bid_count item + 1)
                       (Item.created_at item) (Item.winner item))
    /\ (forall pk', pk' <> 10 -> items db' !! pk' = items Scenario.bidding_war !! pk')
    /\ bids db' !! bid_seq Scenario.bidding_war
       = Some (Bid.mk 10 (User.id Scenario.bob) amount Scenario.now winning "web")
    /\ bid_seq db' = bid_seq Scenario.bidding_war + 1.
Proof.
  apply (admitted_bid_raises_the_price
           Scenario.cfg Scenario.now None Scenario.bob views.POST
           (Some (UGX 550000)) 10 Scenario.no_session Scenario.bidding_war).
  exists (UGX 550000), []. vm_compute. reflexivity.
Defined.

(** X12. [place_bid] writes to the session in one case only, and always in
    that case: the request reached the gate (a POST by a user without the
    rapid-bidding bypass, not the seller, on an active auction that has
    not ended, with an amount the form accepts) and the gate answered with
    a soft challenge. Then the posted amount and the time of the request
    are stored for the item as the pending bid, the CAPTCHA flag of the
    item is set, and the request is not admitted, whatever the later
    checks say. In every other case the session is as it was. *)
Theorem place_bid_stashes_challenged_bid
    cfg now ai_response user method posted pk sess db :
  let reply := fst (views.place_bid cfg now ai_response user method posted pk sess db) in
  let challenged item amount :=
    method = views.POST
    /\ items db !! pk = Some item
    /\ Item.seller item <> User.id user
    /\ Item.status item = Item.active /\ now < Item.end_time item
    /\ PlaceBidForm.is_valid posted (Some item) = PlaceBidForm.Valid amount
    /\ views.bypass_rapid_bidding user = false
    /\ fst (fst (fst (RapidBiddingDetector.check_rapid_bidding
                        cfg now db (User.id user) pk item amount)))
       = (false, RapidBiddingDetector.soft_challenge) in
  (forall item amount,
      challenged item amount ->
      views.session reply = stash pk amount now sess /\ ~ admitted reply)
  /\ ((forall item amount, ~ challenged item amount) -> views.session reply = sess).
Proof.
  cbv zeta. unfold views.place_bid. split.
  - intros item amount
      (-> & Hitem & Hseller & Hstatus & Hend & Hvalid & Hbypass & Hverdict).
    rewrite Hitem, Hvalid, Hstatus. simpl negb. cbv iota.
    replace (Item.seller item =? User.id user) with false by lia.
    replace (Item.end_time item <=? now) with false by lia.
    assert (exists reasons1 db1,
               views.check_rapid cfg now user pk item amount sess db
               = (true, reasons1, stash pk amount now sess, db1))
      as (reasons1 & db1 & ->).
    { unfold views.check_rapid. rewrite Hbypass. simpl negb. cbv iota.
      destruct (RapidBiddingDetector.check_rapid_bidding _ _ _ _ _ _ _)
        as [[[[is_allowed action] message] duration] db'].
      simpl in Hverdict. injection Hverdict as -> ->. simpl. eauto. }
    pose proof (check_account_age_keeps_rejection cfg now user amount reasons1)
      as Hkeep2.
    destruct (views.check_account_age cfg now user amount true reasons1)
      as [reject2 reasons2].
    simpl in Hkeep2. subst reject2.
    destruct (Bid_save_new _ db1) as [bid_pk db2].
    pose proof (check_fraud_keeps_rejection
                  cfg now ai_response user bid_pk
                  (Bid.mk pk (User.id user) amount now false "web")
                  item reasons2 db2) as Hkeep4.
    destruct (views.check_fraud _ _ _ _ _ _ _ _ _ _) as [[[reject4 reasons4] logged] db4].
    simpl in Hkeep4. subst reject4.
    split; [reflexivity|]. apply shown_not_admitted.
  - intros Hnot.
    destruct (items db !! pk) as [item|] eqn:Hitem; [|reflexivity].
    destruct method; [reflexivity|].
    destruct (Item.seller item =? User.id user) eqn:Hseller; [reflexivity|].
    destruct (Item.status_eqb (Item.status item) Item.active) eqn:Hstatus; simpl negb;
      cbv iota; [|reflexivity].
    destruct (Item.end_time item <=? now) eqn:Hend; [reflexivity|].
    destruct (PlaceBidForm.is_valid posted (Some item)) as [amount|e] eqn:Hvalid;
      [|reflexivity].
    apply Z.eqb_neq in Hseller. apply status_eqb_eq in Hstatus. apply Z.leb_gt in Hend.
    assert (snd (fst (views.check_rapid cfg now user pk item amount sess db)) = sess)
      as Hrapid.
    { unfold views.check_rapid.
      destruct (views.bypass_rapid_bidding user) eqn:Hbypass; simpl negb; cbv iota;
        [reflexivity|].
      destruct (RapidBiddingDetector.check_rapid_bidding _ _ _ _ _ _ _)
        as [[[[is_allowed action] message] duration] db'] eqn:Hgate.
      destruct is_allowed; simpl negb; cbv iota; [reflexivity|].
      destruct action; try reflexivity.
      exfalso. apply (Hnot item amount). rewrite Hgate. auto 10. }
    destruct (views.check_rapid cfg now user pk item amount sess db)
      as [[[reject1 reasons1] sess1] db1]. simpl in Hrapid. subst sess1.
    destruct (views.check_account_age cfg now user amount reject1 reasons1)
      as [reject2 reasons2].
    destruct (Bid_save_new _ db1) as [bid_pk db2].
    destruct (views.check_fraud _ _ _ _ _ _ _ _ _ _) as [[[reject4 reasons4] logged] db4].
    destruct reject4; reflexivity.
Qed.

Lemma place_bid_stashes_challenged_bid_witness :
  let reply :=
    fst (views.place_bid Scenario.cfg Scenario.now None Scenario.alice views.POST
                         (Some (UGX 600000)) 10 Scenario.no_session
                         (Scenario.endgame 9)) in
  views.session reply = stash 10 (UGX 600000) Scenario.now Scenario.no_session
  /\ ~ admitted reply.
Proof.
  apply (proj1 (place_bid_stashes_challenged_bid
                  Scenario.cfg Scenario.now None Scenario.alice views.POST
                  (Some (UGX 600000)) 10 Scenario.no_session (Scenario.endgame 9))
               Scenario.closing_laptop (UGX 600000)).
  repeat split; try reflexivity; vm_compute; congruence.
Defined.

(** ** The checks of [buy_now] *)

(** X13. The checks of [buy_now] let a request through to the transaction
    exactly when the item exists, is active and has not ended, has a
    buy-now price other than zero, is not the buyer's own, has no bid yet,
    and the buyer has a wallet holding at least the price; what they hand
    to the transaction is the item's row and the wallet's balance. *)
Theorem buy_now_prerequisites_iff now user pk db item balance :
  views.buy_now_prerequisites now user pk db = inr (item, balance)
  <-> items db !! pk = Some item
      /\ Item.status item = Item.active
      /\ now < Item.end_time item
      /\ (exists price, Item.buy_now_price item = Some price /\ price <> 0
                        /\ (inject_Z price <= balance)%Q)
      /\ Item.seller item <> User.id user
      /\ ~ has_bid db pk
      /\ wallets db !! User.id user = Some balance.
Proof.
  assert (has_bid db pk <-> exists_ (item_bids db pk) = true) as Hbids.
  { rewrite exists_spec. split.
    - intros (k & b & Hk & Hb). exists (k, b). now apply item_bids_spec.
    - intros [[k b] Hin]. exists k, b. now apply item_bids_spec. }
  unfold views.buy_now_prerequisites. split.
  - destruct (items db !! pk) as [row|]; [|discriminate].
    destruct (Item.status_eqb (Item.status row) Item.active) eqn:Hstatus;
      simpl negb; cbv iota; [|discriminate].
    destruct (Item.end_time row <=? now) eqn:Hend; [discriminate|].
    destruct (Item.buy_now_price row) as [price|] eqn:Hprice; [|discriminate].
    destruct (price =? 0) eqn:Hzero; [discriminate|].
    destruct (Item.seller row =? User.id user) eqn:Hseller; [discriminate|].
    destruct (exists_ (item_bids db pk)) eqn:Hexists; [discriminate|].
    destruct (wallets db !! User.id user) as [held|]; [|discriminate].
    destruct (Qle_bool (inject_Z price) held) eqn:Hfunds;
      simpl negb; cbv iota; [|discriminate].
    intros [= <- <-].
    apply status_eqb_eq in Hstatus. apply Z.leb_gt in Hend.
    apply Z.eqb_neq in Hzero. apply Z.eqb_neq in Hseller.
    apply Qle_bool_iff in Hfunds.
    split; [reflexivity|]. split; [exact Hstatus|]. split; [exact Hend|].
    split; [exists price; auto|]. split; [exact Hseller|].
    split; [|reflexivity].
    intros Hhas. apply Hbids in Hhas. congruence.
  - intros (-> & Hstatus & Hend & (price & -> & Hzero & Hfunds) & Hseller
            & Hnone & ->).
    apply status_eqb_eq in Hstatus. rewrite Hstatus. simpl negb. cbv iota.
    apply Z.leb_gt in Hend. rewrite Hend.
    apply Z.eqb_neq in Hzero. rewrite Hzero.
    apply Z.eqb_neq in Hseller. rewrite Hseller.
    destruct (exists_ (item_bids db pk)) eqn:Hexists;
      [destruct Hnone; now apply Hbids|].
    apply Qle_bool_iff in Hfunds. rewrite Hfunds. reflexivity.
Qed.

(** ** The CAPTCHA view *)

Lemma clean_up_consistent pk sess pending :
  session_consistent sess ->
  views.Session.pending_bid sess !! pk = Some pending ->
  verification.clean_up pk sess = inr (forget pk sess).
Proof.
  intros Hsess Hpending. unfold verification.clean_up. rewrite Hpending. simpl.
  destruct (views.Session.show_captcha sess !! pk) eqn:Hshow; [reflexivity|].
  destruct (Hsess pk); [congruence|exact Hshow].
Qed.

Lemma forget_consistent pk sess :
  session_consistent sess -> session_consistent (forget pk sess).
Proof.
  intros Hsess pk'. unfold forget. simpl.
  destruct (decide (pk' = pk)) as [->|Hne].
  - rewrite lookup_delete_eq. congruence.
  - rewrite !lookup_delete_ne by congruence. apply Hsess.
Qed.

Lemma stash_consistent pk amount timestamp sess :
  session_consistent sess -> session_consistent (stash pk amount timestamp sess).
Proof.
  intros Hsess pk'. unfold stash. simpl.
  destruct (decide (pk' = pk)) as [->|Hne].
  - rewrite !lookup_insert_eq. congruence.
  - rewrite !lookup_insert_ne by congruence. apply Hsess.
Qed.

(** [place_bid] leaves the session alone or stores the bid in it. *)
Lemma place_bid_session cfg now ai_response user method posted pk sess db :
  let reply := fst (views.place_bid cfg now ai_response user method posted pk sess db) in
  views.session reply = sess
  \/ exists amount, views.session reply = stash pk amount now sess.
Proof.
  unfold views.place_bid.
  destruct (items db !! pk) as [item|]; [|now left].
  destruct method; [now left|].
  destruct (Item.seller item =? User.id user); [now left|].
  destruct (negb (Item.status_eqb (Item.status item) Item.active)); [now left|].
  destruct (Item.end_time item <=? now); [now left|].
  destruct (PlaceBidForm.is_valid posted (Some item)) as [bid_amount|e]; [|now left].
  assert (snd (fst (views.check_rapid cfg now user pk item bid_amount sess db)) = sess
          \/ snd (fst (views.check_rapid cfg now user pk item bid_amount sess db))
             = stash pk bid_amount now sess) as Hrapid.
  { unfold views.check_rapid. repeat case_match; simpl; auto. }
  destruct (views.check_rapid cfg now user pk item bid_amount sess db)
    as [[[reject1 reasons1] sess1] db1]. simpl in Hrapid.
  destruct (views.check_account_age cfg now user bid_amount reject1 reasons1)
    as [reject2 reasons2].
  destruct (Bid_save_new _ db1) as [bid_pk db2].
  destruct (views.check_fraud _ _ _ _ _ _ _ _ _ _) as [[[reject4 reasons4] logged] db4].
  destruct reject4; simpl; destruct Hrapid as [-> | ->]; eauto.
Qed.

Lemma refuse_consistent text delete_captcha pk captcha_key sess store db pending :
  session_consistent sess ->
  views.Session.pending_bid sess !! pk = Some pending ->
  verification.refuse text delete_captcha pk captcha_key sess store db
  = (verification.mkReply
       (verification.redirect_item_detail [(views.error, text)]) (forget pk sess) [],
     if delete_captcha then delete captcha_key store else store, db).
Proof.
  intros Hsess Hpending. unfold verification.refuse.
  now rewrite (clean_up_consistent pk sess pending Hsess Hpending).
Qed.

Lemma finish_consistent fraud_passed user pk item bid_amount messages logged sess
    store db pending :
  session_consistent sess ->
  views.Session.pending_bid sess !! pk = Some pending ->
  verification.finish fraud_passed user pk item bid_amount messages logged
                      sess sess store db
  = (verification.mkReply
       (verification.redirect_item_detail
          (messages
           ++ [(views.success, verification.Verification_successful bid_amount)]))
       (forget pk sess) logged,
     store,
     views.update_auction_state
       pk item
       (if fraud_passed
        then snd (RapidBiddingDetector.pass_captcha_challenge
                    (User.id user) (Some pk) db)
        else db)).
Proof.
  intros Hsess Hpending. unfold verification.finish.
  now rewrite (clean_up_consistent pk sess pending Hsess Hpending).
Qed.

(** What [verify_captcha] answers for a consistent session: never a
    [KeyError], and the session of the reply is the one of the request
    with at most the keys of the item deleted. *)
Lemma verify_captcha_session
    cfg now ai_response user method captcha_0 captcha_1 pk sess store db :
  session_consistent sess ->
  let reply :=
    fst (fst (verification.verify_captcha cfg now ai_response user method
                                          captcha_0 captcha_1 pk sess store db)) in
  (forall key, verification.response reply <> verification.KeyError key)
  /\ (verification.session reply = sess
      \/ verification.session reply = forget pk sess
      \/ (views.Session.pending_bid sess !! pk = None
          /\ verification.session reply
             = views.Session.mk (views.Session.pending_bid sess)
                                (delete pk (views.Session.show_captcha sess)))).
Proof.
  intros Hsess. unfold verification.verify_captcha.
  destruct (items db !! pk) as [item|]; [|simpl; split; [discriminate|auto]].
  destruct method; [simpl; split; [discriminate|auto]|].
  destruct (verification.truthy captcha_0) as [captcha_key|];
    [|simpl; split; [discriminate|auto]].
  destruct (verification.truthy captcha_1) as [captcha_value|];
    [|simpl; split; [discriminate|auto]].
  destruct (store !! captcha_key) as [response|];
    [|simpl; split; [discriminate|auto]].
  destruct (String.eqb response (lower captcha_value));
    [|simpl; split; [discriminate|auto]].
  destruct (views.Session.pending_bid sess !! pk) as [[bid_amount bid_timestamp]|]
    eqn:Hpending; [|simpl; split; [discriminate|auto]].
  rewrite (clean_up_consistent pk sess _ Hsess Hpending).
  repeat case_match;
    rewrite ?(refuse_consistent _ _ _ _ _ _ _ _ Hsess Hpending),
            ?(finish_consistent _ _ _ _ _ _ _ _ _ _ _ Hsess Hpending);
    simpl; split; first [discriminate | auto].
Qed.

(** X14. The two views that write the pending bid keep the session
    consistent (an item with a pending bid has its CAPTCHA flag), and for
    a consistent session [verify_captcha] never fails on deleting a
    session key. *)
Theorem session_stays_consistent
    cfg now ai_response user method posted captcha_0 captcha_1 pk sess store db :
  session_consistent sess ->
  session_consistent
    (views.session
       (fst (views.place_bid cfg now ai_response user method posted pk sess db)))
  /\ (let reply :=
        fst (fst (verification.verify_captcha cfg now ai_response user method
                                              captcha_0 captcha_1 pk sess store db)) in
      (forall key, verification.response reply <> verification.KeyError key)
      /\ session_consistent (verification.session reply)).
Proof.
  intros Hsess. split.
  - destruct (place_bid_session cfg now ai_response user method posted pk sess db)
      as [-> | [amount ->]]; [exact Hsess|now apply stash_consistent].
  - cbv zeta.
    destruct (verify_captcha_session cfg now ai_response user method
                captcha_0 captcha_1 pk sess store db Hsess)
      as [Hkey [-> | [-> | [Hnone ->]]]];
      (split; [exact Hkey|]); [exact Hsess|now apply forget_consistent|].
    intros pk'. simpl. destruct (decide (pk' = pk)) as [->|Hne].
    + congruence.
    + rewrite lookup_delete_ne by congruence. apply Hsess.
Qed.

Lemma session_stays_consistent_witness :
  session_consistent
    (views.session
       (fst (views.place_bid Scenario.cfg Scenario.now None Scenario.alice views.POST
                             (Some (UGX 550000)) 10 Cases.pending
                             Scenario.bidding_war)))
  /\ (let reply :=
        fst (fst (verification.verify_captcha
                    Scenario.cfg Scenario.now None Scenario.alice views.POST
                    (Some "k1"%string) (Some "XKCD"%string) 10 Cases.pending
                    Cases.captchas Scenario.bidding_war)) in
      (forall key, verification.response reply <> verification.KeyError key)
      /\ session_consistent (verification.session reply)).
Proof.
  apply (session_stays_consistent
           Scenario.cfg Scenario.now None Scenario.alice views.POST
           (Some (UGX 550000)) (Some "k1"%string) (Some "XKCD"%string) 10
           Cases.pending Cases.captchas Scenario.bidding_war).
  intros pk Hpending. unfold Cases.pending, stash in *. simpl in *.
  destruct (decide (pk = 10)) as [->|Hne].
  - rewrite lookup_insert_eq. discriminate.
  - rewrite lookup_insert_ne in Hpending by congruence.
    rewrite lookup_empty in Hpending. congruence.
Defined.

(** The session the theorem is about has to be consistent: with the
    pending bid but without the CAPTCHA flag, the second [del] of the view
    raises, here after the bid was placed. *)
Example verify_captcha_fails_on_missing_flag :
  let sess :=
    views.Session.mk (views.Session.pending_bid Cases.pending) ∅ in
  let verify :=
    verification.verify_captcha
      Scenario.cfg Scenario.now None Scenario.alice views.POST
      (Some "k1"%string) (Some "XKCD"%string) 10 sess Cases.captchas
      Scenario.bidding_war in
  verification.response (fst (fst verify))
  = verification.KeyError (verification.show_captcha_ 10)
  /\ bids (snd verify) !! 5
     = Some (Bid.mk 10 2 (UGX 550000) Scenario.now true "web").
Proof. split; vm_compute; reflexivity. Qed.

(** With the right answer to a stored CAPTCHA, a pending bid no older than
    five minutes and no lower than the minimum, on an active auction that
    has not ended, [verify_captcha] saves the bid, deletes the CAPTCHA,
    marks the challenge as passed, updates the auction and forgets the
    pending bid. *)
Lemma verify_captcha_places_pending
    cfg now ai_response user captcha_0 captcha_1 pk sess store db
    item amount timestamp flag captcha_key captcha_value :
  items db !! pk = Some item ->
  Item.status item = Item.active ->
  now < Item.end_time item ->
  Item.current_price item + Item.min_increment item <= amount ->
  views.Session.pending_bid sess !! pk = Some (amount, timestamp) ->
  views.Session.show_captcha sess !! pk = Some flag ->
  now - timestamp <= timedelta_seconds 300 ->
  verification.truthy captcha_0 = Some captcha_key ->
  verification.truthy captcha_1 = Some captcha_value ->
  store !! captcha_key = Some (lower captcha_value) ->
  verification.verify_captcha cfg now ai_response user views.POST
                              captcha_0 captcha_1 pk sess store db
  = (verification.mkReply
       (verification.redirect_item_detail
          [(views.success, verification.Verification_successful amount)])
       (forget pk sess)
       [verification.fraud_detection_failed (FieldError "created_at")],
     delete captcha_key store,
     views.update_auction_state
       pk item
       (snd (RapidBiddingDetector.pass_captcha_challenge
               (User.id user) (Some pk)
               (snd (Bid_save_new
                       (Bid.mk pk (User.id user) amount now false "web") db))))).
Proof.
  intros Hitem Hstatus Hend Hmin Hpending Hshow Hage Hkey Hvalue Hstore.
  unfold verification.verify_captcha.
  rewrite Hitem, Hkey, Hvalue, Hstore, String.eqb_refl, Hpending.
  replace (timedelta_seconds 300 <? now - timestamp) with false by lia.
  replace (amount <? Item.current_price item + Item.min_increment item)
    with false by lia.
  rewrite Hstatus. simpl negb. cbv iota.
  replace (Item.end_time item <=? now) with false by lia.
  unfold Bid_save_new at 1. rewrite analyze_bid_raises.
  unfold verification.finish, verification.clean_up.
  rewrite Hpending. simpl. rewrite Hshow. reflexivity.
Qed.

(** A request to [place_bid] that changed the session was a valid bid on
    an active auction, challenged by the gate. *)
Lemma place_bid_challenged cfg now ai_response user method posted pk sess db :
  views.session (fst (views.place_bid cfg now ai_response user method posted pk sess db))
  <> sess ->
  exists item amount,
    items db !! pk = Some item /\ posted = Some amount
    /\ Item.status item = Item.active /\ now < Item.end_time item
    /\ Item.current_price item + Item.min_increment item <= amount
    /\ views.session
         (fst (views.place_bid cfg now ai_response user method posted pk sess db))
       = stash pk amount now sess
    /\ items (snd (views.place_bid cfg now ai_response user method posted pk sess db))
       = items db.
Proof.
  unfold views.place_bid.
  destruct (items db !! pk) as [item|] eqn:Hitem; [|simpl; congruence].
  destruct method; [simpl; congruence|].
  destruct (Item.seller item =? User.id user); [simpl; congruence|].
  destruct (Item.status_eqb (Item.status item) Item.active) eqn:Hstatus; simpl negb;
    cbv iota; [|simpl; congruence].
  destruct (Item.end_time item <=? now) eqn:Hend; [simpl; congruence|].
  destruct (PlaceBidForm.is_valid posted (Some item)) as [bid_amount|e] eqn:Hvalid;
    [|simpl; congruence].
  apply is_valid_Valid in Hvalid as (Hposted & _ & Hmin).
  apply status_eqb_eq in Hstatus. apply Z.leb_gt in Hend.
  assert (forall reject1 reasons1 sess1 db1,
             (reject1, reasons1, sess1, db1)
             = views.check_rapid cfg now user pk item bid_amount sess db ->
             sess1 = sess
             \/ (reject1 = true /\ sess1 = stash pk bid_amount now sess)) as Hrapid.
  { intros reject1 reasons1 sess1 db1. unfold views.check_rapid.
    repeat case_match; intros [= -> _ -> _]; auto. }
  pose proof (check_rapid_frame cfg now user pk item bid_amount sess db) as Hframe1.
  destruct (views.check_rapid cfg now user pk item bid_amount sess db)
    as [[[reject1 reasons1] sess1] db1]. simpl in Hframe1.
  specialize (Hrapid _ _ _ _ eq_refl).
  pose proof (check_account_age_keeps_rejection cfg now user bid_amount reasons1)
    as Hkeep2.
  destruct (views.check_account_age cfg now user bid_amount reject1 reasons1)
    as [reject2 reasons2] eqn:Hage.
  unfold Bid_save_new.
  set (bid := Bid.mk pk (User.id user) bid_amount now false "web").
  set (db2 := mkDB _ _ _ _ _ _ _ _ _ _).
  pose proof (check_fraud_frame cfg now ai_response user (bid_seq db1)
                bid item reject2 reasons2 db2) as Hframe4.
  pose proof (check_fraud_keeps_rejection cfg now ai_response user (bid_seq db1)
                bid item reasons2 db2) as Hkeep4.
  destruct (views.check_fraud cfg now ai_response user (bid_seq db1) bid item
                              reject2 reasons2 db2)
    as [[[reject4 reasons4] logged] db4] eqn:Hfraud.
  simpl in Hframe4.
  destruct Hframe1 as (Hitems1 & _). destruct Hframe4 as (Hitems4 & _).
  assert (items db4 = items db) as Hitems04.
  { rewrite Hitems4. change (items db2) with (items db1). exact Hitems1. }
  destruct Hrapid as [-> | [-> ->]].
  - destruct reject4; simpl; congruence.
  - rewrite Hage in Hkeep2. simpl in Hkeep2. subst reject2.
    rewrite Hfraud in Hkeep4. simpl in Hkeep4. subst reject4.
    intros _. exists item, bid_amount. simpl.
    repeat (split; [first [reflexivity | assumption]|]). exact Hitems04.
Qed.

Lemma forget_stash pk amount timestamp sess :
  forget pk (stash pk amount timestamp sess) = forget pk sess.
Proof. unfold forget, stash. simpl. now rewrite !delete_insert_eq. Qed.

Lemma pass_captcha_challenge_frame u it db :
  only_cooldowns_differ db (snd (RapidBiddingDetector.pass_captcha_challenge u it db)).
Proof.
  unfold RapidBiddingDetector.pass_captcha_challenge.
  destruct (first _) as [[k c]|]; simpl;
    [apply set_cooldowns_frame|apply only_cooldowns_differ_refl].
Qed.

Lemma fail_captcha_challenge_frame cfg now u it db :
  only_cooldowns_differ db (RapidBiddingDetector.fail_captcha_challenge cfg now u it db).
Proof.
  unfold RapidBiddingDetector.fail_captcha_challenge.
  destruct (first _) as [[k c]|]; [|apply only_cooldowns_differ_refl].
  destruct (3 <=? _); [|apply set_cooldowns_frame].
  eapply only_cooldowns_differ_trans;
    [apply set_cooldowns_frame|apply _create_hard_cooldown_frame].
Qed.

(** X15. The round trip of a challenged bid. When [place_bid] stored the
    bid in the session (the gate answered with a soft challenge) and the
    user then posts the right answer to a stored CAPTCHA, no later than
    five minutes after the bid and before the auction ends,
    [verify_captcha] places the bid with the amount posted at first: the
    bid is saved under the next key with that amount, the item's price is
    no lower than it, the CAPTCHA is deleted and the session no longer
    knows the item. *)
Theorem challenged_bid_is_placed_once_verified
    cfg posted_at now ai_response ai_response' user method posted pk sess db
    captcha_key captcha_value store :
  let place := views.place_bid cfg posted_at ai_response user method posted pk sess db in
  views.session (fst place) <> sess ->
  captcha_key <> EmptyString -> captcha_value <> EmptyString ->
  store !! captcha_key = Some (lower captcha_value) ->
  now - posted_at <= timedelta_seconds 300 ->
  (forall item, items db !! pk = Some item -> now < Item.end_time item) ->
  let verify :=
    verification.verify_captcha cfg now ai_response' user views.POST
                                (Some captcha_key) (Some captcha_value) pk
                                (views.session (fst place)) store (snd place) in
  exists amount winning row,
    posted = Some amount
    /\ verification.response (fst (fst verify))
       = verification.redirect_item_detail
           [(views.success, verification.Verification_successful amount)]
    /\ verification.session (fst (fst verify)) = forget pk sess
    /\ snd (fst verify) = delete captcha_key store
    /\ bids (snd verify) !! bid_seq (snd place)
       = Some (Bid.mk pk (User.id user) amount now winning "web")
    /\ items (snd verify) !! pk = Some row
    /\ amount <= Item.current_price row.
Proof.
  intros place Hstashed Hkey Hvalue Hstore Hage Hend.
  destruct (place_bid_challenged cfg posted_at ai_response user method posted pk sess db
              Hstashed)
    as (item & amount & Hitem & Hposted & Hstatus & _ & Hmin & Hsess & Hitems).
  fold place in Hsess, Hitems.
  intros verify. subst verify.
  rewrite (verify_captcha_places_pending
             cfg now ai_response' user (Some captcha_key) (Some captcha_value) pk
             (views.session (fst place)) store (snd place)
             item amount posted_at true captcha_key captcha_value).
  - cbn [fst snd verification.response verification.session].
    set (bid := Bid.mk pk (User.id user) amount now false "web").
    set (db2 := snd (Bid_save_new bid (snd place))).
    pose proof (pass_captcha_challenge_frame (User.id user) (Some pk) db2)
      as (Hitems3 & Hbids3 & _).
    set (db3 := snd (RapidBiddingDetector.pass_captcha_challenge _ _ db2)) in *.
    assert (bids db3 !! bid_seq (snd place) = Some bid) as Hsaved.
    { rewrite Hbids3. subst db2. simpl. apply lookup_insert_eq. }
    destruct (update_auction_state_effect pk item db3 (bid_seq (snd place)) bid
                Hsaved eq_refl)
      as ((price & Hprice & Hrow) & (winning & Hbid) & _).
    exists amount, winning. eexists.
    split; [exact Hposted|]. split; [reflexivity|].
    split; [rewrite Hsess; apply forget_stash|]. split; [reflexivity|].
    split; [exact Hbid|].
    split.
    + rewrite Hrow, Hitems3. subst db2. simpl.
      rewrite Hitems, lookup_alter_eq, Hitem. reflexivity.
    + exact Hprice.
  - now rewrite Hitems.
  - exact Hstatus.
  - now apply Hend.
  - exact Hmin.
  - rewrite Hsess. simpl. apply lookup_insert_eq.
  - rewrite Hsess. simpl. apply lookup_insert_eq.
  - exact Hage.
  - destruct captcha_key; [contradiction|reflexivity].
  - destruct captcha_value; [contradiction|reflexivity].
  - exact Hstore.
Qed.

Lemma challenged_bid_is_placed_once_verified_witness :
  let place :=
    views.place_bid Scenario.cfg Scenario.now None Scenario.alice views.POST
                    (Some (UGX 550000)) 10 Scenario.no_session Scenario.bidding_war in
  let verify :=
    verification.verify_captcha
      Scenario.cfg (Scenario.now + timedelta_seconds 40) None Scenario.alice
      views.POST (Some "k1"%string) (Some "XKCD"%string) 10
      (views.session (fst place)) {[ "k1"%string := "xkcd"%string ]} (snd place) in
  exists amount winning row,
    Some (UGX 550000) = Some amount
    /\ verification.response (fst (fst verify))
       = verification.redirect_item_detail
           [(views.success, verification.Verification_successful amount)]
    /\ verification.session (fst (fst verify)) = forget 10 Scenario.no_session
    /\ snd (fst verify) = delete "k1"%string {[ "k1"%string := "xkcd"%string ]}
    /\ bids (snd verify) !! bid_seq (snd place)
       = Some (Bid.mk 10 (User.id Scenario.alice) amount
                      (Scenario.now + timedelta_seconds 40) winning "web")
    /\ items (snd verify) !! 10 = Some row
    /\ amount <= Item.current_price row.
Proof.
  apply (challenged_bid_is_placed_once_verified
           Scenario.cfg Scenario.now (Scenario.now + timedelta_seconds 40) None None
           Scenario.alice views.POST (Some (UGX 550000)) 10 Scenario.no_session
           Scenario.bidding_war "k1"%string "XKCD"%string
           {[ "k1"%string := "xkcd"%string ]}).
  - vm_compute. congruence.
  - discriminate.
  - discriminate.
  - vm_compute. reflexivity.
  - vm_compute. discriminate.
  - intros item Hitem. vm_compute in Hitem. injection Hitem as <-.
    vm_compute. reflexivity.
Defined.

Lemma error_not_verified text sess logged :
  ~ verified (verification.mkReply
                (verification.redirect_item_detail [(views.error, text)]) sess logged).
Proof.
  intros (amount & messages & Heq). simpl in Heq. injection Heq as Heq.
  destruct messages as [|m [|m' messages]]; simpl in Heq; discriminate.
Qed.

Lemma verified_only_by_redirect reply :
  verified reply ->
  forall key, verification.response reply <> verification.KeyError key.
Proof. intros (amount & messages & ->) key. discriminate. Qed.

(** The three ways of [verify_captcha] with the database: it leaves it
    alone; it records a failed attempt for a wrong answer; or, for the
    right answer to a stored CAPTCHA and a pending bid that is still good,
    it saves the bid, marks the challenge as passed and updates the
    auction. The last is the only one that can report a placed bid. *)
Lemma verify_captcha_cases
    cfg now ai_response user method captcha_0 captcha_1 pk sess store db :
  let outcome :=
    verification.verify_captcha cfg now ai_response user method
                                captcha_0 captcha_1 pk sess store db in
  (~ verified (fst (fst outcome))
   /\ (snd outcome = db
       \/ snd outcome
          = RapidBiddingDetector.fail_captcha_challenge
              cfg now (User.id user) (Some pk) db))
  \/ exists item amount timestamp captcha_key captcha_value,
      method = views.POST
      /\ items db !! pk = Some item
      /\ Item.status item = Item.active /\ now < Item.end_time item
      /\ Item.current_price item + Item.min_increment item <= amount
      /\ views.Session.pending_bid sess !! pk = Some (amount, timestamp)
      /\ now - timestamp <= timedelta_seconds 300
      /\ verification.truthy captcha_0 = Some captcha_key
      /\ verification.truthy captcha_1 = Some captcha_value
      /\ store !! captcha_key = Some (lower captcha_value)
      /\ snd (fst outcome) = delete captcha_key store
      /\ snd outcome
         = views.update_auction_state
             pk item
             (snd (RapidBiddingDetector.pass_captcha_challenge
                     (User.id user) (Some pk)
                     (snd (Bid_save_new
                             (Bid.mk pk (User.id user) amount now false "web") db))))
      /\ (verification.response (fst (fst outcome))
          = verification.redirect_item_detail
              [(views.success, verification.Verification_successful amount)]
          \/ (views.Session.show_captcha sess !! pk = None
              /\ verification.response (fst (fst outcome))
                 = verification.KeyError (verification.show_captcha_ pk))).
Proof.
  assert (forall (reply : verification.Reply),
             (exists key, verification.response reply = verification.KeyError key) ->
             ~ verified reply) as Hkeyerror.
  { intros reply [key Hkey] Hverified.
    exact (verified_only_by_redirect reply Hverified key Hkey). }
  unfold verification.verify_captcha.
  destruct (items db !! pk) as [item|] eqn:Hitem.
  2: { left. split; [|now left]. intros (? & ? & Heq). discriminate. }
  destruct method.
  { left. split; [|now left]. intros (? & messages & Heq). simpl in Heq.
    injection Heq as Heq. destruct messages; discriminate. }
  destruct (verification.truthy captcha_0) as [captcha_key|] eqn:Hkey;
    [|left; split; [apply error_not_verified|now left]].
  destruct (verification.truthy captcha_1) as [captcha_value|] eqn:Hvalue;
    [|left; split; [apply error_not_verified|now left]].
  destruct (store !! captcha_key) as [response|] eqn:Hstore;
    [|left; split; [apply error_not_verified|now left]].
  destruct (String.eqb response (lower captcha_value)) eqn:Hanswer;
    [|left; split; [apply error_not_verified|now right]].
  apply String.eqb_eq in Hanswer. subst response.
  destruct (views.Session.pending_bid sess !! pk) as [[bid_amount bid_timestamp]|]
    eqn:Hpending; [|left; split; [apply error_not_verified|now left]].
  assert (forall text delete_captcha,
             let refused :=
               verification.refuse text delete_captcha pk captcha_key sess store db in
             ~ verified (fst (fst refused)) /\ snd refused = db) as Hrefuse.
  { intros text delete_captcha. unfold verification.refuse.
    destruct (verification.clean_up pk sess) as [[key partly]|cleaned]; simpl.
    - split; [|reflexivity]. apply Hkeyerror. simpl. eauto.
    - split; [apply error_not_verified|reflexivity]. }
  destruct (timedelta_seconds 300 <? now - bid_timestamp) eqn:Hage;
    [left; destruct (Hrefuse verification.Verification_expired false); auto|].
  destruct (bid_amount <? Item.current_price item + Item.min_increment item) eqn:Hmin;
    [left; destruct (Hrefuse (verification.price_was_raised
                                (Item.current_price item + Item.min_increment item))
                             true); auto|].
  destruct (Item.status_eqb (Item.status item) Item.active) eqn:Hstatus; simpl negb;
    cbv iota;
    [|left; destruct (Hrefuse verification.auction_no_longer_active true); auto].
  destruct (Item.end_time item <=? now) eqn:Hend;
    [left; destruct (Hrefuse verification.auction_has_ended true); auto|].
  right. exists item, bid_amount, bid_timestamp, captcha_key, captcha_value.
  apply status_eqb_eq in Hstatus.
  unfold Bid_save_new at 1. rewrite analyze_bid_raises.
  unfold verification.finish, verification.clean_up. rewrite Hpending. simpl.
  repeat (split; [first [reflexivity | assumption | lia]|]).
  destruct (views.Session.show_captcha sess !! pk) eqn:Hshow; simpl.
  - split; [reflexivity|]. split; [reflexivity|]. now left.
  - split; [reflexivity|]. split; [reflexivity|]. right. auto.
Qed.

Lemma update_auction_state_cooldowns item_pk item db :
  cooldowns (views.update_auction_state item_pk item db) = cooldowns db
  /\ cooldown_seq (views.update_auction_state item_pk item db) = cooldown_seq db.
Proof.
  unfold views.update_auction_state.
  destruct (first _) as [[highest_pk highest]|]; simpl; auto.
Qed.

(** Passing and failing a CAPTCHA change rows of one kind only: the soft
    challenges of the user in the scope. *)
Lemma pass_captcha_challenge_other_rows u it db k c :
  cooldowns db !! k = Some c ->
  BidCooldown.user c <> u \/ BidCooldown.item c <> it
  \/ BidCooldown.cooldown_type c <> BidCooldown.soft_challenge ->
  cooldowns (snd (RapidBiddingDetector.pass_captcha_challenge u it db)) !! k = Some c.
Proof.
  intros Hk Hother. unfold RapidBiddingDetector.pass_captcha_challenge.
  destruct (first _) as [[k0 c0]|] eqn:Hfirst; [|exact Hk].
  apply (first_order_by_desc (fun r => BidCooldown.created_at (snd r))) in Hfirst
    as [Hin _].
  apply filter_In in Hin as [Hin _].
  apply soft_challenges_spec in Hin as (Hk0 & Hu & Hit & Hty).
  simpl. destruct (decide (k = k0)) as [->|Hne].
  - rewrite Hk in Hk0. injection Hk0 as <-. tauto.
  - now rewrite lookup_insert_ne by congruence.
Qed.

Lemma fail_captcha_challenge_other_rows cfg now u it db k c :
  cooldowns db !! cooldown_seq db = None ->
  cooldowns db !! k = Some c ->
  BidCooldown.user c <> u \/ BidCooldown.item c <> it
  \/ BidCooldown.cooldown_type c <> BidCooldown.soft_challenge ->
  cooldowns (RapidBiddingDetector.fail_captcha_challenge cfg now u it db) !! k = Some c.
Proof.
  intros Hfresh Hk Hother. unfold RapidBiddingDetector.fail_captcha_challenge.
  destruct (first _) as [[k0 c0]|] eqn:Hfirst; [|exact Hk].
  apply (first_order_by_desc (fun r => BidCooldown.created_at (snd r))) in Hfirst
    as [Hin _].
  apply filter_In in Hin as [Hin _].
  apply soft_challenges_spec in Hin as (Hk0 & Hu & Hit & Hty).
  assert (k <> k0) as Hne.
  { intros ->. rewrite Hk in Hk0. injection Hk0 as <-. tauto. }
  assert (k <> cooldown_seq db) as Hseq by congruence.
  destruct (3 <=? _); simpl.
  - rewrite lookup_insert_ne by congruence. now rewrite lookup_insert_ne by congruence.
  - now rewrite lookup_insert_ne by congruence.
Qed.

(** X16. [verify_captcha] writes to the cooldown table through
    [pass_captcha_challenge] and [fail_captcha_challenge] for the item
    only: every row that is not a soft challenge of the user for this item
    is left as it is. So a challenge or cooldown of global scope in force
    is not lifted by a verified bid: with only gate-written rows active,
    the gate still refuses the user's next bid on the item. *)
Theorem verify_captcha_lifts_item_challenges_only
    cfg now ai_response user method captcha_0 captcha_1 pk sess store db k c :
  cooldowns db !! cooldown_seq db = None ->
  cooldowns db !! k = Some c ->
  BidCooldown.user c <> User.id user \/ BidCooldown.item c <> Some pk
  \/ BidCooldown.cooldown_type c <> BidCooldown.soft_challenge ->
  let db' :=
    snd (verification.verify_captcha cfg now ai_response user method
                                     captcha_0 captcha_1 pk sess store db) in
  cooldowns db' !! k = Some c
  /\ (gate_written (cooldowns db) -> in_force now (User.id user) (Some pk) c ->
      forall item bid_amount,
        fst (fst (fst (fst (RapidBiddingDetector.check_rapid_bidding
                              cfg now db' (User.id user) pk item bid_amount))))
        = false).
Proof.
  intros Hfresh Hk Hother db'.
  assert (cooldowns db' !! k = Some c
          /\ (gate_written (cooldowns db) -> gate_written (cooldowns db')))
    as [Hkept Hgate'].
  { subst db'.
    destruct (verify_captcha_cases cfg now ai_response user method
                captcha_0 captcha_1 pk sess store db)
      as [[_ [-> | ->]] | (item & amount & timestamp & captcha_key & captcha_value
                           & _ & _ & _ & _ & _ & _ & _ & _ & _ & _ & _ & -> & _)].
    - auto.
    - split; [now apply fail_captcha_challenge_other_rows|].
      apply fail_captcha_challenge_gate_written.
    - destruct (update_auction_state_cooldowns
                  pk item
                  (snd (RapidBiddingDetector.pass_captcha_challenge
                          (User.id user) (Some pk)
                          (snd (Bid_save_new
                                  (Bid.mk pk (User.id user) amount now false "web")
                                  db))))) as [-> _].
      split; [now apply pass_captcha_challenge_other_rows|].
      intros Hgate. now apply pass_captcha_challenge_gate_written. }
  split; [exact Hkept|].
  intros Hgate Hforce item bid_amount.
  unfold RapidBiddingDetector.check_rapid_bidding.
  destruct (existing_cooldown_blocks now (cooldowns db') (User.id user) (Some pk) k c
              (Hgate' Hgate) Hkept Hforce) as (action & message & duration & Hverdict).
  destruct (BidCooldown.get_active_cooldown now (cooldowns db') (User.id user) (Some pk))
    as [existing table].
  simpl in Hverdict. rewrite Hverdict. reflexivity.
Qed.

Lemma verify_captcha_lifts_item_challenges_only_witness :
  let c :=
    Scenario.cooldown 2 None BidCooldown.soft_challenge
                      (Scenario.now - timedelta_minutes 1)
                      (Scenario.now + timedelta_minutes 9) in
  let db' :=
    snd (verification.verify_captcha
           Scenario.cfg Scenario.now None Scenario.alice views.POST
           (Some "k1"%string) (Some "XKCD"%string) 10 Cases.pending Cases.captchas
           Cases.velocity_challenged) in
  cooldowns db' !! 1 = Some c
  /\ (gate_written (cooldowns Cases.velocity_challenged) ->
      in_force Scenario.now (User.id Scenario.alice) (Some 10) c ->
      forall item bid_amount,
        fst (fst (fst (fst (RapidBiddingDetector.check_rapid_bidding
                              Scenario.cfg Scenario.now db' (User.id Scenario.alice)
                              10 item bid_amount))))
        = false).
Proof.
  apply (verify_captcha_lifts_item_challenges_only
           Scenario.cfg Scenario.now None Scenario.alice views.POST
           (Some "k1"%string) (Some "XKCD"%string) 10 Cases.pending Cases.captchas
           Cases.velocity_challenged 1).
  - vm_compute. reflexivity.
  - vm_compute. reflexivity.
  - right. left. discriminate.
Defined.

(** X17. [verify_captcha] places a bid only for the right answer to a
    stored CAPTCHA and a pending bid of the session that is at most five
    minutes old and no lower than the current price plus the minimum
    increment, on an active auction that has not ended; the bid is saved
    under the next key with the pending amount, and the CAPTCHA is gone.
    A request that does not end so leaves the bid and item tables as they
    were (for a consistent session). *)
Theorem verify_captcha_places_verified_bids_only
    cfg now ai_response user method captcha_0 captcha_1 pk sess store db :
  session_consistent sess ->
  let outcome :=
    verification.verify_captcha cfg now ai_response user method
                                captcha_0 captcha_1 pk sess store db in
  (verified (fst (fst outcome)) ->
   exists item amount timestamp captcha_key captcha_value winning,
     method = views.POST
     /\ items db !! pk = Some item
     /\ Item.status item = Item.active /\ now < Item.end_time item
     /\ Item.current_price item + Item.min_increment item <= amount
     /\ views.Session.pending_bid sess !! pk = Some (amount, timestamp)
     /\ now - timestamp <= timedelta_seconds 300
     /\ captcha_0 = Some captcha_key /\ captcha_1 = Some captcha_value
     /\ store !! captcha_key = Some (lower captcha_value)
     /\ snd (fst outcome) !! captcha_key = None
     /\ bids (snd outcome) !! bid_seq db
        = Some (Bid.mk pk (User.id user) amount now winning "web"))
  /\ (~ verified (fst (fst outcome)) ->
      bids (snd outcome) = bids db /\ items (snd outcome) = items db
      /\ bid_seq (snd outcome) = bid_seq db).
Proof.
  intros Hsess outcome. subst outcome.
  assert (forall value text, verification.truthy value = Some text -> value = Some text)
    as Htruthy.
  { intros [[|a s]|] text; simpl; congruence. }
  destruct (verify_captcha_cases cfg now ai_response user method
              captcha_0 captcha_1 pk sess store db)
    as [[Hnot Hdb]
       | (item & amount & timestamp & captcha_key & captcha_value
          & Hmethod & Hitem & Hstatus & Hend & Hmin & Hpending & Hage & Hkey & Hvalue
          & Hstore & Hstore' & Hdb & Hreply)].
  - split; [intros Hverified; contradiction|]. intros _.
    destruct Hdb as [-> | ->]; [auto|].
    destruct (fail_captcha_challenge_frame cfg now (User.id user) (Some pk) db)
      as (Hitems & Hbids & Hseq & _). auto.
  - assert (verified
              (fst (fst (verification.verify_captcha
                           cfg now ai_response user method captcha_0 captcha_1
                           pk sess store db)))) as Hverified.
    { destruct Hreply as [Hreply | [Hshow _]].
      - exists amount, []. exact Hreply.
      - destruct (Hsess pk); [congruence|exact Hshow]. }
    split; [|intros Hnot; contradiction]. intros _.
    set (bid := Bid.mk pk (User.id user) amount now false "web") in *.
    set (db2 := snd (Bid_save_new bid db)) in *.
    pose proof (pass_captcha_challenge_frame (User.id user) (Some pk) db2)
      as (_ & Hbids3 & _).
    set (db3 := snd (RapidBiddingDetector.pass_captcha_challenge _ _ db2)) in *.
    assert (bids db3 !! bid_seq db = Some bid) as Hsaved.
    { rewrite Hbids3. subst db2. simpl. apply lookup_insert_eq. }
    destruct (update_auction_state_effect pk item db3 (bid_seq db) bid Hsaved eq_refl)
      as (_ & (winning & Hbid) & _).
    exists item, amount, timestamp, captcha_key, captcha_value, winning.
    rewrite Hstore', Hdb, lookup_delete_eq.
    repeat (split; [first [reflexivity | assumption | now apply Htruthy]|]).
    exact Hbid.
Qed.

Lemma verify_captcha_places_verified_bids_only_witness :
  let outcome :=
    verification.verify_captcha
      Scenario.cfg Scenario.now None Scenario.alice views.POST
      (Some "k1"%string) (Some "XKCD"%string) 10 Cases.pending Cases.captchas
      Scenario.bidding_war in
  (verified (fst (fst outcome)) ->
   exists item amount timestamp captcha_key captcha_value winning,
     views.POST = views.POST
     /\ items Scenario.bidding_war !! 10 = Some item
     /\ Item.status item = Item.active /\ Scenario.now < Item.end_time item
     /\ Item.current_price item + Item.min_increment item <= amount
     /\ views.Session.pending_bid Cases.pending !! 10 = Some (amount, timestamp)
     /\ Scenario.now - timestamp <= timedelta_seconds 300
     /\ Some "k1"%string = Some captcha_key /\ Some "XKCD"%string = Some captcha_value
     /\ Cases.captchas !! captcha_key = Some (lower captcha_value)
     /\ snd (fst outcome) !! captcha_key = None
     /\ bids (snd outcome) !! bid_seq Scenario.bidding_war
        = Some (Bid.mk 10 (User.id Scenario.alice) amount Scenario.now winning "web"))
  /\ (~ verified (fst (fst outcome)) ->
      bids (snd outcome) = bids Scenario.bidding_war
      /\ items (snd outcome) = items Scenario.bidding_war
      /\ bid_seq (snd outcome) = bid_seq Scenario.bidding_war).
Proof.
  apply (verify_captcha_places_verified_bids_only
           Scenario.cfg Scenario.now None Scenario.alice views.POST
           (Some "k1"%string) (Some "XKCD"%string) 10 Cases.pending Cases.captchas
           Scenario.bidding_war).
  intros pk Hpending. unfold Cases.pending, stash in *. simpl in *.
  destruct (decide (pk = 10)) as [->|Hne].
  - rewrite lookup_insert_eq. discriminate.
  - rewrite lookup_insert_ne in Hpending by congruence.
    rewrite lookup_empty in Hpending. congruence.
Defined.

(** ** The WebSocket consumer *)

(** The rows of the settled auction. *)
Lemma settled_consistent : auction_consistent Cases.settled 10.
Proof.
  assert (forall k b, bids Cases.settled !! k = Some b ->
                      (k = 1 /\ b = Scenario.rapid_bid 1)
                      \/ (k = 2 /\ b = Bid.set_is_winning true (Scenario.rapid_bid 2)))
    as Hrows.
  { intros k b Hk. unfold Cases.settled in Hk. simpl in Hk.
    destruct (decide (k = 1)) as [->|H1].
    - rewrite lookup_insert_eq in Hk. left. split; congruence.
    - rewrite lookup_insert_ne in Hk by congruence.
      destruct (decide (k = 2)) as [->|H2].
      + rewrite lookup_insert_eq in Hk. right. split; congruence.
      + rewrite lookup_insert_ne in Hk by congruence. discriminate. }
  split.
  - intros k1 k2 b1 b2 Hk1 Hk2 _ _ Hw1 Hw2.
    destruct (Hrows k1 b1 Hk1) as [[-> ->]|[-> ->]];
      destruct (Hrows k2 b2 Hk2) as [[-> ->]|[-> ->]];
      vm_compute in Hw1, Hw2; congruence.
  - intros k b item Hk _ Hitem. vm_compute in Hitem. injection Hitem as <-.
    destruct (Hrows k b Hk) as [[-> ->]|[-> ->]]; vm_compute; discriminate.
Qed.

(** X18. [create_bid] answers with success only where the query is not
    locked, for an active auction that has not ended, a bidder other than
    the seller, and an amount that is no lower than the current price plus
    the minimum increment. Then the new bid is stored under the next key
    as the winning one, it is the only winning bid of the item, the item's
    price is the amount and its bid count one more, and the answer reports
    both. *)
Theorem create_bid_success has_select_for_update now user item_id bid_amount db data :
  fst (consumers.create_bid has_select_for_update now user item_id bid_amount db)
  = consumers.success data ->
  let db' :=
    snd (consumers.create_bid has_select_for_update now user item_id bid_amount db) in
  exists item,
    has_select_for_update = false
    /\ items db !! item_id = Some item
    /\ Item.status item = Item.active /\ now < Item.end_time item
    /\ Item.seller item <> User.id user
    /\ Item.current_price item + Item.min_increment item <= bid_amount
    /\ data = consumers.mkBidData (User.id user) bid_amount now
                                  (Item.bid_count item + 1) bid_amount
    /\ bids db' !! bid_seq db
       = Some (Bid.mk item_id (User.id user) bid_amount now true "websocket")
    /\ (forall k b, bids db' !! k = Some b -> Bid.item b = item_id ->
                    Bid.is_winning b = true -> k = bid_seq db)
    /\ items db' !! item_id
       = Some (Item.mk (Item.seller item) bid_amount (Item.min_increment item)
                       (Item.buy_now_price item) (Item.end_time item)
                       (Item.status item) (Item.bid_count item + 1)
                       (Item.created_at item) (Item.winner item))
    /\ (forall pk, pk <> item_id -> items db' !! pk = items db !! pk)
    /\ bid_seq db' = bid_seq db + 1.
Proof.
  unfold consumers.create_bid.
  destruct has_select_for_update; [discriminate|].
  destruct (items db !! item_id) as [item|] eqn:Hitem; [|discriminate].
  destruct (Item.status_eqb (Item.status item) Item.active) eqn:Hstatus; simpl negb;
    cbv iota; [|discriminate].
  destruct (Item.end_time item <=? now) eqn:Hend; [discriminate|].
  destruct (Item.seller item =? User.id user) eqn:Hseller; [discriminate|].
  destruct (bid_amount <? Item.current_price item + Item.min_increment item) eqn:Hmin;
    [discriminate|].
  unfold consumers.Bid_objects_create.
  cbn [fst snd Bid_save_new]. intros [= <-]. exists item.
  apply status_eqb_eq in Hstatus. apply Z.leb_gt in Hend. apply Z.eqb_neq in Hseller.
  apply Z.ltb_ge in Hmin.
  repeat (split; [first [reflexivity | assumption]|]).
  simpl. split; [apply lookup_insert_eq|]. split; [|split; [|split]].
  - intros k b Hk Hb Hwinning.
    destruct (decide (k = bid_seq db)) as [|Hne]; [assumption|].
    rewrite lookup_insert_ne, lookup_fmap in Hk by congruence.
    destruct (bids db !! k) as [b0|]; simpl in Hk; [|discriminate].
    injection Hk as <-.
    destruct (Bid.item b0 =? item_id) eqn:Hb0; simpl in *.
    + destruct (Bid.is_winning b0) eqn:Hw0; simpl in *; congruence.
    + apply Z.eqb_neq in Hb0. contradiction.
  - apply lookup_insert_eq.
  - intros pk Hne. now rewrite lookup_insert_ne by congruence.
  - reflexivity.
Qed.

Lemma create_bid_success_witness :
  let db' :=
    snd (consumers.create_bid false Scenario.now Scenario.bob 10 (UGX 550000)
                              Cases.settled) in
  exists item,
    false = false
    /\ items Cases.settled !! 10 = Some item
    /\ Item.status item = Item.active /\ Scenario.now < Item.end_time item
    /\ Item.seller item <> User.id Scenario.bob
    /\ Item.current_price item + Item.min_increment item <= UGX 550000
    /\ consumers.mkBidData 3 (UGX 550000) Scenario.now 3 (UGX 550000)
       = consumers.mkBidData (User.id Scenario.bob) (UGX 550000) Scenario.now
                             (Item.bid_count item + 1) (UGX 550000)
    /\ bids db' !! bid_seq Cases.settled
       = Some (Bid.mk 10 (User.id Scenario.bob) (UGX 550000) Scenario.now true
                      "websocket")
    /\ (forall k b, bids db' !! k = Some b -> Bid.item b = 10 ->
                    Bid.is_winning b = true -> k = bid_seq Cases.settled)
    /\ items db' !! 10
       = Some (Item.mk (Item.seller item) (UGX 550000) (Item.min_increment item)
                       (Item.buy_now_price item) (Item.end_time item)
                       (Item.status item) (Item.bid_count item + 1)
                       (Item.created_at item) (Item.winner item))
    /\ (forall pk, pk <> 10 -> items db' !! pk = items Cases.settled !! pk)
    /\ bid_seq db' = bid_seq Cases.settled + 1.
Proof.
  apply (create_bid_success false Scenario.now Scenario.bob 10 (UGX 550000)
                            Cases.settled
                            (consumers.mkBidData 3 (UGX 550000) Scenario.now 3
                                                 (UGX 550000))).
  vm_compute. reflexivity.
Defined.

(** X19. [create_bid] keeps every auction consistent, whatever it
    answers: where the bids of an item had at most one winner and none
    above the item's current price, they still have after the call. The
    item bid on must not have a negative minimum increment. *)
Theorem create_bid_keeps_auctions_consistent
    has_select_for_update now user item_id bid_amount db item_pk :
  (forall item, items db !! item_id = Some item -> 0 <= Item.min_increment item) ->
  auction_consistent db item_pk ->
  auction_consistent
    (snd (consumers.create_bid has_select_for_update now user item_id bid_amount db))
    item_pk.
Proof.
  intros Hincrement [Hone Hprice]. unfold consumers.create_bid.
  destruct has_select_for_update; [split; assumption|].
  destruct (items db !! item_id) as [item|] eqn:Hitem; [|split; assumption].
  specialize (Hincrement item eq_refl).
  destruct (negb (Item.status_eqb (Item.status item) Item.active));
    [split; assumption|].
  destruct (Item.end_time item <=? now).
  { split; [exact Hone|]. simpl. intros k b row Hk Hb Hrow.
    destruct (decide (item_pk = item_id)) as [->|Hne].
    - rewrite lookup_insert_eq in Hrow. injection Hrow as <-. simpl. eauto.
    - rewrite lookup_insert_ne in Hrow by congruence. eauto. }
  destruct (Item.seller item =? User.id user); [split; assumption|].
  destruct (bid_amount <? Item.current_price item + Item.min_increment item) eqn:Hmin;
    [split; assumption|].
  apply Z.ltb_ge in Hmin.
  set (reset := fun b : Bid.t =>
                  if (Bid.item b =? item_id) && Bid.is_winning b
                  then Bid.set_is_winning false b else b).
  assert (forall k b, (reset <$> bids db) !! k = Some b ->
                      exists b0, bids db !! k = Some b0 /\ Bid.item b = Bid.item b0
                                 /\ Bid.amount b = Bid.amount b0
                                 /\ (Bid.is_winning b = true ->
                                     Bid.is_winning b0 = true
                                     /\ Bid.item b0 <> item_id)) as Hreset.
  { intros k b Hk. rewrite lookup_fmap in Hk.
    destruct (bids db !! k) as [b0|]; simpl in Hk; [|discriminate].
    injection Hk as <-. exists b0. split; [reflexivity|]. unfold reset.
    destruct (Bid.item b0 =? item_id) eqn:Hb0; simpl.
    - destruct (Bid.is_winning b0) eqn:Hw0; simpl; repeat split; intros; congruence.
    - apply Z.eqb_neq in Hb0. auto. }
  assert (auction_consistent (set_bids (fmap reset) db) item_pk) as [Hone1 Hprice1].
  { split; simpl.
    - intros k1 k2 b1 b2 Hk1 Hk2 Hb1 Hb2 Hw1 Hw2.
      destruct (Hreset k1 b1 Hk1) as (b1' & Hk1' & Hi1 & _ & Hw1').
      destruct (Hreset k2 b2 Hk2) as (b2' & Hk2' & Hi2 & _ & Hw2').
      destruct (Hw1' Hw1), (Hw2' Hw2).
      apply (Hone k1 k2 b1' b2'); congruence.
    - intros k b row Hk Hb Hrow.
      destruct (Hreset k b Hk) as (b' & Hk' & Hi & Ha & _).
      rewrite Ha. apply (Hprice k b' row); congruence. }
  unfold consumers.Bid_objects_create.
  cbn [fst snd Bid_save_new]. split; simpl.
  - intros k1 k2 b1 b2 Hk1 Hk2 Hb1 Hb2 Hw1 Hw2.
    assert (forall k b, <[bid_seq db := Bid.mk item_id (User.id user) bid_amount now
                                               true "websocket"]>
                          (reset <$> bids db) !! k = Some b ->
                        Bid.item b = item_pk -> Bid.is_winning b = true ->
                        item_pk = item_id -> k = bid_seq db) as Hnew.
    { intros k b Hk Hb Hw ->.
      destruct (decide (k = bid_seq db)) as [|Hne]; [assumption|].
      rewrite lookup_insert_ne in Hk by congruence.
      destruct (Hreset k b Hk) as (b' & _ & Hi & _ & Hw').
      destruct (Hw' Hw). congruence. }
    destruct (decide (item_pk = item_id)) as [Heq|Hne].
    + rewrite (Hnew k1 b1 Hk1 Hb1 Hw1 Heq), (Hnew k2 b2 Hk2 Hb2 Hw2 Heq). reflexivity.
    + assert (forall k b, <[bid_seq db := Bid.mk item_id (User.id user) bid_amount now
                                                 true "websocket"]>
                            (reset <$> bids db) !! k = Some b ->
                          Bid.item b = item_pk ->
                          (reset <$> bids db) !! k = Some b) as Hold.
      { intros k b Hk Hb. destruct (decide (k = bid_seq db)) as [->|Hk'].
        - rewrite lookup_insert_eq in Hk. injection Hk as <-. simpl in Hb. congruence.
        - now rewrite lookup_insert_ne in Hk by congruence. }
      apply (Hone1 k1 k2 b1 b2); auto.
  - intros k b row Hk Hb Hrow.
    destruct (decide (item_pk = item_id)) as [->|Hne].
    + rewrite lookup_insert_eq in Hrow. injection Hrow as <-. simpl.
      destruct (decide (k = bid_seq db)) as [->|Hk'].
      * rewrite lookup_insert_eq in Hk. injection Hk as <-. simpl. lia.
      * rewrite lookup_insert_ne in Hk by congruence.
        pose proof (Hprice1 k b item Hk Hb Hitem). lia.
    + rewrite lookup_insert_ne in Hrow by congruence.
      destruct (decide (k = bid_seq db)) as [->|Hk'].
      * rewrite lookup_insert_eq in Hk. injection Hk as <-. simpl in Hb. congruence.
      * rewrite lookup_insert_ne in Hk by congruence.
        exact (Hprice1 k b row Hk Hb Hrow).
Qed.

Lemma create_bid_keeps_auctions_consistent_witness :
  auction_consistent
    (snd (consumers.create_bid false Scenario.now Scenario.bob 10 (UGX 550000)
                               Cases.settled))
    10.
Proof.
  apply (create_bid_keeps_auctions_consistent
           false Scenario.now Scenario.bob 10 (UGX 550000) Cases.settled 10).
  - intros item Hitem. vm_compute in Hitem. injection Hitem as <-.
    vm_compute. discriminate.
  - exact settled_consistent.
Defined.

(** X20. What a refused WebSocket bid can still write. [create_bid] runs
    outside of a transaction and saves the item whole: its answer 'Auction
    has ended' comes with the item's row overwritten by the instance it
    loaded, with the status expired. Every other refusal leaves the
    database as it was; each refusal names the first check that failed,
    in the order of the code. *)
Theorem create_bid_refusal_writes
    has_select_for_update now user item_id bid_amount db error :
  fst (consumers.create_bid has_select_for_update now user item_id bid_amount db)
  = consumers.failure error ->
  let db' :=
    snd (consumers.create_bid has_select_for_update now user item_id bid_amount db) in
  match error with
  | consumers.str consumers.TransactionManagementError =>
      has_select_for_update = true /\ db' = db
  | consumers.Item_not_found =>
      has_select_for_update = false /\ items db !! item_id = None /\ db' = db
  | consumers.Auction_is_not_active =>
      exists item,
        items db !! item_id = Some item /\ Item.status item <> Item.active
        /\ db' = db
  | consumers.Auction_has_ended =>
      exists item,
        items db !! item_id = Some item /\ Item.status item = Item.active
        /\ Item.end_time item <= now
        /\ db' = set_items
                   (insert item_id
                      (Item.mk (Item.seller item) (Item.current_price item)
                               (Item.min_increment item) (Item.buy_now_price item)
                               (Item.end_time item) Item.expired
                               (Item.bid_count item) (Item.created_at item)
                               (Item.winner item))) db
  | consumers.cannot_bid_on_own_item =>
      exists item,
        items db !! item_id = Some item /\ Item.status item = Item.active
        /\ now < Item.end_time item /\ Item.seller item = User.id user
        /\ db' = db
  | consumers.Bid_must_be_at_least min_bid =>
      exists item,
        items db !! item_id = Some item /\ Item.status item = Item.active
        /\ now < Item.end_time item /\ Item.seller item <> User.id user
        /\ min_bid = Item.current_price item + Item.min_increment item
        /\ bid_amount < min_bid
        /\ db' = db
  end.
Proof.
  unfold consumers.create_bid.
  destruct has_select_for_update; [intros [= <-]; split; reflexivity|].
  destruct (items db !! item_id) as [item|] eqn:Hitem;
    [|intros [= <-]; repeat split; reflexivity].
  destruct (Item.status_eqb (Item.status item) Item.active) eqn:Hstatus; simpl negb;
    cbv iota.
  2: { intros [= <-]. exists item. split; [reflexivity|]. split; [|reflexivity].
       intros Hactive. apply status_eqb_eq in Hactive. congruence. }
  apply status_eqb_eq in Hstatus.
  destruct (Item.end_time item <=? now) eqn:Hend.
  { intros [= <-]. exists item. apply Z.leb_le in Hend. auto. }
  apply Z.leb_gt in Hend.
  destruct (Item.seller item =? User.id user) eqn:Hseller.
  { intros [= <-]. exists item. apply Z.eqb_eq in Hseller. auto. }
  apply Z.eqb_neq in Hseller.
  destruct (bid_amount <? Item.current_price item + Item.min_increment item) eqn:Hmin.
  { intros [= <-]. exists item. apply Z.ltb_lt in Hmin. auto 10. }
  unfold consumers.Bid_objects_create. cbn [Bid_save_new fst]. discriminate.
Qed.

Lemma create_bid_refusal_writes_witness :
  let db' :=
    snd (consumers.create_bid false (timedelta_days 101) Scenario.bob 10 (UGX 550000)
                              Cases.settled) in
  exists item,
    items Cases.settled !! 10 = Some item /\ Item.status item = Item.active
    /\ Item.end_time item <= timedelta_days 101
    /\ db' = set_items
               (insert 10
                  (Item.mk (Item.seller item) (Item.current_price item)
                           (Item.min_increment item) (Item.buy_now_price item)
                           (Item.end_time item) Item.expired
                           (Item.bid_count item) (Item.created_at item)
                           (Item.winner item))) Cases.settled.
Proof.
  apply (create_bid_refusal_writes false (timedelta_days 101) Scenario.bob 10
                                   (UGX 550000) Cases.settled
                                   consumers.Auction_has_ended).
  vm_compute. reflexivity.
Defined.

(** X21. [create_bid] reads the item and bid tables only: its answer and
    what it does to the two tables are the same whatever the cooldowns,
    alerts and wallets are. No cooldown of the gate holds a bid back on
    this way in. *)
Theorem create_bid_ignores_the_gate
    has_select_for_update now user item_id bid_amount db1 db2 :
  items db2 = items db1 -> bids db2 = bids db1 -> bid_seq db2 = bid_seq db1 ->
  let outcome1 :=
    consumers.create_bid has_select_for_update now user item_id bid_amount db1 in
  let outcome2 :=
    consumers.create_bid has_select_for_update now user item_id bid_amount db2 in
  fst outcome2 = fst outcome1
  /\ items (snd outcome2) = items (snd outcome1)
  /\ bids (snd outcome2) = bids (snd outcome1)
  /\ bid_seq (snd outcome2) = bid_seq (snd outcome1)
  /\ cooldowns (snd outcome2) = cooldowns db2
  /\ alerts (snd outcome2) = alerts db2.
Proof.
  intros Hitems Hbids Hseq. unfold consumers.create_bid.
  destruct has_select_for_update; [simpl; auto 10|].
  rewrite Hitems.
  destruct (items db1 !! item_id) as [item|]; [|simpl; auto 10].
  destruct (negb (Item.status_eqb (Item.status item) Item.active)); [simpl; auto 10|].
  destruct (Item.end_time item <=? now).
  { simpl. rewrite Hitems. auto 10. }
  destruct (Item.seller item =? User.id user); [simpl; auto 10|].
  destruct (bid_amount <? Item.current_price item + Item.min_increment item);
    [simpl; auto 10|].
  unfold consumers.Bid_objects_create.
  simpl; rewrite ?Hitems, ?Hbids, ?Hseq; auto 10.
Qed.

Lemma create_bid_ignores_the_gate_witness :
  let outcome1 :=
    consumers.create_bid false Scenario.now Scenario.alice 10 (UGX 510000)
                         Scenario.fresh in
  let outcome2 :=
    consumers.create_bid false Scenario.now Scenario.alice 10 (UGX 510000)
                         Scenario.alice_cooling_down in
  fst outcome2 = fst outcome1
  /\ items (snd outcome2) = items (snd outcome1)
  /\ bids (snd outcome2) = bids (snd outcome1)
  /\ bid_seq (snd outcome2) = bid_seq (snd outcome1)
  /\ cooldowns (snd outcome2) = cooldowns Scenario.alice_cooling_down
  /\ alerts (snd outcome2) = alerts Scenario.alice_cooling_down.
Proof.
  apply (create_bid_ignores_the_gate false Scenario.now Scenario.alice 10 (UGX 510000)
                                     Scenario.fresh Scenario.alice_cooling_down);
    reflexivity.
Defined.

(** ** The time left *)

(** The parts Python's [timedelta] and [divmod] cut a positive or negative
    span into. *)
Lemma timedelta_parts delta :
  let hours := fst (divmod (seconds delta) 3600) in
  let minutes := fst (divmod (snd (divmod (seconds delta) 3600)) 60) in
  let secs := snd (divmod (snd (divmod (seconds delta) 3600)) 60) in
  0 <= hours < 24 /\ 0 <= minutes < 60 /\ 0 <= secs < 60
  /\ timedelta_days (days delta) + timedelta_hours hours + timedelta_minutes minutes
     + timedelta_seconds secs
     <= delta
     < timedelta_days (days delta) + timedelta_hours hours + timedelta_minutes minutes
       + timedelta_seconds secs + timedelta_seconds 1.
Proof.
  unfold divmod, seconds, days, timedelta_days, timedelta_hours, timedelta_minutes,
    timedelta_seconds, microseconds_per_second. simpl fst. simpl snd.
  change (1 * 24 * 60 * 60 * 1000000) with 86400000000.
  pose proof (Z.div_mod delta 86400000000 ltac:(lia)) as Hdays.
  pose proof (Z.mod_pos_bound delta 86400000000 ltac:(lia)) as Hday.
  set (day := delta mod 86400000000) in *.
  pose proof (Z.div_mod day 1000000 ltac:(lia)) as Hsecs.
  pose proof (Z.mod_pos_bound day 1000000 ltac:(lia)) as Hmicro.
  set (s := day / 1000000) in *.
  pose proof (Z.div_mod s 3600 ltac:(lia)) as Hhours.
  pose proof (Z.mod_pos_bound s 3600 ltac:(lia)) as Hrest.
  set (r := s mod 3600) in *.
  pose proof (Z.div_mod r 60 ltac:(lia)) as Hminutes.
  pose proof (Z.mod_pos_bound r 60 ltac:(lia)) as Hsec.
  lia.
Qed.

(** X22. [Item.time_remaining] answers None exactly for an item that is
    not active and "Ended" exactly for an active one whose end is not in
    the future: every other text comes with an end that is still ahead,
    also "0m 0s", shown in the last second. The text, read back, is a span
    that holds the time left: whole hours after the days, whole minutes after the hours
    (less than a day left), whole seconds after the minutes (less than an
    hour left), every number within the range of its unit. *)
Theorem time_remaining_shows_the_time_left now item :
  match ItemMethods.time_remaining now item with
  | None => Item.status item <> Item.active
  | Some Ended => Item.status item = Item.active /\ Item.end_time item <= now
  | Some text =>
      Item.status item = Item.active
      /\ now < Item.end_time item
      /\ in_range text
      /\ (forall s, text <> seconds_only s)
      /\ exists start length,
          shown_span text = Some (start, length)
          /\ start <= Item.end_time item - now < start + length
  end.
Proof.
  unfold ItemMethods.time_remaining.
  destruct (Item.status_eqb (Item.status item) Item.active) eqn:Hstatus; simpl negb;
    cbv iota.
  2: { intros Hactive. apply status_eqb_eq in Hactive. congruence. }
  apply status_eqb_eq in Hstatus.
  destruct (Item.end_time item - now <=? 0) eqn:Hleft; [split; [assumption|lia]|].
  apply Z.leb_gt in Hleft.
  pose proof (timedelta_parts (Item.end_time item - now)) as Hparts.
  cbv zeta in Hparts.
  destruct (divmod (seconds (Item.end_time item - now)) 3600) as [hours remainder].
  cbn [fst snd] in Hparts.
  destruct (divmod remainder 60) as [minutes secs].
  cbn [fst snd] in Hparts. destruct Hparts as (Hhours & Hminutes & Hsecs & Hspan).
  assert (0 <= days (Item.end_time item - now)) as Hdays.
  { unfold days. apply Z.div_pos; [lia|reflexivity]. }
  unfold timedelta_days, timedelta_hours, timedelta_minutes, timedelta_seconds,
    microseconds_per_second in *.
  destruct (0 <? days (Item.end_time item - now)) eqn:Hd;
    [|destruct (0 <? hours) eqn:Hh];
    (split; [assumption|]); (split; [lia|]); simpl;
    (split; [lia|]); (split; [discriminate|]); eexists _, _; (split; [reflexivity|]);
    unfold timedelta_days, timedelta_hours, timedelta_minutes, timedelta_seconds,
      microseconds_per_second; lia.
Qed.

(** X23. The consumer's [get_time_remaining] answers "Ended" exactly when
    the end is not after its first reading of the clock. Had both readings
    the same value, its text holds the time left as that of
    [Item.time_remaining] does, with a form of its own for less than a
    minute. But the difference is taken from a second reading: for an
    auction that ends between the two, by up to 23 hours, the text shows
    hours and minutes left, one hour or more. *)
Theorem get_time_remaining_reads_the_clock_twice now now' item :
  (consumers.get_time_remaining now now' item = Ended <-> Item.end_time item <= now)
  /\ (now < Item.end_time item ->
      let text := consumers.get_time_remaining now now item in
      in_range text
      /\ exists start length,
          shown_span text = Some (start, length)
          /\ start <= Item.end_time item - now < start + length)
  /\ (now < Item.end_time item < now' ->
      now' - Item.end_time item <= timedelta_hours 23 ->
      exists h m,
        consumers.get_time_remaining now now' item = hours_minutes h m /\ 1 <= h).
Proof.
  unfold consumers.get_time_remaining. split; [|split].
  - destruct (Item.end_time item <=? now) eqn:Hend.
    + apply Z.leb_le in Hend. tauto.
    + apply Z.leb_gt in Hend.
      destruct (divmod (seconds (Item.end_time item - now')) 3600) as [hours remainder].
      destruct (divmod remainder 60) as [minutes secs].
      split; [|lia]. repeat case_match; discriminate.
  - intros Hend. replace (Item.end_time item <=? now) with false by lia.
    pose proof (timedelta_parts (Item.end_time item - now)) as Hparts.
    cbv zeta in Hparts.
    destruct (divmod (seconds (Item.end_time item - now)) 3600) as [hours remainder].
    cbn [fst snd] in Hparts.
    destruct (divmod remainder 60) as [minutes secs].
    cbn [fst snd] in Hparts. destruct Hparts as (Hhours & Hminutes & Hsecs & Hspan).
    assert (0 <= days (Item.end_time item - now)) as Hdays.
    { unfold days. apply Z.div_pos; [lia|reflexivity]. }
    unfold timedelta_days, timedelta_hours, timedelta_minutes, timedelta_seconds,
      microseconds_per_second in *.
    cbv zeta.
    destruct (0 <? days (Item.end_time item - now)) eqn:Hd;
      [|destruct (0 <? hours) eqn:Hh; [|destruct (0 <? minutes) eqn:Hm]];
      simpl; (split; [lia|]); eexists _, _; (split; [reflexivity|]);
      unfold timedelta_days, timedelta_hours, timedelta_minutes, timedelta_seconds,
        microseconds_per_second; lia.
  - intros Hend Hlate. replace (Item.end_time item <=? now) with false by lia.
    pose proof (timedelta_parts (Item.end_time item - now')) as Hparts.
    cbv zeta in Hparts.
    destruct (divmod (seconds (Item.end_time item - now')) 3600) as [hours remainder].
    cbn [fst snd] in Hparts.
    destruct (divmod remainder 60) as [minutes secs].
    cbn [fst snd] in Hparts. destruct Hparts as (Hhours & Hminutes & Hsecs & Hspan).
    assert (days (Item.end_time item - now') = -1) as Hdays.
    { unfold days, timedelta_days, timedelta_hours, timedelta_minutes,
        timedelta_seconds, microseconds_per_second in *.
      symmetry. apply (Z.div_unique _ _ _ (Item.end_time item - now' + 86400000000));
        lia. }
    rewrite Hdays in *.
    unfold timedelta_days, timedelta_hours, timedelta_minutes, timedelta_seconds,
      microseconds_per_second in *.
    exists hours, minutes. replace (0 <? -1) with false by reflexivity.
    replace (0 <? hours) with true by lia. split; [reflexivity|lia].
Qed.

(** X24. [Item.is_ending_soon] holds for an active item with at most an
    hour left, so its time left reads as minutes and seconds, or as "1h
    0m" at the full hour. It follows from the gate's [_is_auction_endgame]
    when the endgame window is at most 60 minutes and implies it when the
    window is at least 60 minutes. [Item.is_recently_added] holds until
    seven days after the creation. *)
Theorem is_ending_soon_within_the_hour cfg now item :
  (ItemMethods.is_ending_soon now item = true <->
   Item.status item = Item.active
   /\ 0 < Item.end_time item - now <= timedelta_hours 1)
  /\ (ItemMethods.is_ending_soon now item = true ->
      (exists m s, ItemMethods.time_remaining now item = Some (minutes_seconds m s))
      \/ (Item.end_time item - now = timedelta_hours 1
          /\ ItemMethods.time_remaining now item = Some (hours_minutes 1 0)))
  /\ (Settings.AUCTION_ENDGAME_WINDOW_MINUTES cfg <= 60 ->
      RapidBiddingDetector._is_auction_endgame cfg now item = true ->
      ItemMethods.is_ending_soon now item = true)
  /\ (60 <= Settings.AUCTION_ENDGAME_WINDOW_MINUTES cfg ->
      ItemMethods.is_ending_soon now item = true ->
      RapidBiddingDetector._is_auction_endgame cfg now item = true)
  /\ (ItemMethods.is_recently_added now item = true <->
      now < Item.created_at item + timedelta_days 7).
Proof.
  assert (ItemMethods.is_ending_soon now item = true <->
          Item.status item = Item.active
          /\ 0 < Item.end_time item - now <= timedelta_hours 1) as Hsoon.
  { unfold ItemMethods.is_ending_soon, timedelta_hours, timedelta_minutes,
      timedelta_seconds, microseconds_per_second.
    destruct (Item.status_eqb (Item.status item) Item.active) eqn:Hstatus; simpl negb;
      cbv iota.
    - apply status_eqb_eq in Hstatus. rewrite andb_true_iff. split.
      + intros [H1 H2]. split; [assumption|lia].
      + intros [_ H]. split; lia.
    - split; [discriminate|]. intros [Hactive _].
      apply status_eqb_eq in Hactive. congruence. }
  split; [exact Hsoon|]. split; [|split; [|split]].
  - intros Htrue. apply Hsoon in Htrue as [Hstatus Hleft].
    unfold ItemMethods.time_remaining.
    apply status_eqb_eq in Hstatus. rewrite Hstatus. simpl negb. cbv iota.
    replace (Item.end_time item - now <=? 0) with false by lia.
    pose proof (timedelta_parts (Item.end_time item - now)) as Hparts.
    cbv zeta in Hparts.
    destruct (divmod (seconds (Item.end_time item - now)) 3600) as [hours remainder].
    cbn [fst snd] in Hparts.
    destruct (divmod remainder 60) as [minutes secs].
    cbn [fst snd] in Hparts. destruct Hparts as (Hhours & Hminutes & Hsecs & Hspan).
    assert (0 <= days (Item.end_time item - now)) as Hdays.
    { unfold days. apply Z.div_pos; [lia|reflexivity]. }
    unfold timedelta_days, timedelta_hours, timedelta_minutes, timedelta_seconds,
      microseconds_per_second in *.
    replace (0 <? days (Item.end_time item - now)) with false by lia.
    destruct (0 <? hours) eqn:Hh.
    + right. assert (hours = 1) as -> by lia. assert (minutes = 0) as -> by lia.
      split; [lia|reflexivity].
    + left. eauto.
  - intros Hwindow. unfold RapidBiddingDetector._is_auction_endgame.
    intros Hendgame. apply Hsoon.
    destruct (Item.status_eqb (Item.status item) Item.active) eqn:Hstatus;
      simpl negb in Hendgame; cbv iota in Hendgame; [|discriminate].
    apply status_eqb_eq in Hstatus. apply andb_true_iff in Hendgame as [H1 H2].
    unfold timedelta_hours, timedelta_minutes, timedelta_seconds,
      microseconds_per_second in *.
    split; [assumption|lia].
  - intros Hwindow Htrue. apply Hsoon in Htrue as [Hstatus Hleft].
    apply _is_auction_endgame_true; [assumption|].
    unfold timedelta_hours, timedelta_minutes, timedelta_seconds,
      microseconds_per_second in *. lia.
  - unfold ItemMethods.is_recently_added, days, timedelta_days, timedelta_hours,
      timedelta_minutes, timedelta_seconds, microseconds_per_second.
    change (1 * 24 * 60 * 60 * 1000000) with 86400000000.
    rewrite Z.ltb_lt.
    pose proof (Z.div_mod (now - Item.created_at item) 86400000000 ltac:(lia)).
    pose proof (Z.mod_pos_bound (now - Item.created_at item) 86400000000 ltac:(lia)).
    lia.
Qed.

(** ** The rate limit of the WebSocket *)

(** Within a window that is open, the limiter counts: the message is
    allowed while the count stays at ten or less. *)
Lemma check_websocket_rate_limit_counts now user cache count reset expires :
  cache !! User.id user = Some (consumers.mkRateData count reset, expires) ->
  reset <= expires -> reset - timedelta_seconds 60 <= now < reset ->
  consumers.check_websocket_rate_limit now (Some user) cache
  = (count + 1 <=? 10,
     <[User.id user := (consumers.mkRateData (count + 1) reset,
                        now + timedelta_seconds 60)]> cache).
Proof.
  intros Hentry Hlive Hnow.
  unfold consumers.check_websocket_rate_limit, consumers.cache_get, consumers.cache_set.
  rewrite Hentry. replace (now <? expires) with true by lia. simpl.
  replace (reset <=? now) with false by lia.
  destruct (10 <? count + 1) eqn:Hmax.
  - replace (count + 1 <=? 10) with false by lia. reflexivity.
  - replace (count + 1 <=? 10) with true by lia. reflexivity.
Qed.

Lemma receive_all_counts times user : forall cache count reset expires,
  cache !! User.id user = Some (consumers.mkRateData count reset, expires) ->
  reset <= expires ->
  Forall (fun now => reset - timedelta_seconds 60 <= now < reset) times ->
  fst (consumers.receive_all times (Some user) cache)
  = map (fun j => count + Z.of_nat j + 1 <=? 10) (seq 0 (length times))
  /\ exists count' expires',
      snd (consumers.receive_all times (Some user) cache) !! User.id user
      = Some (consumers.mkRateData count' reset, expires').
Proof.
  induction times as [|now times IH]; intros cache count reset expires Hentry Hlive Hin.
  - simpl. eauto.
  - apply Forall_cons in Hin as [Hnow Hin].
    cbn [consumers.receive_all].
    rewrite (check_websocket_rate_limit_counts now user cache count reset expires)
      by assumption.
    destruct (IH (<[User.id user := (consumers.mkRateData (count + 1) reset,
                                    now + timedelta_seconds 60)]> cache)
                 (count + 1) reset (now + timedelta_seconds 60))
      as [Hanswers Hcache]; [apply lookup_insert_eq|lia|assumption|].
    destruct (consumers.receive_all times (Some user) _) as [answers cache'].
    simpl in *. split; [|exact Hcache].
    rewrite Hanswers, Z.add_0_r. f_equal.
    rewrite <- seq_shift, map_map. apply map_ext. intros j. f_equal. lia.
Qed.

(** X25. [check_websocket_rate_limit] allows ten messages per window. For
    a user without a live cache entry, of the messages that arrive within
    sixty seconds of the first exactly the first ten are allowed; the
    first message from sixty seconds on is allowed again. A connection
    that is not authenticated is never limited. *)
Theorem websocket_rate_limit_allows_ten_per_window first_time times user cache :
  (forall data expires,
      cache !! User.id user = Some (data, expires) -> expires <= first_time) ->
  Forall (fun now => first_time <= now < first_time + timedelta_seconds 60) times ->
  let outcome := consumers.receive_all (first_time :: times) (Some user) cache in
  fst outcome = map (fun i => (i <? 10)%nat) (seq 0 (S (length times)))
  /\ (forall now, first_time + timedelta_seconds 60 <= now ->
                  fst (consumers.check_websocket_rate_limit now (Some user)
                                                            (snd outcome)) = true)
  /\ fst (consumers.receive_all (first_time :: times) None cache)
     = map (fun _ => true) (first_time :: times).
Proof.
  intros Hexpired Hin outcome. subst outcome.
  assert (forall l cache0, fst (consumers.receive_all l None cache0)
                           = map (fun _ => true) l) as Hanonymous.
  { induction l as [|now l IH]; intros cache0; [reflexivity|].
    cbn [consumers.receive_all consumers.check_websocket_rate_limit].
    specialize (IH cache0). destruct (consumers.receive_all l None cache0).
    simpl in *. now rewrite IH. }
  set (reset := first_time + timedelta_seconds 60).
  set (cache1 := <[User.id user := (consumers.mkRateData 1 reset, reset)]> cache).
  assert (0 < timedelta_seconds 60) as Hwindow by reflexivity.
  assert (consumers.check_websocket_rate_limit first_time (Some user) cache
          = (true, cache1)) as Hfirst.
  { unfold consumers.check_websocket_rate_limit, consumers.cache_get, consumers.cache_set.
    fold reset.
    destruct (cache !! User.id user) as [[data expires]|] eqn:Hentry.
    - pose proof (Hexpired data expires eq_refl).
      replace (first_time <? expires) with false by lia. simpl.
      replace (reset <=? first_time) with false by (subst reset; lia).
      reflexivity.
    - simpl. replace (reset <=? first_time) with false by (subst reset; lia).
      reflexivity. }
  destruct (receive_all_counts times user cache1 1 reset reset)
    as [Hanswers (count' & expires' & Hcache)].
  { apply lookup_insert_eq. }
  { lia. }
  { eapply Forall_impl; [exact Hin|]. simpl. intros now Hnow. subst reset. lia. }
  assert (consumers.receive_all (first_time :: times) (Some user) cache
          = (true :: fst (consumers.receive_all times (Some user) cache1),
             snd (consumers.receive_all times (Some user) cache1))) as Hall.
  { cbn [consumers.receive_all]. rewrite Hfirst.
    destruct (consumers.receive_all times (Some user) cache1). reflexivity. }
  rewrite Hall. cbn [fst snd]. split; [|split; [|apply Hanonymous]].
  - rewrite Hanswers. cbn [seq map]. f_equal.
    rewrite <- seq_shift, map_map. apply map_ext_in. intros j _.
    destruct (Nat.ltb_spec (S j) 10); lia.
  - intros now Hnow.
    unfold consumers.check_websocket_rate_limit, consumers.cache_get.
    rewrite Hcache.
    destruct (now <? expires'); simpl.
    + replace (reset <=? now) with true by lia. reflexivity.
    + replace (now + timedelta_seconds 60 <=? now) with false by lia. reflexivity.
Qed.

Lemma websocket_rate_limit_allows_ten_per_window_witness :
  let times := map (fun k => Scenario.now + timedelta_seconds k) (seqZ 1 11) in
  let outcome :=
    consumers.receive_all (Scenario.now :: times) (Some Scenario.alice) ∅ in
  fst outcome = map (fun i => (i <? 10)%nat) (seq 0 (S (length times)))
  /\ (forall now, Scenario.now + timedelta_seconds 60 <= now ->
                  fst (consumers.check_websocket_rate_limit now (Some Scenario.alice)
                                                            (snd outcome)) = true)
  /\ fst (consumers.receive_all (Scenario.now :: times) None ∅)
     = map (fun _ => true) (Scenario.now :: times).
Proof.
  apply (websocket_rate_limit_allows_ten_per_window
           Scenario.now (map (fun k => Scenario.now + timedelta_seconds k) (seqZ 1 11))
           Scenario.alice ∅).
  - intros data expires Hentry. rewrite lookup_empty in Hentry. discriminate.
  - apply List.Forall_forall. intros now Hnow.
    apply in_map_iff in Hnow as (k & <- & Hk).
    apply list_elem_of_In, elem_of_seqZ in Hk.
    unfold timedelta_seconds, microseconds_per_second. lia.
Defined.

(** ** The status of an item *)

Lemma save_status_sets_status item_id new_status db item :
  items db !! item_id = Some item ->
  status_set db (status_views.save_status item_id new_status db) item_id new_status.
Proof.
  intros Hitem. exists item. unfold status_views.save_status. simpl.
  rewrite lookup_alter_eq, Hitem. repeat split.
  intros pk Hne. apply lookup_alter_ne. congruence.
Qed.

Lemma valid_status_spec valid_statuses posted status :
  status_views.valid_status valid_statuses posted = Some status ->
  exists text, posted = Some text /\ In text valid_statuses
               /\ status_views.status_of text = Some status.
Proof.
  unfold status_views.valid_status. destruct posted as [text|]; [|discriminate].
  destruct (existsb (String.eqb text) valid_statuses) eqn:Hin; [|discriminate].
  intros Hstatus. exists text. split; [reflexivity|]. split; [|exact Hstatus].
  apply existsb_exists in Hin as (text' & Hin & Heq).
  apply String.eqb_eq in Heq. now subst text'.
Qed.

(** X26. The two views that change the status of an item change nothing
    else: the price, the end, the bid count and the winner of the item
    stay, and so does every other row. [change_item_status] does so for
    the item's seller only and sets one of active, private, off_sale and
    sold, never expired or cancelled; for an item of another seller it
    answers with the 404 of a missing item. [admin_change_item_status]
    does so for a superuser only, with any of the six statuses; a request
    of anyone else is redirected by [admin_required]. Every answer of
    either view other than success (the 400, 404 and 405 answers and the
    redirects) leaves the database as it was. *)
Theorem status_views_set_the_status_only
    user requester method posted_status item_id db :
  (let response :=
     fst (status_views.change_item_status user method posted_status item_id db) in
   let db' :=
     snd (status_views.change_item_status user method posted_status item_id db) in
   (forall new_status,
       response = status_views.json_success new_status ->
       method = views.POST
       /\ (exists item, items db !! item_id = Some item
                        /\ Item.seller item = User.id user)
       /\ (exists text, posted_status = Some text
                        /\ status_views.status_of text = Some new_status)
       /\ In new_status [Item.active; Item.private; Item.off_sale; Item.sold]
       /\ status_set db db' item_id new_status)
   /\ (forall status error,
          response = status_views.json_failure status error -> db' = db)
   /\ (method = views.POST ->
       (forall item, items db !! item_id = Some item ->
                     Item.seller item <> User.id user) ->
       response
       = status_views.json_failure 404 status_views.Item_not_found_or_no_permission))
  /\ (let response :=
        fst (status_views.admin_change_item_status requester method posted_status
                                                   item_id db) in
      let db' :=
        snd (status_views.admin_change_item_status requester method posted_status
                                                   item_id db) in
      (db' <> db \/ (exists r, response = status_views.json r)
       \/ response = status_views.HttpResponseNotAllowed ->
       exists admin, requester = Some admin /\ User.is_superuser admin = true)
      /\ (requester = None -> response = status_views.redirect_login)
      /\ ((forall new_status,
              response <> status_views.json (status_views.json_success new_status)) ->
          db' = db)
      /\ (forall new_status,
             response = status_views.json (status_views.json_success new_status) ->
             method = views.POST
             /\ (exists text, posted_status = Some text
                              /\ status_views.status_of text = Some new_status)
             /\ status_set db db' item_id new_status)
      /\ (forall admin item new_status text,
             requester = Some admin -> User.is_superuser admin = true ->
             items db !! item_id = Some item ->
             status_views.status_of text = Some new_status ->
             status_views.admin_change_item_status requester views.POST (Some text)
                                                   item_id db
             = (status_views.json (status_views.json_success new_status),
                status_views.save_status item_id new_status db))).
Proof.
  split.
  { cbv zeta.
      unfold status_views.change_item_status.
      destruct method.
      { cbn [fst snd]. split; [discriminate|]. split; [reflexivity|discriminate]. }
      destruct (items db !! item_id) as [item|] eqn:Hitem.
      2: { cbn [fst snd]. split; [discriminate|]. split; reflexivity. }
      destruct (Item.seller item =? User.id user) eqn:Hseller.
      2: { cbn [fst snd]. split; [discriminate|]. split; reflexivity. }
      apply Z.eqb_eq in Hseller.
      destruct (status_views.valid_status _ posted_status) as [new_status|] eqn:Hvalid.
      - cbn [fst snd]. split; [|split; [discriminate|]].
        + intros s [= <-].
          apply valid_status_spec in Hvalid as (text & Hposted & Hin & Hstatus).
          split; [reflexivity|]. split; [eauto|]. split; [eauto|].
          split; [|exact (save_status_sets_status _ _ _ item Hitem)].
          simpl in Hin.
          destruct Hin as [<- | [<- | [<- | [<- | []]]]];
            vm_compute in Hstatus; injection Hstatus as <-; simpl; auto.
        + intros _ Hother. destruct (Hother item eq_refl Hseller).
      - cbn [fst snd]. split; [discriminate|]. split; [reflexivity|].
        intros _ Hother. destruct (Hother item eq_refl Hseller). }
  { cbv zeta.
      unfold status_views.admin_change_item_status, status_views.admin_required.
      split; [|split; [|split; [|split]]].
      - destruct requester as [admin|]; cbn [fst snd].
        + destruct (User.is_superuser admin) eqn:Hsuper; simpl negb; cbv iota; [eauto|].
          cbn [fst snd]. intros [Hdb | [[r Hr] | Hr]]; congruence.
        + intros [Hdb | [[r Hr] | Hr]]; congruence.
      - intros ->. reflexivity.
      - destruct requester as [admin|]; [|reflexivity].
        destruct (negb (User.is_superuser admin)); [reflexivity|].
        destruct method; [reflexivity|].
        destruct (items db !! item_id) as [item|]; [|reflexivity].
        destruct (status_views.valid_status _ posted_status) as [status|];
          [|reflexivity].
        cbn [fst snd]. intros Hnot. destruct (Hnot status eq_refl).
      - destruct requester as [admin|]; [|discriminate].
        destruct (negb (User.is_superuser admin)); [discriminate|].
        destruct method; [discriminate|].
        destruct (items db !! item_id) as [item|] eqn:Hitem; [|discriminate].
        destruct (status_views.valid_status _ posted_status) as [status|] eqn:Hvalid;
          [|discriminate].
        cbn [fst snd]. intros new_status [= <-].
        apply valid_status_spec in Hvalid as (text & Hposted & _ & Hstatus).
        split; [reflexivity|]. split; [eauto|]. exact (save_status_sets_status _ _ _ item Hitem).
      - intros admin item new_status text -> Hsuper Hitem Hstatus.
        rewrite Hsuper, Hitem. simpl negb. cbv iota.
        unfold status_views.valid_status.
        assert (existsb (String.eqb text)
                        ["active"; "private"; "off_sale"; "sold"; "expired";
                         "cancelled"]%string = true) as ->.
        { unfold status_views.status_of in Hstatus. simpl.
          repeat (destruct (String.eqb text _);
                  [rewrite ?orb_true_r; reflexivity|]).
          discriminate. }
        now rewrite Hstatus. }
Qed.

(** ** Listing an item *)

Lemma clean_field_no_error field clean value :
  SellItemForm.clean_field field clean = ([], value) ->
  exists checked, field = inr checked /\ clean checked = inr value.
Proof.
  unfold SellItemForm.clean_field. destruct field as [e|checked]; [discriminate|].
  destruct (clean checked) as [e|cleaned] eqn:Hclean; [discriminate|].
  intros [= <-]. eauto.
Qed.

(** A valid form: what was posted and what [cleaned_data] holds. *)
Lemma is_valid_cleaned data :
  SellItemForm.is_valid data = true ->
  exists starting increment duration,
    SellItemForm.starting_price data = SellItemForm.number starting
    /\ SellItemForm.min_increment data = SellItemForm.number increment
    /\ SellItemForm.duration_minutes data = SellItemForm.number duration
    /\ 0 < starting < 10 ^ 12 /\ 0 < increment < 10 ^ 12 /\ 10 <= duration
    /\ SellItemForm.rest_is_valid data = true
    /\ exists buy_now,
        snd (SellItemForm.full_clean data)
        = SellItemForm.mkCleanedData (Some starting) (Some increment) buy_now
                                     (Some duration)
        /\ match buy_now with
           | None => SellItemForm.buy_now_price data = SellItemForm.blank
           | Some b => SellItemForm.buy_now_price data = SellItemForm.number b
                       /\ starting <= b < 10 ^ 12
           end.
Proof.
  unfold SellItemForm.is_valid, SellItemForm.full_clean.
  destruct (SellItemForm.clean_field
              (SellItemForm.decimal_field true (SellItemForm.starting_price data))
              SellItemForm.clean_starting_price) as [e1 starting] eqn:H1.
  destruct (SellItemForm.clean_field
              (SellItemForm.decimal_field true (SellItemForm.min_increment data))
              SellItemForm.clean_min_increment) as [e2 increment] eqn:H2.
  destruct (SellItemForm.clean_field
              (SellItemForm.decimal_field false (SellItemForm.buy_now_price data))
              (fun b => SellItemForm.clean_buy_now_price b starting))
    as [e3 buy_now] eqn:H3.
  destruct (SellItemForm.clean_field
              (SellItemForm.duration_field (SellItemForm.duration_minutes data)) inr)
    as [e4 duration] eqn:H4.
  cbn [fst snd].
  destruct (e1 ++ e2 ++ e3 ++ e4) eqn:Herrors; [|discriminate].
  apply app_eq_nil in Herrors as [-> Herrors].
  apply app_eq_nil in Herrors as [-> Herrors].
  apply app_eq_nil in Herrors as [-> ->].
  intros Hrest.
  apply clean_field_no_error in H1 as (c1 & Hf1 & Hc1).
  apply clean_field_no_error in H2 as (c2 & Hf2 & Hc2).
  apply clean_field_no_error in H3 as (c3 & Hf3 & Hc3).
  apply clean_field_no_error in H4 as (c4 & Hf4 & Hc4).
  unfold SellItemForm.decimal_field, SellItemForm.duration_field in *.
  destruct (SellItemForm.starting_price data) as [| |v1]; try discriminate.
  destruct (Z.abs v1 <? 10 ^ 12) eqn:Hd1; [|discriminate].
  injection Hf1 as <-. unfold SellItemForm.clean_starting_price in Hc1.
  destruct (v1 <=? 0) eqn:Hp1; [discriminate|]. injection Hc1 as <-.
  destruct (SellItemForm.min_increment data) as [| |v2]; try discriminate.
  destruct (Z.abs v2 <? 10 ^ 12) eqn:Hd2; [|discriminate].
  injection Hf2 as <-. unfold SellItemForm.clean_min_increment in Hc2.
  destruct (v2 <=? 0) eqn:Hp2; [discriminate|]. injection Hc2 as <-.
  destruct (SellItemForm.duration_minutes data) as [| |v4]; try discriminate.
  destruct (v4 <? 10) eqn:Hd4; [discriminate|].
  injection Hf4 as <-. injection Hc4 as <-.
  exists v1, v2, v4.
  repeat (split; [first [reflexivity | assumption | lia]|]).
  exists buy_now. split; [reflexivity|].
  unfold SellItemForm.clean_buy_now_price in Hc3.
  destruct (SellItemForm.buy_now_price data) as [| |v3]; try discriminate.
  - injection Hf3 as <-. injection Hc3 as <-. reflexivity.
  - destruct (Z.abs v3 <? 10 ^ 12) eqn:Hd3; [|discriminate].
    injection Hf3 as <-.
    destruct (v3 <=? 0) eqn:Hp3; [discriminate|].
    destruct (negb (v1 =? 0) && (v3 <? v1)) eqn:Hlow; [discriminate|].
    injection Hc3 as <-. split; [reflexivity|].
    apply andb_false_iff in Hlow as [Hzero | Hlow]; [|lia].
    apply negb_false_iff in Hzero. lia.
Qed.

(** X27. [sell_item] lists an item only for an approved seller who posts a
    valid form, and every item it lists is a well-formed auction: it is
    the user's, active, without bids or winner, created now and ending
    after the posted duration of ten minutes or more; its current price
    is the posted starting price, which is positive; its minimum increment
    is positive; and its Buy Now price, if there is one, is no lower than
    the starting price. The row gets the next key of the sequence; no
    other row changes. A request that lists nothing changes nothing. *)
Theorem sell_item_lists_well_formed_auctions
    datetime_max now user profile method data item_seq db :
  let outcome :=
    listing.sell_item datetime_max now user profile method data item_seq db in
  let response := fst (fst outcome) in
  let item_seq' := snd (fst outcome) in
  let db' := snd outcome in
  (response = listing.redirect_home ->
   listing.is_seller profile = true
   /\ listing.seller_status profile = listing.approved
   /\ method = views.POST
   /\ exists starting increment duration buy_now,
       SellItemForm.starting_price data = SellItemForm.number starting
       /\ SellItemForm.min_increment data = SellItemForm.number increment
       /\ SellItemForm.duration_minutes data = SellItemForm.number duration
       /\ 0 < starting /\ 0 < increment /\ 10 <= duration
       /\ now + timedelta_minutes duration <= datetime_max
       /\ match buy_now with
          | None => SellItemForm.buy_now_price data = SellItemForm.blank
          | Some b => SellItemForm.buy_now_price data = SellItemForm.number b
                      /\ starting <= b
          end
       /\ items db' !! item_seq
          = Some (Item.mk (User.id user) starting increment buy_now
                          (now + timedelta_minutes duration) Item.active 0 now None)
       /\ (forall pk, pk <> item_seq -> items db' !! pk = items db !! pk)
       /\ only_cooldowns_differ (set_items (fun _ => items db') db) db'
       /\ cooldowns db' = cooldowns db
       /\ item_seq' = item_seq + 1)
  /\ (response <> listing.redirect_home -> db' = db /\ item_seq' = item_seq).
Proof.
  cbv zeta. unfold listing.sell_item.
  destruct (listing.is_seller profile) eqn:Hseller; simpl negb; cbv iota.
  2: { simpl orb. cbv iota. destruct (listing.seller_status profile); cbn [fst snd];
       split; solve [discriminate | auto]. }
  simpl orb.
  destruct (listing.seller_status profile) eqn:Hstatus; simpl; cbv iota;
    try (split; solve [discriminate | auto]).
  destruct method; [cbn [fst snd]; split; solve [discriminate | auto]|].
  destruct (SellItemForm.is_valid data) eqn:Hvalid;
    [|cbn [fst snd]; split; solve [discriminate | auto]].
  apply is_valid_cleaned in Hvalid
    as (starting & increment & duration & Hs & Hi & Hd & Hstarting & Hincrement
        & Hduration & _ & buy_now & -> & Hbuy_now).
  cbv zeta.
  cbn [fst snd from_option id SellItemForm.cleaned_starting_price
       SellItemForm.cleaned_min_increment SellItemForm.cleaned_buy_now_price
       SellItemForm.cleaned_duration_minutes].
  destruct (datetime_max <? now + timedelta_minutes duration) eqn:Hoverflow;
    [cbn [fst snd]; split; solve [discriminate | auto]|].
  apply Z.ltb_ge in Hoverflow. cbn [fst snd].
  split; [|intros Hnot; congruence].
  intros _. repeat (split; [reflexivity|]).
  exists starting, increment, duration, buy_now.
  repeat (split; [first [assumption | lia]|]).
  split; [destruct buy_now; [split; [apply Hbuy_now|lia]|exact Hbuy_now]|].
  simpl. split; [apply lookup_insert_eq|].
  split; [intros pk Hne; now rewrite lookup_insert_ne by congruence|].
  repeat split.
Qed.

(** ** The detectors and the view *)

(** X28. The age check of [place_bid] and the detector
    [detect_new_account_high_value] test the same settings, the view with
    [>] and the detector with [>=] on the amount: whenever the view
    rejects a bid for the age of the account, the detector flags the
    saved bid; the detector flags more only at exactly the threshold or
    for a user with the bypass. Its alert is of severity high, never
    critical, so it is the view's check that keeps the bid out. *)
Theorem account_age_check_agrees_with_detector cfg now user bid_pk bid reasons :
  let rejected :=
    fst (views.check_account_age cfg now user (Bid.amount bid) false reasons) in
  let flagged :=
    FraudDetectionService.detect_new_account_high_value cfg now bid_pk bid user in
  (rejected = true ->
   flagged = [FraudAlert.new (User.id user) (Bid.item bid)
                             FraudAlert.new_account_high_value FraudAlert.high bid_pk])
  /\ (flagged <> [] -> views.bypass_account_age user = false ->
      Bid.amount bid <> UGX (Settings.HIGH_VALUE_BID_THRESHOLD cfg) ->
      rejected = true)
  /\ Forall (fun a => FraudAlert.severity a = FraudAlert.high) flagged.
Proof.
  unfold views.check_account_age, FraudDetectionService.detect_new_account_high_value,
    FraudDetectionService.alert.
  cbv zeta.
  destruct (days (now - User.date_joined user) <? Settings.MIN_ACCOUNT_AGE_FOR_HIGH_BIDS cfg)
    eqn:Hage;
    destruct (UGX (Settings.HIGH_VALUE_BID_THRESHOLD cfg) <=? Bid.amount bid) eqn:Hhigh;
    destruct (UGX (Settings.HIGH_VALUE_BID_THRESHOLD cfg) <? Bid.amount bid) eqn:Hhigher;
    destruct (views.bypass_account_age user); simpl;
    repeat split; try congruence; try lia; repeat constructor.
Qed.

Lemma sum_of_positive_amounts (l : list Z) x :
  In x l -> Forall (fun y => 0 < y) l ->
  x <= foldr Z.add 0 l /\ ((2 <= length l)%nat -> x < foldr Z.add 0 l).
Proof.
  intros Hin Hpos.
  assert (forall l', Forall (fun y => 0 < y) l' -> 0 <= foldr Z.add 0 l'
                     /\ (l' <> [] -> 0 < foldr Z.add 0 l')) as Hsum.
  { induction 1 as [|y l' Hy Hl' [IH _]]; simpl; [split; [lia|congruence]|].
    split; [lia|]. intros _. lia. }
  induction l as [|y l IH]; [destruct Hin|].
  apply Forall_cons in Hpos as [Hy Hl]. simpl.
  destruct (Hsum l Hl) as [Hge Hgt].
  destruct Hin as [-> | Hin].
  - split; [lia|]. intros Hlen. destruct l; [simpl in Hlen; lia|].
    specialize (Hgt ltac:(discriminate)). lia.
  - destruct (IH Hin Hl) as [IH1 _]. split; lia.
Qed.

(** X29. [detect_unusual_bid_amount] averages over the bids of the item
    with the bid under analysis among them (it is saved before the
    analysis). So with a multiplier above one it cannot flag a bid while
    the item has no more bids than the multiplier, whatever the amount:
    with the multiplier 3, not before the fourth bid. The amounts are
    positive. *)
Theorem unusual_amount_needs_more_bids_than_multiplier cfg db bid_pk bid bidder :
  bids db !! bid_pk = Some bid ->
  (forall k b, bids db !! k = Some b -> Bid.item b = Bid.item bid ->
               0 < Bid.amount b) ->
  (1 < Settings.UNUSUAL_BID_MULTIPLIER cfg)%Q ->
  (inject_Z (count (item_bids db (Bid.item bid)))
   <= Settings.UNUSUAL_BID_MULTIPLIER cfg)%Q ->
  FraudDetectionService.detect_unusual_bid_amount cfg db bid_pk bid bidder = [].
Proof.
  intros Hsaved Hpositive Hmultiplier Hfew.
  unfold FraudDetectionService.detect_unusual_bid_amount.
  set (qs := item_bids db (Bid.item bid)) in *.
  set (amounts := map (fun r : Z * Bid.t => Bid.amount (snd r)) qs).
  assert (In (Bid.amount bid) amounts) as Hin.
  { apply in_map_iff. exists (bid_pk, bid). split; [reflexivity|].
    apply item_bids_spec. auto. }
  assert (Forall (fun y => 0 < y) amounts) as Hpos.
  { apply List.Forall_forall. intros y Hy.
    apply in_map_iff in Hy as ([k b] & <- & Hkb).
    apply item_bids_spec in Hkb as [Hk Hb]. simpl. eauto. }
  destruct (sum_of_positive_amounts amounts (Bid.amount bid) Hin Hpos) as [Hge Hgt].
  assert (count qs = Z.of_nat (length amounts)) as Hcount.
  { unfold count, amounts. now rewrite length_map. }
  rewrite Hcount in Hfew.
  destruct amounts as [|a0 amounts'] eqn:Hamounts; [reflexivity|].
  rewrite <- Hamounts in *. clear Hamounts a0 amounts'.
  set (total := foldr Z.add 0 amounts) in *.
  set (n := Z.of_nat (length amounts)) in *.
  assert (0 < n) as Hn.
  { subst n. destruct amounts; [destruct Hin|simpl; lia]. }
  assert (0 < Bid.amount bid) as Ha by (eapply Hpositive; eauto).
  destruct (Qle_bool (ratio total n * Settings.UNUSUAL_BID_MULTIPLIER cfg)
                     (inject_Z (Bid.amount bid))) eqn:Hle;
    [|now rewrite andb_false_r].
  exfalso. apply Qle_bool_iff in Hle. unfold ratio in Hle.
  assert (0 < total) as Htotal by lia.
  pose proof Hn as Hn'. pose proof Htotal as Htotal'.
  rewrite Zlt_Qlt in Hn', Htotal'. change (inject_Z 0) with 0%Q in *.
  assert ((inject_Z total / inject_Z n * Settings.UNUSUAL_BID_MULTIPLIER cfg
           == inject_Z total * (Settings.UNUSUAL_BID_MULTIPLIER cfg / inject_Z n))%Q)
    as Heq by (field; lra).
  rewrite Heq in Hle.
  assert (1 <= Settings.UNUSUAL_BID_MULTIPLIER cfg / inject_Z n)%Q as Hratio.
  { apply Qle_shift_div_l; lra. }
  assert (inject_Z total <= inject_Z (Bid.amount bid))%Q as Hle' by nra.
  rewrite <- Zle_Qle in Hle'.
  assert (total = Bid.amount bid) as Htotal_eq by lia.
  assert (n = 1) as Hone.
  { destruct (decide (2 <= length amounts)%nat) as [Hlen|Hlen];
      [specialize (Hgt Hlen); lia|subst n; lia]. }
  rewrite Hone, Htotal_eq in Hle.
  assert ((Settings.UNUSUAL_BID_MULTIPLIER cfg / inject_Z 1
           == Settings.UNUSUAL_BID_MULTIPLIER cfg)%Q) as Hdiv by (field; lra).
  rewrite Hdiv in Hle.
  pose proof Ha as Ha'. rewrite Zlt_Qlt in Ha'. change (inject_Z 0) with 0%Q in Ha'.
  nra.
Qed.

Lemma unusual_amount_needs_more_bids_than_multiplier_witness :
  let bid := Bid.mk 10 3 (UGX 40000000) Scenario.now false "web" in
  FraudDetectionService.detect_unusual_bid_amount
    Scenario.cfg (snd (Bid_save_new bid Cases.two_bids)) 3 bid Scenario.bob
  = [].
Proof.
  apply (unusual_amount_needs_more_bids_than_multiplier
           Scenario.cfg
           (snd (Bid_save_new (Bid.mk 10 3 (UGX 40000000) Scenario.now false "web")
                              Cases.two_bids))
           3 (Bid.mk 10 3 (UGX 40000000) Scenario.now false "web") Scenario.bob).
  - vm_compute. reflexivity.
  - intros k b Hk _. cbn in Hk.
    repeat match type of Hk with
           | <[?i := _]> _ !! k = _ =>
               destruct (decide (k = i)) as [->|?];
               [rewrite lookup_insert_eq in Hk; injection Hk as <-;
                vm_compute; reflexivity
               |rewrite lookup_insert_ne in Hk by congruence]
           end.
    rewrite lookup_empty in Hk. discriminate.
  - vm_compute. reflexivity.
  - vm_compute. discriminate.
Defined.

(** ** The two ways to bid *)

(** Step 6 of [place_bid] when one bid of the item is above all its
    others: that bid becomes the winner and its amount the price. *)
Lemma update_auction_state_new_highest item_pk item db k b :
  bids db !! k = Some b -> Bid.item b = item_pk ->
  (forall k' b', bids db !! k' = Some b' -> Bid.item b' = item_pk -> k' <> k ->
                 Bid.amount b' < Bid.amount b) ->
  bids (views.update_auction_state item_pk item db)
  = <[k := Bid.set_is_winning true b]>
      ((fun b => if Bid.item b =? item_pk then Bid.set_is_winning false b else b)
         <$> bids db)
  /\ items (views.update_auction_state item_pk item db)
     = alter (fun row =>
                Item.mk (Item.seller row) (Bid.amount b) (Item.min_increment row)
                        (Item.buy_now_price row) (Item.end_time row)
                        (Item.status row) (Item.bid_count item + 1)
                        (Item.created_at row) (Item.winner row))
             item_pk (items db)
  /\ bid_seq (views.update_auction_state item_pk item db) = bid_seq db.
Proof.
  intros Hk Hb Hhighest. unfold views.update_auction_state.
  set (reset := fun b : Bid.t =>
                  if Bid.item b =? item_pk then Bid.set_is_winning false b else b).
  set (db1 := set_bids (fmap reset) db).
  assert (reset b = Bid.set_is_winning false b) as Hreset.
  { unfold reset. now rewrite Hb, Z.eqb_refl. }
  assert (bids db1 !! k = Some (Bid.set_is_winning false b)) as Hk1.
  { simpl. now rewrite lookup_fmap, Hk, <- Hreset. }
  destruct (first (order_by_desc (fun r => Bid.amount (snd r)) (item_bids db1 item_pk)))
    as [[highest_pk highest]|] eqn:Hfirst.
  - apply (first_order_by_desc (fun r => Bid.amount (snd r))) in Hfirst
      as [Hin Hmax].
    apply item_bids_spec in Hin as [Hhighest_row Hhighest_item].
    assert (highest_pk = k) as ->.
    { destruct (decide (highest_pk = k)) as [|Hne]; [assumption|]. exfalso.
      simpl in Hhighest_row. rewrite lookup_fmap in Hhighest_row.
      destruct (bids db !! highest_pk) as [b0|] eqn:Hb0; simpl in Hhighest_row;
        [|discriminate].
      injection Hhighest_row as <-.
      assert (Bid.item b0 = item_pk /\ Bid.amount (reset b0) = Bid.amount b0)
        as [Hitem0 Hamount0].
      { unfold reset in *. destruct (Bid.item b0 =? item_pk) eqn:Heq; simpl in *.
        - apply Z.eqb_eq in Heq. auto.
        - auto. }
      pose proof (Hhighest highest_pk b0 Hb0 Hitem0 Hne) as Hlower.
      pose proof (Hmax (k, Bid.set_is_winning false b)) as Hupper.
      simpl in Hupper. rewrite Hamount0 in Hupper.
      assert (Bid.amount b <= Bid.amount b0); [|lia].
      apply Hupper. apply item_bids_spec. split; [exact Hk1|exact Hb]. }
    rewrite Hk1 in Hhighest_row. injection Hhighest_row as <-.
    cbn zeta. simpl. split; [|split; reflexivity].
    apply map_eq. intros k'. destruct (decide (k' = k)) as [->|Hne].
    + rewrite lookup_alter_eq, lookup_insert_eq, lookup_fmap, Hk. simpl.
      now rewrite Hreset.
    + now rewrite lookup_alter_ne, lookup_insert_ne by congruence.
  - apply first_order_by_desc_None in Hfirst. exfalso.
    assert (In (k, Bid.set_is_winning false b) (item_bids db1 item_pk)) as Hin.
    { apply item_bids_spec. split; [exact Hk1|exact Hb]. }
    rewrite Hfirst in Hin. destruct Hin.
Qed.

(** The database an admitted bid leaves: step 6 run on the tables with
    the new bid saved. *)
Lemma place_bid_admitted_state cfg now ai_response user method posted pk sess db :
  admitted (fst (views.place_bid cfg now ai_response user method posted pk sess db)) ->
  exists item amount saved,
    items db !! pk = Some item /\ posted = Some amount
    /\ Item.status item = Item.active /\ now < Item.end_time item
    /\ Item.seller item <> User.id user
    /\ Item.current_price item < amount
    /\ Item.current_price item + Item.min_increment item <= amount
    /\ Z.abs amount < 10 ^ 12
    /\ snd (views.place_bid cfg now ai_response user method posted pk sess db)
       = views.update_auction_state pk item saved
    /\ items saved = items db
    /\ bids saved
       = <[bid_seq db := Bid.mk pk (User.id user) amount now false "web"]> (bids db)
    /\ bid_seq saved = bid_seq db + 1.
Proof.
  assert (forall text sess' logged,
             ~ admitted (views.mkReply
                           (views.redirect_item_detail [(views.error, text)])
                           sess' logged)) as Herror.
  { intros text sess' logged (amount & messages & Heq). simpl in Heq. discriminate. }
  unfold views.place_bid.
  destruct (items db !! pk) as [item|] eqn:Hitem;
    [|intros (? & ? & Heq); discriminate].
  destruct method; [intros (? & ? & Heq); discriminate|].
  destruct (Item.seller item =? User.id user) eqn:Hseller;
    [intros Hadm; destruct (Herror _ _ _ Hadm)|].
  destruct (Item.status_eqb (Item.status item) Item.active) eqn:Hstatus; simpl negb;
    cbv iota; [|intros Hadm; destruct (Herror _ _ _ Hadm)].
  destruct (Item.end_time item <=? now) eqn:Hend;
    [intros Hadm; destruct (Herror _ _ _ Hadm)|].
  destruct (PlaceBidForm.is_valid posted (Some item)) as [bid_amount|e] eqn:Hvalid;
    [|intros Hadm; destruct (Herror _ _ _ Hadm)].
  assert (Z.abs bid_amount < 10 ^ 12) as Hdigits.
  { revert Hvalid. unfold PlaceBidForm.is_valid, PlaceBidForm.amount_field.
    destruct posted as [a|]; [|discriminate].
    destruct (Z.abs a <? 10 ^ 12) eqn:Ha; [|discriminate].
    apply Z.ltb_lt in Ha.
    unfold PlaceBidForm.clean_amount. repeat case_match; congruence. }
  apply is_valid_Valid in Hvalid as (Hposted & Habove & Hmin).
  apply status_eqb_eq in Hstatus. apply Z.eqb_neq in Hseller. apply Z.leb_gt in Hend.
  pose proof (check_rapid_frame cfg now user pk item bid_amount sess db) as Hframe1.
  destruct (views.check_rapid cfg now user pk item bid_amount sess db)
    as [[[reject1 reasons1] sess1] db1].
  destruct (views.check_account_age cfg now user bid_amount reject1 reasons1)
    as [reject2 reasons2].
  unfold Bid_save_new.
  set (bid := Bid.mk pk (User.id user) bid_amount now false "web").
  set (db2 := mkDB _ _ _ _ _ _ _ _ _ _).
  pose proof (check_fraud_frame cfg now ai_response user (bid_seq db1)
                bid item reject2 reasons2 db2) as Hframe4.
  destruct (views.check_fraud cfg now ai_response user (bid_seq db1) bid item
                              reject2 reasons2 db2)
    as [[[reject4 reasons4] logged] db4].
  simpl in Hframe1, Hframe4.
  destruct Hframe1 as (Hitems1 & Hbids1 & Hseq1 & _).
  destruct Hframe4 as (Hitems4 & Hbids4 & Hseq4 & _).
  destruct reject4; [intros Hadm; destruct (shown_not_admitted _ _ _ Hadm)|].
  intros _. exists item, bid_amount, db4. cbn [snd].
  repeat (split; [first [reflexivity | assumption]|]).
  split; [|split].
  - rewrite Hitems4. change (items db2) with (items db1). exact Hitems1.
  - rewrite Hbids4. subst db2. simpl. now rewrite Hseq1, Hbids1.
  - rewrite Hseq4. subst db2. simpl. now rewrite Hseq1.
Qed.

(** X30. The view and the consumer agree on the auction, for one request
    at a time. When [place_bid] admits a bid on an item none of whose bids
    is above its current price, [create_bid] (where the query is not
    locked) succeeds for the same user, amount and time, and the two leave
    the same item table and the same bid rows, with the earlier winners
    cleared and the new bid as the winner under the same key; the rows
    differ in the payment method of the new bid only. *)
Theorem web_and_websocket_bids_agree cfg now ai_response user method posted pk sess db :
  (forall k b item,
      bids db !! k = Some b -> Bid.item b = pk -> items db !! pk = Some item ->
      Bid.amount b <= Item.current_price item) ->
  admitted (fst (views.place_bid cfg now ai_response user method posted pk sess db)) ->
  exists amount data,
    posted = Some amount
    /\ let web := snd (views.place_bid cfg now ai_response user method posted pk sess db) in
       let websocket := consumers.create_bid false now user pk amount db in
       fst websocket = consumers.success data
       /\ items (snd websocket) = items web
       /\ bid_seq (snd websocket) = bid_seq web
       /\ bids (snd websocket) !! bid_seq db
          = Some (Bid.mk pk (User.id user) amount now true "websocket")
       /\ bids web
          = <[bid_seq db := Bid.mk pk (User.id user) amount now true "web"]>
              (bids (snd websocket)).
Proof.
  intros Hprice Hadmitted.
  destruct (place_bid_admitted_state cfg now ai_response user method posted pk sess db
              Hadmitted)
    as (item & amount & saved & Hitem & Hposted & Hstatus & Hend & Hseller & Habove
        & Hmin & Hdigits & -> & Hitems0 & Hbids0 & Hseq0).
  set (bid := Bid.mk pk (User.id user) amount now false "web") in *.
  destruct (update_auction_state_new_highest pk item saved (bid_seq db) bid)
    as (Hbids & Hitems & Hseq).
  { rewrite Hbids0. apply lookup_insert_eq. }
  { reflexivity. }
  { intros k' b' Hk' Hb' Hne. rewrite Hbids0 in Hk'.
    rewrite lookup_insert_ne in Hk' by congruence.
    pose proof (Hprice k' b' item Hk' Hb' Hitem). simpl. lia. }
  exists amount. eexists. split; [exact Hposted|]. cbv zeta.
  rewrite Hitems, Hbids, Hseq, Hitems0, Hbids0, Hseq0.
  unfold consumers.create_bid. rewrite Hitem.
  apply status_eqb_eq in Hstatus. rewrite Hstatus. simpl negb. cbv iota.
  replace (Item.end_time item <=? now) with false by lia.
  replace (Item.seller item =? User.id user) with false by lia.
  replace (amount <? Item.current_price item + Item.min_increment item)
    with false by lia.
  unfold consumers.Bid_objects_create.
  cbn [fst snd Bid_save_new]. simpl.
  split; [reflexivity|].
  split; [|split; [reflexivity|split; [apply lookup_insert_eq|]]].
  - apply map_eq. intros k. destruct (decide (k = pk)) as [->|Hne].
    + now rewrite lookup_insert_eq, lookup_alter_eq, Hitem.
    + now rewrite lookup_insert_ne, lookup_alter_ne by congruence.
  - apply map_eq. intros k. destruct (decide (k = bid_seq db)) as [->|Hne].
    + now rewrite !lookup_insert_eq.
    + rewrite !lookup_insert_ne by congruence.
      rewrite !lookup_fmap, lookup_insert_ne by congruence.
      destruct (bids db !! k) as [b0|]; simpl; [|reflexivity]. f_equal.
      destruct (Bid.item b0 =? pk); simpl; [|reflexivity].
      destruct b0 as [i u a t w m]. destruct w; reflexivity.
Qed.

Lemma web_and_websocket_bids_agree_witness :
  exists amount data,
    Some (UGX 550000) = Some amount
    /\ let web :=
         snd (views.place_bid Scenario.cfg Scenario.now None Scenario.bob views.POST
                              (Some (UGX 550000)) 10 Scenario.no_session
                              Cases.settled) in
       let websocket :=
         consumers.create_bid false Scenario.now Scenario.bob 10 amount
                              Cases.settled in
       fst websocket = consumers.success data
       /\ items (snd websocket) = items web
       /\ bid_seq (snd websocket) = bid_seq web
       /\ bids (snd websocket) !! bid_seq Cases.settled
          = Some (Bid.mk 10 (User.id Scenario.bob) amount Scenario.now true
                         "websocket")
       /\ bids web
          = <[bid_seq Cases.settled :=
                Bid.mk 10 (User.id Scenario.bob) amount Scenario.now true "web"]>
              (bids (snd websocket)).
Proof.
  apply (web_and_websocket_bids_agree
           Scenario.cfg Scenario.now None Scenario.bob views.POST
           (Some (UGX 550000)) 10 Scenario.no_session Cases.settled).
  - exact (proj2 settled_consistent).
  - exists (UGX 550000), []. vm_compute. reflexivity.
Defined.

(** * Requests that overlap, and the other ways to bid *)

(** ** Step 6 between the statements of another request *)

(** [place_bid] is its checks followed by step 6. *)
Lemma place_bid_is_checks_then_step6
    cfg now ai_response user method posted pk sess db :
  views.place_bid cfg now ai_response user method posted pk sess db
  = match statements.checks cfg now ai_response user method posted pk sess db with
    | inl outcome => outcome
    | inr (reply, item, db') => (reply, views.update_auction_state pk item db')
    end.
Proof.
  unfold views.place_bid, statements.checks.
  destruct (items db !! pk) as [item|]; [|reflexivity].
  destruct method; [reflexivity|].
  destruct (Item.seller item =? User.id user); [reflexivity|].
  destruct (negb (Item.status_eqb (Item.status item) Item.active)); [reflexivity|].
  destruct (Item.end_time item <=? now); [reflexivity|].
  destruct (PlaceBidForm.is_valid posted (Some item)) as [bid_amount|e]; [|reflexivity].
  destruct (views.check_rapid cfg now user pk item bid_amount sess db)
    as [[[reject1 reasons1] sess1] db1].
  destruct (views.check_account_age cfg now user bid_amount reject1 reasons1)
    as [reject2 reasons2].
  destruct (Bid_save_new _ db1) as [bid_pk db2].
  destruct (views.check_fraud _ _ _ _ _ _ _ _ _ _) as [[[reject4 reasons4] logged] db4].
  destruct reject4; reflexivity.
Qed.

(** The four statements of step 6, run without another request between
    them on a database that holds the item, are
    [views.update_auction_state], and none of them raises. *)
Lemma step6_alone item_pk item db row :
  items db !! item_pk = Some row ->
  statements.step6 item_pk item db
  = Some (views.update_auction_state item_pk item db).
Proof.
  intros Hrow.
  unfold statements.step6, views.update_auction_state, statements.read_highest.
  fold (statements.clear_winners item_pk db).
  set (db1 := statements.clear_winners item_pk db).
  destruct (first (order_by_desc (fun r => Bid.amount (snd r)) (item_bids db1 item_pk)))
    as [[highest_pk highest]|] eqn:Hfirst.
  - apply (first_order_by_desc (fun r => Bid.amount (snd r))) in Hfirst as [Hin _].
    apply item_bids_spec in Hin as [Hhighest _].
    unfold statements.save_winner. rewrite Hhighest.
    unfold statements.save_item. simpl. rewrite Hrow. reflexivity.
  - unfold statements.save_winner, statements.save_item. simpl. rewrite Hrow.
    reflexivity.
Qed.

(** C1 fails for requests that overlap. Alice bids 510,000 and Bob 520,000
    on item 10 (price 500,000, increment 10,000, no bids yet). Alice's
    request saves her bid, clears the winning flags and reads the highest
    bid, hers; then Bob's request runs from start to end, validated against
    the price of 500,000 that is still in the item's row; then Alice's
    request goes on with the bid it read: it marks her bid as winning and
    saves her amount as the price. Both users are told that the bid was
    placed. Afterwards both bids have is_winning = true, the current price
    is 510,000, below Bob's bid of 520,000, and the bid count is 1 for two
    bids. Run one after the other, the same two requests leave Bob's bid as
    the only winner at a price of 520,000. *)
Theorem overlapping_bids_leave_two_winners :
  let later := Scenario.now + timedelta_seconds 1 in
  let alice_bid := Bid.mk 10 2 (UGX 510000) Scenario.now true "web" in
  let bob_bid := Bid.mk 10 3 (UGX 520000) later true "web" in
  (exists reply1 reply2 db,
      statements.overlapped
        Scenario.cfg None
        Scenario.now Scenario.alice (Some (UGX 510000)) Scenario.no_session
        later Scenario.bob (Some (UGX 520000)) Scenario.no_session
        10 Scenario.fresh
      = Some (reply1, reply2, db)
      /\ admitted reply1 /\ admitted reply2
      /\ bids db = {[ 1 := alice_bid; 2 := bob_bid ]}
      /\ items db !! 10
         = Some (Item.mk 1 (UGX 510000) (UGX 10000) (Some (UGX 900000))
                         (timedelta_days 100) Item.active 1 (timedelta_days 50) None)
      /\ ~ auction_consistent db 10)
  /\ (let '(reply1, db1) :=
        views.place_bid Scenario.cfg Scenario.now None Scenario.alice views.POST
                        (Some (UGX 510000)) 10 Scenario.no_session Scenario.fresh in
      let '(reply2, db2) :=
        views.place_bid Scenario.cfg later None Scenario.bob views.POST
                        (Some (UGX 520000)) 10 Scenario.no_session db1 in
      admitted reply1 /\ admitted reply2
      /\ bids db2 = {[ 1 := Bid.set_is_winning false alice_bid; 2 := bob_bid ]}
      /\ items db2 !! 10
         = Some (Item.mk 1 (UGX 520000) (UGX 10000) (Some (UGX 900000))
                         (timedelta_days 100) Item.active 2 (timedelta_days 50) None)).
Proof.
  cbv zeta. split.
  - eexists _, _, _. split; [vm_compute; reflexivity|].
    split; [exists (UGX 510000), []; reflexivity|].
    split; [exists (UGX 520000), []; reflexivity|].
    split; [vm_compute; reflexivity|].
    split; [vm_compute; reflexivity|].
    intros [Hone _].
    specialize (Hone 1 2 (Bid.mk 10 2 (UGX 510000) Scenario.now true "web")
                     (Bid.mk 10 3 (UGX 520000)
                             (Scenario.now + timedelta_seconds 1) true "web")).
    discriminate Hone; vm_compute; reflexivity.
  - destruct (views.place_bid Scenario.cfg Scenario.now None Scenario.alice views.POST
                              (Some (UGX 510000)) 10 Scenario.no_session Scenario.fresh)
      as [reply1 db1] eqn:H1.
    vm_compute in H1. injection H1 as <- <-.
    match goal with
    | |- context [views.place_bid ?c ?n ?a ?u ?m ?p ?k ?s ?d] =>
        destruct (views.place_bid c n a u m p k s d) as [reply2 db2] eqn:H2
    end.
    vm_compute in H2. injection H2 as <- <-.
    split; [eexists _, _; reflexivity|].
    split; [eexists _, _; reflexivity|].
    split; vm_compute; reflexivity.
Qed.

(** Two bids of the highest amount: the one placed first is made the
    winner, read in one piece or statement by statement. *)
Example equal_bids_first_one_wins :
  let tied :=
    set_bids (fun _ => {[ 1 := Scenario.rapid_bid 1;
                          2 := Scenario.rapid_bid 2;
                          3 := Bid.mk 10 3 (UGX 520000) Scenario.now false "web" ]})
             Cases.settled in
  match items tied !! 10 with
  | Some item =>
      Bid.is_winning <$> bids (views.update_auction_state 10 item tied)
      = {[ 1 := false; 2 := true; 3 := false ]}
      /\ statements.step6 10 item tied
         = Some (views.update_auction_state 10 item tied)
  | None => False
  end.
Proof. vm_compute. split; reflexivity. Qed.

(** ** Hard cooldowns and the other ways to bid *)

(** C3 fails for every way to bid but the bid form. Take a user without a
    bypass who holds a hard cooldown (or a suspension) that is in force
    for the item, and a bid that is valid for the auction. [place_bid]
    refuses the bid and leaves no row. But the consumer's [create_bid]
    (where the query is not locked) stores the bid as the winning one, and
    [verify_captcha], for a session that still holds the bid as pending
    (stored when the gate answered with a soft challenge) and the right
    answer to a CAPTCHA, places it as well: neither looks at the cooldown
    table, and after both the cooldown is still there, in force. *)
Theorem hard_cooldown_stops_the_bid_form_only
    cfg now ai_response user pk item amount timestamp flag sess
    captcha_key captcha_value store db k c :
  views.bypass_rapid_bidding user = false ->
  gate_written (cooldowns db) ->
  bids db !! bid_seq db = None ->
  cooldowns db !! k = Some c ->
  in_force now (User.id user) (Some pk) c ->
  is_hard c ->
  items db !! pk = Some item ->
  Item.status item = Item.active ->
  now < Item.end_time item ->
  Item.seller item <> User.id user ->
  Item.current_price item + Item.min_increment item <= amount ->
  views.Session.pending_bid sess !! pk = Some (amount, timestamp) ->
  views.Session.show_captcha sess !! pk = Some flag ->
  now - timestamp <= timedelta_seconds 300 ->
  captcha_key <> EmptyString -> captcha_value <> EmptyString ->
  store !! captcha_key = Some (lower captcha_value) ->
  let web :=
    views.place_bid cfg now ai_response user views.POST (Some amount) pk sess db in
  let websocket := consumers.create_bid false now user pk amount db in
  let verify :=
    verification.verify_captcha cfg now ai_response user views.POST
                                (Some captcha_key) (Some captcha_value) pk sess
                                store db in
  (~ admitted (fst web) /\ bids (snd web) = bids db)
  /\ (exists data,
         fst websocket = consumers.success data
         /\ bids (snd websocket) !! bid_seq db
            = Some (Bid.mk pk (User.id user) amount now true "websocket")
         /\ cooldowns (snd websocket) !! k = Some c)
  /\ (verified (fst (fst verify))
      /\ (exists winning,
             bids (snd verify) !! bid_seq db
             = Some (Bid.mk pk (User.id user) amount now winning "web"))
      /\ cooldowns (snd verify) !! k = Some c).
Proof.
  intros Hbypass Hgate Hfresh Hk Hforce Hhard Hitem Hstatus Hend Hseller Hmin
         Hpending Hshow Hage Hkey Hvalue Hstore.
  cbv zeta. split; [|split].
  - destruct (hard_cooldown_blocks_place_bid
                cfg now ai_response user views.POST (Some amount) pk sess db k c
                Hbypass Hgate Hfresh Hk Hforce Hhard) as (Hrefused & Hbids & _).
    split; assumption.
  - unfold consumers.create_bid. rewrite Hitem, Hstatus. simpl negb. cbv iota.
    replace (Item.end_time item <=? now) with false by lia.
    replace (Item.seller item =? User.id user) with false by lia.
    replace (amount <? Item.current_price item + Item.min_increment item)
      with false by lia.
    unfold consumers.Bid_objects_create. cbn [fst snd Bid_save_new].
    eexists. split; [reflexivity|]. split; [apply lookup_insert_eq|exact Hk].
  - rewrite (verify_captcha_places_pending
               cfg now ai_response user (Some captcha_key) (Some captcha_value) pk
               sess store db item amount timestamp flag captcha_key captcha_value
               Hitem Hstatus Hend Hmin Hpending Hshow Hage).
    2: { destruct captcha_key; [contradiction|reflexivity]. }
    2: { destruct captcha_value; [contradiction|reflexivity]. }
    2: { exact Hstore. }
    cbn [fst snd verification.response].
    set (bid := Bid.mk pk (User.id user) amount now false "web").
    set (db2 := snd (Bid_save_new bid db)).
    pose proof (pass_captcha_challenge_frame (User.id user) (Some pk) db2)
      as (_ & Hbids3 & _).
    pose proof (pass_captcha_challenge_other_rows (User.id user) (Some pk) db2 k c)
      as Hrow3.
    set (db3 := snd (RapidBiddingDetector.pass_captcha_challenge _ _ db2)) in *.
    split; [|split].
    + exists amount, []. reflexivity.
    + assert (bids db3 !! bid_seq db = Some bid) as Hsaved.
      { rewrite Hbids3. subst db2. simpl. apply lookup_insert_eq. }
      destruct (update_auction_state_effect pk item db3 (bid_seq db) bid Hsaved eq_refl)
        as (_ & (winning & Hbid) & _).
      exists winning. exact Hbid.
    + destruct (update_auction_state_cooldowns pk item db3) as [-> _].
      apply Hrow3; [exact Hk|].
      right. right. destruct Hhard as [-> | ->]; discriminate.
Qed.

Lemma hard_cooldown_stops_the_bid_form_only_witness :
  let web :=
    views.place_bid Scenario.cfg Scenario.now None Scenario.alice views.POST
                    (Some (UGX 550000)) 10 Cases.pending Scenario.alice_cooling_down in
  let websocket :=
    consumers.create_bid false Scenario.now Scenario.alice 10 (UGX 550000)
                         Scenario.alice_cooling_down in
  let verify :=
    verification.verify_captcha Scenario.cfg Scenario.now None Scenario.alice views.POST
                                (Some "k1"%string) (Some "XKCD"%string) 10
                                Cases.pending Cases.captchas
                                Scenario.alice_cooling_down in
  let hard_cooldown :=
    Scenario.cooldown 2 (Some 10) BidCooldown.hard_cooldown
                      (Scenario.now - timedelta_minutes 1)
                      (Scenario.now + timedelta_minutes 4) in
  (~ admitted (fst web) /\ bids (snd web) = bids Scenario.alice_cooling_down)
  /\ (exists data,
         fst websocket = consumers.success data
         /\ bids (snd websocket) !! bid_seq Scenario.alice_cooling_down
            = Some (Bid.mk 10 (User.id Scenario.alice) (UGX 550000) Scenario.now true
                           "websocket")
         /\ cooldowns (snd websocket) !! 1 = Some hard_cooldown)
  /\ (verified (fst (fst verify))
      /\ (exists winning,
             bids (snd verify) !! bid_seq Scenario.alice_cooling_down
             = Some (Bid.mk 10 (User.id Scenario.alice) (UGX 550000) Scenario.now
                            winning "web"))
      /\ cooldowns (snd verify) !! 1 = Some hard_cooldown).
Proof.
  apply (hard_cooldown_stops_the_bid_form_only
           Scenario.cfg Scenario.now None Scenario.alice 10 Scenario.laptop
           (UGX 550000) (Scenario.now - timedelta_seconds 40) true Cases.pending
           "k1"%string "XKCD"%string Cases.captchas Scenario.alice_cooling_down
           1 (Scenario.cooldown 2 (Some 10) BidCooldown.hard_cooldown
                (Scenario.now - timedelta_minutes 1)
                (Scenario.now + timedelta_minutes 4))).
  - reflexivity.
  - intros k c Hk _. simpl in Hk.
    apply lookup_singleton_Some in Hk as [_ <-]. right. left. reflexivity.
  - reflexivity.
  - reflexivity.
  - unfold in_force. simpl. repeat split; auto; vm_compute; reflexivity.
  - left. reflexivity.
  - reflexivity.
  - reflexivity.
  - vm_compute. reflexivity.
  - vm_compute. congruence.
  - vm_compute. congruence.
  - vm_compute. reflexivity.
  - vm_compute. reflexivity.
  - vm_compute. congruence.
  - discriminate.
  - discriminate.
  - vm_compute. reflexivity.
Defined.

(** Such a session is what the code itself leaves behind. With rate
    windows that do not fire, Alice's fifth minimal increment after two
    soft challenges makes the gate write a hard cooldown of ten minutes
    and answer soft_challenge, so [place_bid] stores the bid for the
    CAPTCHA; forty seconds later the right answer places the bid, nine
    minutes before the cooldown ends. *)
Example bid_placed_under_the_cooldown_it_caused :
  let place :=
    views.place_bid Scenario.lenient Scenario.now None Scenario.alice views.POST
                    (Some (UGX 550000)) 10 Scenario.no_session Scenario.third_offence in
  let later := Scenario.now + timedelta_seconds 40 in
  let verify :=
    verification.verify_captcha Scenario.lenient later None Scenario.alice views.POST
                                (Some "k1"%string) (Some "XKCD"%string) 10
                                (views.session (fst place)) Cases.captchas
                                (snd place) in
  let hard_cooldown :=
    BidCooldown.mk 2 (Some 10) BidCooldown.hard_cooldown
                   BidCooldown.Repeated_soft_challenge_violations
                   (Scenario.now + timedelta_minutes 10) Scenario.now
                   true false false 0 in
  views.session (fst place) = stash 10 (UGX 550000) Scenario.now Scenario.no_session
  /\ cooldowns (snd place) !! 3 = Some hard_cooldown
  /\ in_force later 2 (Some 10) hard_cooldown
  /\ verified (fst (fst verify))
  /\ bids (snd verify) !! 6 = Some (Bid.mk 10 2 (UGX 550000) later true "web")
  /\ cooldowns (snd verify) !! 3 = Some hard_cooldown.
Proof.
  cbv zeta. split; [vm_compute; reflexivity|]. split; [vm_compute; reflexivity|].
  split; [unfold in_force; simpl; repeat split; auto; vm_compute; reflexivity|].
  split; [exists (UGX 550000), []; vm_compute; reflexivity|].
  split; vm_compute; reflexivity.
Qed.
